(** * rar2john: RAR3 / RAR5 hash extraction

    A shallow embedding of [src/rar2john.c].  C integers are [Z] with their
    wrap-around written out, the archive stream is a [FILE] value with a
    position, an end-of-file indicator and a device that may fail, and the
    functions of the source keep their names.  Control flow that leaves a
    construct early ([return 0], [goto err], [goto BailOut],
    [goto next_file_header]) is the left summand of a small state monad. *)

From Stdlib Require Import ZArith List String Ascii Lia Bool.
From Stdlib.Strings Require Import Byte.
From Stdlib Require Import DecimalString.
Import ListNotations.
Local Open Scope Z_scope.

(** ** C integer types *)

Module CInt.

(** An unsigned integer of [bits] bits. *)
Definition wrap (bits x : Z) : Z := x mod 2 ^ bits.

Definition u8 : Z -> Z := wrap 8.
Definition u16 : Z -> Z := wrap 16.
Definition u32 : Z -> Z := wrap 32.
Definition u64 : Z -> Z := wrap 64.

(** The two's complement reading of the low [bits] bits. *)
Definition signed (bits x : Z) : Z :=
  let y := wrap bits x in
  if y <? 2 ^ (bits - 1) then y else y - 2 ^ bits.

Definition i32 : Z -> Z := signed 32.
Definition i64 : Z -> Z := signed 64.

Definition INT64_MAX : Z := 2 ^ 63 - 1.

(** The largest [int], which has 32 bits. *)
Definition INT_MAX : Z := 2 ^ 31 - 1.

(** [x & mask] is non-zero. *)
Definition has (x mask : Z) : bool := negb (Z.land x mask =? 0).

End CInt.

(** ** The part of <stdio.h> the program uses *)

Module Stdio.

Definition byte_val (b : byte) : Z := Z.of_N (Byte.to_N b).

(** A stream opened for reading.  [device] is the number of [fread]
    calls the device still serves before it reports an error ([None]: it
    never fails); [reads] logs every request as (offset, bytes asked). *)
Record FILE : Type := mkFILE {
  content : list byte;
  offset : Z;
  at_eof : bool;
  device : option nat;
  reads : list (Z * Z)
}.

Inductive whence : Type := SEEK_SET | SEEK_CUR | SEEK_END.

Definition file_size (fp : FILE) : Z := Z.of_nat (List.length (content fp)).

(** The bytes between the position and the end of the file. *)
Definition remaining (fp : FILE) : list byte :=
  skipn (Z.to_nat (offset fp)) (content fp).

(** How many bytes are left of the stream. *)
Definition left_ (fp : FILE) : nat := List.length (remaining fp).

(** [fread(buf, size, nmemb, fp)]: the number of complete items read, the
    bytes stored at the start of [buf], and the stream afterwards.  A
    request of zero bytes returns 0 and touches nothing. *)
Definition fread (size nmemb : Z) (fp : FILE) : Z * list Z * FILE :=
  let total := size * nmemb in
  if total <=? 0 then (0, [], fp)
  else
    let logged := reads fp ++ [(offset fp, total)] in
    match device fp with
    | Some O =>
        (0, [], mkFILE (content fp) (offset fp) (at_eof fp) (Some O) logged)
    | dev =>
        let got := firstn (Z.to_nat total) (remaining fp) in
        let k := Z.of_nat (List.length got) in
        (k / size, map byte_val got,
         mkFILE (content fp) (offset fp + k) (at_eof fp || (k <? total))
                (option_map Nat.pred dev) logged)
    end.

Definition feof (fp : FILE) : bool := at_eof fp.

(** [fseek] with a 64-bit signed offset ([jtr_fseek64] and, on the LP64
    targets, [fseek]).  A target outside [0, INT64_MAX] fails and leaves
    the stream as it was; success clears the end-of-file indicator. *)
Definition fseek (off : Z) (w : whence) (fp : FILE) : FILE :=
  let base := match w with
              | SEEK_SET => 0
              | SEEK_CUR => offset fp
              | SEEK_END => file_size fp
              end in
  let target := base + off in
  if (target <? 0) || (CInt.INT64_MAX <? target) then fp
  else mkFILE (content fp) target false (device fp) (reads fp).

Definition ftell (fp : FILE) : Z := offset fp.

(** What a buffer holds after [fread] stored [got] at its start. *)
Definition store (got buf : list Z) : list Z :=
  got ++ skipn (List.length got) buf.

(** A file on disk: its bytes and the health of its device. *)
Record disk_file : Type := mkDisk {
  image : list byte;
  healthy_reads : option nat
}.

Definition filesystem : Type := string -> option disk_file.

Definition fopen (fs : filesystem) (name : string) : option FILE :=
  match fs name with
  | Some d => Some (mkFILE (image d) 0 false (healthy_reads d) [])
  | None => None
  end.

End Stdio.

Import Stdio.

(** ** What the program needs from the rest of the code base *)

(** Declarations of headers that are not part of [src/] ([jumbo.h],
    [params.h], [unicode.h], [base64_convert.h], [sha2.h], [rar2john.h])
    and the properties of the build. *)
Class Environment : Type := {
  (** [sizeof(size_t)], 4 or 8. *)
  sizeof_size_t : Z;
  (** params.h *)
  LINE_BUFFER_SIZE : Z;
  PATH_BUFFER_SIZE : Z;
  (** jumbo.h *)
  basename : string -> string;
  (** base64_convert.h, at the flavours the calls fix (raw to hex). *)
  base64_convert_cp : list Z -> string;
  (** sha2.h: [SHA256_Init], [SHA256_Update], [SHA256_Final]. *)
  SHA256 : list Z -> list Z;
  (** unicode.h: the UTF-8 bytes [utf16_to_utf8_r] stores for a
      destination of the given size and a UTF-16 source. *)
  utf16_to_utf8_r : Z -> list Z -> list Z;
  (** rar2john.h, the constants the spec gives no value for. *)
  CRYPT_VERSION : Z;
  CHFL_CRYPT_PSWCHECK : Z;
  MHFL_VOLNUMBER : Z;
  FHFL_UTIME : Z;
  FHFL_CRC32 : Z;
  (** What an automatic array of the given size holds before it is
      written. *)
  stack_junk : Z -> list Z
}.

(** The constants of [rar2john.h], which is not under [src/], with the
    values the data model of the spec gives them. *)

(** Modelled from the spec: [rar2john.h], header type "main (1)". *)
Definition HEAD_MAIN : Z := 1.
(** Modelled from the spec: [rar2john.h], header type "file (2)". *)
Definition HEAD_FILE : Z := 2.
(** Modelled from the spec: [rar2john.h], header type "service (3)". *)
Definition HEAD_SERVICE : Z := 3.
(** Modelled from the spec: [rar2john.h], header type "crypt (4)". *)
Definition HEAD_CRYPT : Z := 4.
(** Modelled from the spec: [rar2john.h], header type "end-of-archive (5)". *)
Definition HEAD_ENDARC : Z := 5.
(** Modelled from the spec: [rar2john.h], "extra-area size (flag 0x01)". *)
Definition HFL_EXTRA : Z := 1.
(** Modelled from the spec: [rar2john.h], "data size (flag 0x02)". *)
Definition HFL_DATA : Z := 2.
(** Modelled from the spec: [rar2john.h], "field type = crypt (1)". *)
Definition FHEXTRA_CRYPT : Z := 1.
(** Modelled from the spec: [rar2john.h], "the password-check flag (0x01)"
    of the crypt record of an extra area. *)
Definition FHEXTRA_CRYPT_PSWCHECK : Z := 1.
(** Modelled from the spec: [rar2john.h], "16-byte salt". *)
Definition SIZE_SALT50 : Z := 16.
(** Modelled from the spec: [rar2john.h], "16-byte IV". *)
Definition SIZE_INITV : Z := 16.
(** Modelled from the spec: [rar2john.h], "12-byte password-check value". *)
Definition SIZE_PSWCHECK : Z := 12.
(** Modelled from the spec: [rar2john.h], "4-byte SHA-256-truncation
    checksum". *)
Definition SIZE_PSWCHECK_CSUM : Z := 4.
(** Modelled from the spec: [rar2john.h], log2(iteration-count) "must be
    <= 24". *)
Definition CRYPT5_KDF_LG2_COUNT_MAX : Z := 24.

Definition CHUNK_SIZE : Z := 4096.
Definition PATH_BUF_SIZE : Z := 256.

(** The bytes with the given values. *)
Definition bytes_of (l : list Z) : list byte :=
  map (fun z => match Byte.of_N (Z.to_N z) with
                | Some b => b
                | None => "000"%byte
                end) l.

Definition RAR_OLD_MAGIC : list Z := [0x52; 0x45; 0x7e; 0x5e].
Definition RAR3_MAGIC : list Z := [0x52; 0x61; 0x72; 0x21; 0x1a; 0x07; 0x00].
Definition RAR5_MAGIC : list Z :=
  [0x52; 0x61; 0x72; 0x21; 0x1a; 0x07; 0x01; 0x00].
Definition RAR_OLD_MAGIC_SIZE : Z := 4.
Definition RAR3_MAGIC_SIZE : Z := 7.
Definition RAR5_MAGIC_SIZE : Z := 8.

(** ** Text *)

Definition nl : string := String (ascii_of_nat 10) EmptyString.

(** Modelled from the spec: [itoa16] of [common.h], the lowercase base-16
    digits. *)
Definition itoa16 (i : Z) : ascii :=
  nth (Z.to_nat i)
      (list_ascii_of_string "0123456789abcdef") "0"%char.

(** [printf("%c%c", itoa16[b >> 4], itoa16[b & 0x0f])] *)
Definition hex2 (b : Z) : string :=
  String (itoa16 (Z.shiftr b 4)) (String (itoa16 (Z.land b 0x0f)) EmptyString).

Definition hex_of (l : list Z) : string :=
  fold_right (fun b s => (hex2 b ++ s)%string) EmptyString l.

(** ["%d"] and ["%" PRIu64] of a value that is not negative. *)
Definition dec (n : Z) : string := NilZero.string_of_uint (N.to_uint (Z.to_N n)).

(** ["%s"] of a byte buffer: the characters before the first NUL. *)
Fixpoint c_string (l : list Z) : string :=
  match l with
  | [] => EmptyString
  | c :: l' =>
      if c =? 0 then EmptyString
      else String (ascii_of_N (Z.to_N c)) (c_string l')
  end.

Definition strlen (l : list Z) : Z := Z.of_nat (String.length (c_string l)).

(** The first [n] characters of a string. *)
Definition take (n : Z) (s : string) : string :=
  String.substring 0 (Z.to_nat n) s.

(** [memcmp(a, b, n) == 0] *)
Definition mem_equal (a b : list Z) (n : Z) : bool :=
  if list_eq_dec Z.eq_dec (firstn (Z.to_nat n) a) (firstn (Z.to_nat n) b)
  then true else false.

(** [memmem]: the index of the first occurrence of [needle]. *)
Fixpoint memmem (hay needle : list Z) : option Z :=
  if mem_equal hay needle (Z.of_nat (List.length needle))
     && (List.length needle <=? List.length hay)%nat
  then Some 0
  else match hay with
       | [] => None
       | _ :: hay' => option_map Z.succ (memmem hay' needle)
       end.

(** ** Diagnostics on stderr, one constructor per message *)

Inductive diag : Type :=
| D_open_failed (archive : string)
| D_not_rar (archive : string)
| D_too_old (archive : string)
| D_read_failed (archive : string)
| D_bad_archive_tag (archive : string)
| D_blank_line
| D_end_of_file (archive : string)
| D_comment_block (archive : string)
| D_no_more_headers (archive : string)
| D_hp_entry (base : string)
| D_flag_8000_unset
| D_sizes (head pack unp : Z)
| D_hdr_block (blk : list Z)
| D_high_word (word : list Z)
| D_high_pack_present
| D_high_unp_present
| D_unsupported_64bit (archive : string)
| D_name_size (n : Z)
| D_check_fread (buf_size size nmemb : Z)
| D_oem_name (name : string)
| D_unicode_name (name : string)
| D_utf8_name (name : string)
| D_file_name (name : string)
| D_ext_time (n : Z)
| D_solid
| D_directory
| D_dict_size (kb : Z)
| D_not_encrypted
| D_better_already
| D_best_so_far
| D_salt (best : string)
| D_unp_ver (v : Z)
| D_method (m letter : Z)
| D_read_archive
| D_found_candidate (base : string)
| D_too_small
| D_no_candidate (name : string)
| D_pswcheck_off
| D_lg2count
| D_iv_short (archive : string)
| D_usage (name : string).

(** ** Program state *)

(** The file-scope variables of the source. *)
Record Globals : Type := mkGlobals {
  verbose : bool;
  Encrypted : bool;
  PswCheck : list Z;
  rar5_interations : Z;
  UsePswCheck : bool;
  rar5_salt : list Z
}.

(** Static storage is zero-initialised. *)
Definition initial_globals (v : bool) : Globals :=
  mkGlobals v false (repeat 0 (Z.to_nat SIZE_PSWCHECK)) 0 false
            (repeat 0 (Z.to_nat SIZE_SALT50)).

(** The stream being read, the globals, the writes to stdout (one entry
    per [printf] or [puts] call, oldest first), the messages on stderr,
    and [found], the local of [process_file5] that [read_rar5_header] and
    [ProcessExtra50] update through a pointer. *)
Record World : Type := mkWorld {
  fp : FILE;
  glob : Globals;
  stdout : list string;
  stderr : list diag;
  found : Z
}.

Definition set_fp (f : FILE) (w : World) : World :=
  mkWorld f (glob w) (stdout w) (stderr w) (found w).
Definition set_glob (g : Globals) (w : World) : World :=
  mkWorld (fp w) g (stdout w) (stderr w) (found w).
Definition set_found (n : Z) (w : World) : World :=
  mkWorld (fp w) (glob w) (stdout w) (stderr w) n.

(** ** A state monad with early exit *)

Module Ctl.

(** A computation either ends normally with a value ([inr]) or leaves
    the enclosing construct with an exit value ([inl]). *)
Definition M (E A : Type) : Type := World -> (E + A) * World.

Definition ret {E A : Type} (a : A) : M E A := fun w => (inr a, w).

Definition bind {E A B : Type} (c : M E A) (k : A -> M E B) : M E B :=
  fun w => match c w with
           | (inl e, w') => (inl e, w')
           | (inr a, w') => k a w'
           end.

Definition leave {E A : Type} (e : E) : M E A := fun w => (inl e, w).

(** An operation on the stream. *)
Definition io {E A : Type} (f : FILE -> A * FILE) : M E A :=
  fun w => let (a, f') := f (fp w) in (inr a, set_fp f' w).

Definition seek {E : Type} (off : Z) (wh : whence) : M E unit :=
  fun w => (inr tt, set_fp (fseek off wh (fp w)) w).

Definition get {E : Type} : M E World := fun w => (inr w, w).

Definition update {E : Type} (f : Globals -> Globals) : M E unit :=
  fun w => (inr tt, set_glob (f (glob w)) w).

Definition printf {E : Type} (s : string) : M E unit :=
  fun w => (inr tt, mkWorld (fp w) (glob w) (stdout w ++ [s]) (stderr w) (found w)).

Definition eprintf {E : Type} (d : diag) : M E unit :=
  fun w => (inr tt, mkWorld (fp w) (glob w) (stdout w) (stderr w ++ [d]) (found w)).

Definition when {E : Type} (b : bool) (c : M E unit) : M E unit :=
  if b then c else ret tt.

(** The body of a C function: both ways of ending give its result. *)
Definition body {R : Type} (c : M R R) : World -> R * World :=
  fun w => match c w with
           | (inl r, w') => (r, w')
           | (inr r, w') => (r, w')
           end.

(** How a function with a loop that needs fuel ended.  [Undefined]: it
    reached a statement whose behaviour C leaves undefined, and nothing
    is said about the program from there on. *)
Inductive stop (R : Type) : Type :=
| Returned (r : R)
| Starved
| Undefined.
Arguments Returned {R} r.
Arguments Starved {R}.
Arguments Undefined {R}.

End Ctl.

Import Ctl.

Declare Scope ctl_scope.
Delimit Scope ctl_scope with ctl.
Notation "x <- c ;; k" := (bind c (fun x => k))
  (at level 61, c at next level, right associativity) : ctl_scope.
Notation "' p <- c ;; k" := (bind c (fun x => match x with p => k end))
  (at level 61, p pattern, c at next level, right associativity) : ctl_scope.
Notation "c ;; k" := (bind c (fun _ => k))
  (at level 61, right associativity) : ctl_scope.
Local Open Scope ctl_scope.

(** ** RAR5: the readers *)

Section Readers.

Context {env : Environment}.

Definition size_bits : Z := 8 * sizeof_size_t.

(** A value converted to [size_t]. *)
Definition size_t (x : Z) : Z := CInt.wrap size_bits x.

Definition SIZE_MAX : Z := 2 ^ size_bits - 1.

(** An automatic array of [n] elements that was not initialised. *)
Definition uninit (n : Z) : list Z :=
  firstn (Z.to_nat n) (stack_junk n ++ repeat 0 (Z.to_nat n)).

(** The value of four bytes, least significant first. *)
Definition le32 (b : list Z) : Z :=
  CInt.u32 (nth 0 b 0 + Z.shiftl (nth 1 b 0) 8
            + Z.shiftl (nth 2 b 0) 16 + Z.shiftl (nth 3 b 0) 24).

(** Each reader gives its return value, what it stored through its
    second argument, and the caller's counter [*bytes_read]. *)

Definition read_uint32 (bytes_read : Z) (f : FILE) : (Z * Z * Z) * FILE :=
  let '(n, Buf, f') := fread 1 4 f in
  if n <? 4 then ((0, 0, bytes_read), f')
  else ((4, le32 Buf, CInt.u32 (bytes_read + 4)), f').

Definition read_uint8 (old bytes_read : Z) (f : FILE) : (Z * Z * Z) * FILE :=
  let '(n, Buf, f') := fread 1 1 f in
  if n <? 1 then ((0, old, bytes_read), f')
  else ((1, nth 0 Buf 0, CInt.u32 (bytes_read + 1)), f').

Definition read_buf (cp : list Z) (len bytes_read : Z) (f : FILE)
  : (Z * list Z * Z) * FILE :=
  let '(n, got, f') := fread 1 (size_t len) f in
  if n <? 1 then ((0, cp, bytes_read), f')
  else ((len, store got cp, CInt.u32 (bytes_read + len)), f').

(** The loop of [read_vuint]: [k] iterations are left, [i] were done. *)
Fixpoint read_vuint_loop (k : nat) (i shift n bytes_read : Z) (f : FILE)
  : (Z * Z * Z) * FILE :=
  match k with
  | O => ((0, n, bytes_read), f)
  | S k' =>
      let '(got, c, f') := fread 1 1 f in
      if negb (got =? 1) then ((0, n, bytes_read), f')
      else
        let accum := Z.land (nth 0 c 0) 0x7f in
        let n' := CInt.u64 (n + CInt.u64 (Z.shiftl accum shift)) in
        if Z.land (nth 0 c 0) 0x80 =? 0
        then ((i + 1, n', CInt.u32 (bytes_read + (i + 1))), f')
        else read_vuint_loop k' (i + 1) (shift + 7) n' bytes_read f'
  end.

Definition read_vuint (bytes_read : Z) (f : FILE) : (Z * Z * Z) * FILE :=
  read_vuint_loop 10 0 0 0 bytes_read f.

End Readers.

(** ** RAR5: blocks *)

Section Rar5.

Context {env : Environment}.

(** [if (!reader(...)) return 0;] *)
Definition must {A : Type} (rd : FILE -> (Z * A * Z) * FILE)
  : M (stop Z) (Z * A * Z) :=
  ' (r, a, n) <- io rd ;;
  if r =? 0 then leave (Returned 0) else ret (r, a, n).

(** The line both RAR5 paths print. *)
Definition rar5_record (base : string) (salt : list Z) (count : Z)
           (iv check : list Z) : string :=
  (base ++ ":$rar5$" ++ dec SIZE_SALT50 ++ "$"
     ++ base64_convert_cp (firstn (Z.to_nat SIZE_SALT50) salt) ++ "$"
     ++ dec count ++ "$"
     ++ base64_convert_cp (firstn (Z.to_nat SIZE_INITV) iv) ++ "$"
     ++ dec SIZE_PSWCHECK ++ "$"
     ++ base64_convert_cp (firstn (Z.to_nat SIZE_PSWCHECK) check) ++ nl)%string.

Definition set_rar5_salt (s : list Z) (g : Globals) : Globals :=
  mkGlobals (verbose g) (Encrypted g) (PswCheck g) (rar5_interations g)
            (UsePswCheck g) s.
Definition set_PswCheck (p : list Z) (g : Globals) : Globals :=
  mkGlobals (verbose g) (Encrypted g) p (rar5_interations g)
            (UsePswCheck g) (rar5_salt g).
Definition set_UsePswCheck (b : bool) (g : Globals) : Globals :=
  mkGlobals (verbose g) (Encrypted g) (PswCheck g) (rar5_interations g)
            b (rar5_salt g).
Definition set_rar5_interations (n : Z) (g : Globals) : Globals :=
  mkGlobals (verbose g) (Encrypted g) (PswCheck g) n
            (UsePswCheck g) (rar5_salt g).
Definition set_Encrypted (b : bool) (g : Globals) : Globals :=
  mkGlobals (verbose g) b (PswCheck g) (rar5_interations g)
            (UsePswCheck g) (rar5_salt g).

(** [read_buf] into one of the two global arrays: the array is written
    whether or not the caller goes on. *)
Definition read_global (cur : Globals -> list Z)
           (set : list Z -> Globals -> Globals) (len bytes_read : Z)
  : M (stop Z) Z :=
  w <- get ;;
  ' (r, buf, n) <- io (read_buf (cur (glob w)) len bytes_read) ;;
  update (set buf) ;;
  if r =? 0 then leave (Returned 0) else ret n.

(** The [FHEXTRA_CRYPT] record of a file or service block, from its
    version field on. *)
Definition extra_crypt (bytes_read : Z) (archive_name : string)
  : M (stop Z) unit :=
  ' (_, EncVersion, n) <- must (read_vuint bytes_read) ;;
  ' (_, Flags, n) <- must (read_vuint n) ;;
  if Z.land Flags FHEXTRA_CRYPT_PSWCHECK =? 0
  then eprintf D_pswcheck_off ;; leave (Returned 0)
  else
    ' (_, Lg2Count, n) <- must (read_uint8 (nth 0 (uninit 1) 0) n) ;;
    if CRYPT5_KDF_LG2_COUNT_MAX <=? Lg2Count
    then eprintf D_lg2count ;; leave (Returned 0)
    else
      n <- read_global rar5_salt set_rar5_salt SIZE_SALT50 n ;;
      ' (_, InitV, n) <- must (read_buf (uninit SIZE_INITV) SIZE_INITV n) ;;
      n <- read_global PswCheck set_PswCheck SIZE_PSWCHECK n ;;
      (fun w => (inr tt, set_found (CInt.i32 (found w + 1)) w)) ;;
      w <- get ;;
      printf (rar5_record (basename archive_name) (rar5_salt (glob w))
                          Lg2Count InitV (PswCheck (glob w))) ;;
      leave (Returned 0).

(** The [while (1)] of [ProcessExtra50]. *)
Fixpoint ProcessExtra50_loop (fuel : nat) (bytes_left bytes_read : Z)
         (HeaderType : Z) (archive_name : string) : M (stop Z) unit :=
  match fuel with
  | O => leave Starved
  | S fuel' =>
      ' (len, FieldSize, n) <- io (read_vuint bytes_read) ;;
      if (len =? 0) || (3 <? len) then leave (Returned 0)
      else
        let bytes_left := CInt.i32 (bytes_left - len) in
        let bytes_left := CInt.i32 (bytes_left - CInt.u32 FieldSize) in
        if bytes_left <? 0 then leave (Returned 0)
        else
          ' (_, FieldType, n) <- must (read_vuint n) ;;
          if ((HeaderType =? HEAD_FILE) || (HeaderType =? HEAD_SERVICE))
             && (FieldType =? FHEXTRA_CRYPT)
          then extra_crypt n archive_name
          else ProcessExtra50_loop fuel' bytes_left n HeaderType archive_name
  end.

(** A call: the callee's [return] gives the value of the call; only a
    loop that ran out of fuel leaves the caller too. *)
Definition call {R R' : Type} (c : M (stop R) R) : M (stop R') R :=
  fun w => match c w with
           | (inl (Returned r), w') => (inr r, w')
           | (inl Starved, w') => (inl Starved, w')
           | (inl Undefined, w') => (inl Undefined, w')
           | (inr r, w') => (inr r, w')
           end.

(** Every iteration that goes on has consumed at least two bytes of the
    stream, so the file size bounds the iterations. *)
Definition ProcessExtra50 (extra_size HeadSize HeaderType CurBlockPos : Z)
           (archive_name : string) : M (stop Z) Z :=
  w <- get ;;
  ProcessExtra50_loop (S (List.length (content (fp w))))
                      (CInt.i32 extra_size) 0 HeaderType archive_name ;;
  ret 1.

(** The [HEAD_CRYPT] branch of [read_rar5_header]. *)
Definition crypt_block (bytes_read : Z) : M (stop Z) unit :=
  ' (_, crypt_version, n) <- must (read_vuint bytes_read) ;;
  if CRYPT_VERSION <? crypt_version
  then printf ("bad rar crypt version byte" ++ nl) ;; leave (Returned 0)
  else
    ' (_, enc_flags, n) <- must (read_vuint n) ;;
    update (set_UsePswCheck (CInt.has enc_flags CHFL_CRYPT_PSWCHECK)) ;;
    ' (_, lg_2count, n) <- must (read_uint8 (nth 0 (uninit 1) 0) n) ;;
    if CRYPT5_KDF_LG2_COUNT_MAX <? lg_2count
    then printf ("rar PBKDF2 iteration count too large" ++ nl) ;;
         leave (Returned 0)
    else
      update (set_rar5_interations lg_2count) ;;
      n <- read_global rar5_salt set_rar5_salt SIZE_SALT50 n ;;
      w <- get ;;
      (if UsePswCheck (glob w)
       then
         n <- read_global PswCheck set_PswCheck SIZE_PSWCHECK n ;;
         ' (_, chksum, n) <- must (read_buf (uninit SIZE_PSWCHECK_CSUM)
                                            SIZE_PSWCHECK_CSUM n) ;;
         w <- get ;;
         update (set_UsePswCheck
                   (mem_equal (SHA256 (firstn (Z.to_nat SIZE_PSWCHECK)
                                              (PswCheck (glob w))))
                              chksum SIZE_PSWCHECK_CSUM))
       else ret tt) ;;
      update (set_Encrypted true).

(** The [HEAD_MAIN] branch. *)
Definition main_block (bytes_read : Z) : M (stop Z) unit :=
  ' (_, ArcFlags, n) <- must (read_vuint bytes_read) ;;
  if CInt.has ArcFlags MHFL_VOLNUMBER
  then ' (_, VolNumber, n) <- must (read_vuint n) ;; ret tt
  else ret tt.

(** The [HEAD_FILE] / [HEAD_SERVICE] branch. *)
Definition file_block (bytes_read extra_size HeadSize HeaderType CurBlockPos : Z)
           (archive_name : string) : M (stop Z) unit :=
  ' (_, FileFlags, n) <- must (read_vuint bytes_read) ;;
  ' (_, UnpSize, n) <- must (read_vuint n) ;;
  ' (_, FileAttr, n) <- must (read_vuint n) ;;
  n <- (if CInt.has FileFlags FHFL_UTIME
        then ' (_, tmp, n) <- must (read_uint32 n) ;; ret n
        else ret n) ;;
  n <- (if CInt.has FileFlags FHFL_CRC32
        then ' (_, FileHashCRC32, n) <- must (read_uint32 n) ;; ret n
        else ret n) ;;
  ' (_, CompInfo, n) <- must (read_vuint n) ;;
  ' (_, HostOS, n) <- must (read_vuint n) ;;
  ' (_, NameSize, n) <- must (read_vuint n) ;;
  seek (CInt.i64 NameSize) SEEK_CUR ;;
  if negb (extra_size =? 0)
  then _ <- call (ProcessExtra50 extra_size HeadSize HeaderType CurBlockPos
                                 archive_name) ;; ret tt
  else ret tt.

(** The position of the next block, or 0 to stop. *)
Definition read_rar5_header (CurBlockPos : Z) (archive_name : string)
  : M (stop Z) Z :=
  w <- get ;;
  if Encrypted (glob w)
  then
    ' (sizeof_vint, HeadersInitV, n) <-
       io (read_buf (uninit SIZE_INITV) SIZE_INITV 0) ;;
    if negb (CInt.u32 sizeof_vint =? SIZE_INITV)
    then eprintf (D_iv_short archive_name) ;; leave (Returned 0)
    else
      (fun w => (inr tt, set_found (CInt.i32 (found w + 1)) w)) ;;
      w <- get ;;
      printf (rar5_record (basename archive_name) (rar5_salt (glob w))
                          (rar5_interations (glob w)) HeadersInitV
                          (PswCheck (glob w))) ;;
      leave (Returned 0)
  else
    ' (_, head_crc, n) <- must (read_uint32 0) ;;
    ' (sizeof_vint, block_size, n) <- must (read_vuint n) ;;
    let HeadSize := CInt.u64 (block_size + 4 + CInt.u32 sizeof_vint) in
    ' (_, header_type, n) <- must (read_uint8 (nth 0 (uninit 1) 0) n) ;;
    ' (_, flags, n) <- must (read_vuint n) ;;
    ' (extra_size, n) <-
       (if CInt.has flags HFL_EXTRA
        then ' (_, x, n) <- must (read_vuint n) ;; ret (x, n)
        else ret (0, n)) ;;
    ' (data_size, n) <-
       (if CInt.has flags HFL_DATA
        then ' (_, x, n) <- must (read_vuint n) ;; ret (x, n)
        else ret (0, n)) ;;
    (if header_type =? HEAD_CRYPT then crypt_block n
     else if header_type =? HEAD_MAIN then main_block n
     else if (header_type =? HEAD_FILE) || (header_type =? HEAD_SERVICE)
     then file_block n extra_size HeadSize header_type CurBlockPos archive_name
     else if header_type =? HEAD_ENDARC then leave (Returned 0)
     else ret tt) ;;
    ret (size_t (CInt.u64 (CurBlockPos + HeadSize + data_size))).

(** The search for the magic inside a self-extracting archive, shared by
    [process_file] and [process_file5]: whether it was found, and the
    stream, which is then just behind the magic.  [None]: out of fuel.
    The offset of [jtr_fseek64] is taken to be a signed 64-bit integer. *)
Fixpoint sfx_scan (fuel : nat) (magic : list Z) (f : FILE)
  : option (bool * FILE) :=
  let magic_size := Z.of_nat (List.length magic) in
  match fuel with
  | O => None
  | S fuel' =>
      if feof f then Some (false, f)
      else
        let '(count, buf, f1) := fread 1 CHUNK_SIZE f in
        if count <? magic_size then Some (false, f1)
        else
          match memmem buf magic with
          | Some pos =>
              let diff := CInt.i32 (count - pos) in
              let f2 := fseek (CInt.i64 (- diff)) SEEK_CUR f1 in
              Some (true, fseek (CInt.i64 (size_t magic_size)) SEEK_CUR f2)
          | None =>
              if feof f1 then Some (false, f1)
              else sfx_scan fuel' magic
                     (fseek (CInt.i64 (size_t (1 - magic_size))) SEEK_CUR f1)
          end
  end.

(** The [while (1)] of [process_file5]. *)
Fixpoint rar5_blocks (fuel : nat) (archive_name : string) : M (stop Z) unit :=
  match fuel with
  | O => leave Starved
  | S fuel' =>
      w <- get ;;
      let CurBlockPos := size_t (ftell (fp w)) in
      NextBlockPos <- call (read_rar5_header CurBlockPos archive_name) ;;
      if NextBlockPos =? 0 then ret tt
      else seek (CInt.i64 NextBlockPos) SEEK_SET ;;
           rar5_blocks fuel' archive_name
  end.

(** [process_file5]; [fuel] bounds the blocks it visits. *)
Definition process_file5 (fuel : nat) (fs : filesystem) (archive_name : string)
  : M (stop Z) Z :=
  match fopen fs archive_name with
  | None => eprintf (D_open_failed archive_name) ;; ret 0
  | Some f =>
      (fun w => (inr tt, set_found 0 (set_fp f w))) ;;
      ' (n, Magic) <- io (fread RAR5_MAGIC_SIZE 1) ;;
      if negb (n =? 1) then eprintf (D_not_rar archive_name) ;; ret 0
      else
        (if mem_equal Magic [0x4d; 0x5a] 2
         then
           w <- get ;;
           match sfx_scan (S (List.length (content (fp w)))) RAR5_MAGIC (fp w) with
           | None => leave Starved
           | Some (hit, f') =>
               fun w => (inr tt, set_found (if hit : bool then 1 else 0)
                                           (set_fp f' w))
           end
         else ret tt) ;;
        w <- get ;;
        if negb (mem_equal Magic RAR5_MAGIC RAR5_MAGIC_SIZE) && (found w =? 0)
        then eprintf (D_not_rar archive_name) ;; ret 0
        else
          (fun w => (inr tt, set_found 0 w)) ;;
          rar5_blocks fuel archive_name ;;
          w <- get ;;
          when (found w =? 0) (eprintf (D_no_candidate archive_name)) ;;
          ret 1
  end.

End Rar5.

(** ** RAR3: file names *)

Section FileNames.

Context {env : Environment}.

(** [a[i]]; an index outside the array has no meaning in C and reads 0
    here. *)
Definition at_ (a : list Z) (i : Z) : Z :=
  if i <? 0 then 0 else nth (Z.to_nat i) a 0.

(** [a[i] = v] *)
Definition put (i v : Z) (a : list Z) : list Z :=
  if (i <? 0) || (Z.of_nat (List.length a) <=? i) then a
  else firstn (Z.to_nat i) a ++ v :: skipn (S (Z.to_nat i)) a.

(** The two [for] loops of command 3: [Length] positions are filled
    with [val DecPos] while the destination lasts. *)
Fixpoint copy_run (k : nat) (Length DecPos MaxDecSize : Z) (val : Z -> Z)
         (NameW : list Z) : Z * list Z :=
  match k with
  | O => (DecPos, NameW)
  | S k' =>
      if (0 <? Length) && (DecPos <? MaxDecSize)
      then copy_run k' (Length - 1) (DecPos + 1) MaxDecSize val
                    (put DecPos (val DecPos) NameW)
      else (DecPos, NameW)
  end.

(** The [while] of [DecodeFileName], on a little-endian host. *)
Fixpoint decode_loop (fuel : nat) (Name EncName : list Z)
         (EncSize MaxDecSize HighByte Flags FlagBits EncPos DecPos : Z)
         (NameW : list Z) : Z * list Z :=
  match fuel with
  | O => (DecPos, NameW)
  | S fuel' =>
      if (EncPos <? size_t (EncSize - 1)) && (DecPos <? size_t (MaxDecSize - 1))
      then
        let '(Flags, FlagBits, EncPos) :=
          if FlagBits =? 0 then (at_ EncName EncPos, 8, EncPos + 1)
          else (Flags, FlagBits, EncPos) in
        let '(EncPos, DecPos, NameW) :=
          match Z.shiftr Flags 6 with
          | 0 => (EncPos + 1, DecPos + 1, put DecPos (at_ EncName EncPos) NameW)
          | 1 => (EncPos + 1, DecPos + 1,
                  put DecPos (CInt.u16 (at_ EncName EncPos + Z.shiftl HighByte 8))
                      NameW)
          | 2 => (EncPos + 2, DecPos + 1,
                  put DecPos (CInt.u16 (at_ EncName EncPos
                                        + Z.shiftl (at_ EncName (EncPos + 1)) 8))
                      NameW)
          | _ =>
              let Length := at_ EncName EncPos in
              let EncPos := EncPos + 1 in
              if CInt.has Length 0x80
              then
                let Correction := at_ EncName EncPos in
                let Length := Z.land Length 0x7f + 2 in
                let '(DecPos, NameW) :=
                  copy_run (Z.to_nat Length) Length DecPos MaxDecSize
                    (fun i => CInt.u16 (Z.land (at_ Name i + Correction) 0xff
                                        + Z.shiftl HighByte 8))
                    NameW in
                (EncPos + 1, DecPos, NameW)
              else
                let Length := Length + 2 in
                let '(DecPos, NameW) :=
                  copy_run (Z.to_nat Length) Length DecPos MaxDecSize
                           (fun i => at_ Name i) NameW in
                (EncPos, DecPos, NameW)
          end in
        decode_loop fuel' Name EncName EncSize MaxDecSize HighByte
                    (CInt.u8 (Z.shiftl Flags 2)) (CInt.u32 (FlagBits - 2))
                    EncPos DecPos NameW
      else (DecPos, NameW)
  end.

(** [DecodeFileName]; [MaxDecSize] comes in bytes.  Every iteration
    advances [DecPos], so [MaxDecSize] iterations are enough. *)
Definition DecodeFileName (Name EncName : list Z) (EncSize : Z)
           (NameW : list Z) (MaxDecSize : Z) : list Z :=
  let HighByte := at_ EncName 0 in
  let MaxDecSize := MaxDecSize / 2 in
  let '(DecPos, NameW) :=
    decode_loop (Z.to_nat MaxDecSize) Name EncName EncSize MaxDecSize
                HighByte 0 0 1 0 NameW in
  put (if DecPos <? MaxDecSize then DecPos else MaxDecSize - 1) 0 NameW.

(** The UTF-16 code units before the terminator. *)
Fixpoint until_nul (l : list Z) : list Z :=
  match l with
  | [] => []
  | c :: l' => if c =? 0 then [] else c :: until_nul l'
  end.

(** The bytes of UTF-16 code units in memory, low byte first. *)
Definition utf16_bytes (l : list Z) : list Z :=
  flat_map (fun c => [Z.land c 0xff; Z.shiftr c 8]) l.

(** The [printf] calls of [hexdump], which writes to stdout. *)
Fixpoint hexdump_bytes (i : Z) (x : list Z) : list string :=
  match x with
  | [] => []
  | b :: x' =>
      hex2 b :: (if i mod 4 =? 3 then [" "%string] else [])
                ++ hexdump_bytes (i + 1) x'
  end.

Definition hexdump {E : Type} (msg : string) (x : list Z) (size : Z) : M E unit :=
  fun w =>
    (inr tt,
     mkWorld (fp w) (glob w)
             (stdout w ++ [(msg ++ " : ")%string]
                ++ hexdump_bytes 0 (firstn (Z.to_nat size) x) ++ [nl])
             (stderr w) (found w)).

End FileNames.

(** ** RAR3: the candidate selector *)

Section Selector.

Context {env : Environment}.

Record bestsize_t : Type := mkBest {
  pack : Z;
  unp : Z;
  method : Z
}.

(** [bestsize = { SIZE_MAX, SIZE_MAX }] *)
Definition no_candidate : bestsize_t := mkBest SIZE_MAX SIZE_MAX 0.

(** [method > 0x30 ? 4 : 1] *)
Definition admission_threshold (m : Z) : Z := if 0x30 <? m then 4 else 1.

(** The condition of the [if] at "We got a better candidate already":
    true when the new entry is skipped and the incumbent kept. *)
Definition better_already (bestsize : bestsize_t)
           (file_hdr_pack_size file_hdr_unp_size method_ : Z) : bool :=
  (pack bestsize <? SIZE_MAX)
  && ((((pack bestsize <? file_hdr_pack_size)
        && (admission_threshold (method bestsize) <=? unp bestsize))
       || ((file_hdr_unp_size <? unp bestsize)
           && (file_hdr_unp_size <? admission_threshold method_)))
      || ((pack bestsize =? file_hdr_pack_size)
          && (((file_hdr_unp_size <? unp bestsize) && (file_hdr_unp_size <? 8))
              || ((unp bestsize <=? file_hdr_unp_size) && (8 <=? unp bestsize))))).

(** What the selector holds after it was offered an entry. *)
Definition offer (bestsize : bestsize_t) (c : bestsize_t) : bestsize_t :=
  if better_already bestsize (pack c) (unp c) (method c) then bestsize else c.

(** The entries the selector admitted out of a sequence of offers, oldest
    first, with the incumbent each one replaced. *)
Fixpoint admissions (bestsize : bestsize_t) (cs : list bestsize_t)
  : list (bestsize_t * bestsize_t) :=
  match cs with
  | [] => []
  | c :: cs' =>
      if better_already bestsize (pack c) (unp c) (method c)
      then admissions bestsize cs'
      else (bestsize, c) :: admissions c cs'
  end.

End Selector.

(** ** RAR3: [process_file] *)

Section Rar3.

Context {env : Environment}.

(** The locals of [process_file] that live across file headers. *)
Record Scan : Type := mkScan {
  bestsize : bestsize_t;
  best : option string;
  best_len : Z;
  gecos : string;
  gecos_len : Z
}.

Definition initial_scan : Scan := mkScan no_candidate None 0 EmptyString 0.

(** Where control goes when it leaves the handling of one file header.
    [undefined]: nowhere the language defines, after a write outside
    the block of [best] or the overflow of the [int] counter [i]. *)
Inductive jump : Type :=
| goto_err
| goto_BailOut (s : Scan)
| goto_next_file_header (s : Scan)
| undefined.

(** [check_fread] *)
Definition check_fread {E : Type} (buf_size size nmemb : Z) : M E bool :=
  if buf_size <? size_t (size * nmemb)
  then eprintf (D_check_fread buf_size size nmemb) ;; ret false
  else ret true.

(** [if (fread(buf, size, 1, fp) != 1) { ...read failed...; goto err; }] *)
Definition fread_or_err (size : Z) (archive_name : string) : M jump (list Z) :=
  ' (n, got) <- io (fread size 1) ;;
  if negb (n =? 1)
  then eprintf (D_read_failed archive_name) ;; leave goto_err
  else ret got.

(** The -hp branch: the record goes out in 27 [printf] calls, the first
    of them before the tail of the file is read. *)
Definition hp_entry (type : Z) (archive_name base_aname : string)
  : M jump unit :=
  w <- get ;;
  when (verbose (glob w)) (eprintf (D_hp_entry base_aname)) ;;
  printf (base_aname ++ ":$RAR3$*" ++ dec type ++ "*") ;;
  seek (-24) SEEK_END ;;
  buf <- fread_or_err 24 archive_name ;;
  (fun w => (inr tt,
             mkWorld (fp w) (glob w)
                     (stdout w ++ map hex2 (firstn 8 buf) ++ ["*"%string]
                        ++ map hex2 (skipn 8 (firstn 24 buf)))
                     (stderr w) (found w))) ;;
  printf (":" ++ dec type ++ "::::" ++ archive_name ++ nl).

(** One of the two high words that follow the fixed header when flag
    0x100 is set, shifted into place. *)
Definition high_word (archive_name : string) : M jump Z :=
  rejbuf <- fread_or_err 4 archive_name ;;
  w <- get ;;
  when (verbose (glob w)) (eprintf (D_high_word rejbuf)) ;;
  ret (CInt.u64 (Z.shiftl (le32 rejbuf) 32)).

(** The name of the entry as the messages and the GECOS field show it. *)
Definition file_name_processing (flags file_name_size : Z) (file_name : list Z)
  : M jump (list Z) :=
  w <- get ;;
  if CInt.has flags 0x200
  then
    let Length := CInt.i32 (strlen file_name) in
    when (verbose (glob w))
         (hexdump "! Encoded filenames" file_name file_name_size) ;;
    let FileNameW :=
      DecodeFileName file_name (skipn (Z.to_nat (Length + 1)) file_name)
                     (size_t (4 * PATH_BUF_SIZE - Length - 1))
                     (uninit PATH_BUF_SIZE) (2 * PATH_BUF_SIZE) in
    if negb (at_ FileNameW 0 =? 0)
    then
      when (verbose (glob w))
           (hexdump "! UTF16 filename" (utf16_bytes FileNameW)
                    (Z.shiftl (Z.of_nat (List.length (until_nul FileNameW))) 1) ;;
            eprintf (D_oem_name (c_string file_name))) ;;
      let file_name := store (utf16_to_utf8_r PATH_BUF_SIZE (until_nul FileNameW)
                                ++ [0]) file_name in
      eprintf (D_unicode_name (c_string file_name)) ;;
      ret file_name
    else eprintf (D_utf8_name (c_string file_name)) ;; ret file_name
  else eprintf (D_file_name (c_string file_name)) ;; ret file_name.

(** [snprintf(&gecos[gecos_len], LINE_BUFFER_SIZE - gecos_len - 1, "%s ", name)],
    guarded as in the source. *)
Definition add_gecos (file_name : list Z) (s : Scan) : Scan :=
  if gecos_len s + strlen file_name <? LINE_BUFFER_SIZE
  then mkScan (bestsize s) (best s) (best_len s)
              (gecos s ++ take (LINE_BUFFER_SIZE - gecos_len s - 1 - 1)
                               (c_string file_name ++ " "))
              (CInt.i32 (gecos_len s + (strlen file_name + 1)))
  else s.

(** [best] points to the block of [room] bytes that [mem_calloc] gave.
    ([mem_calloc] belongs to [memory.h], which is not part of [src/]: it
    is taken to give a zeroed block of the size it is asked for.)  After
    a [sprintf] the block holds [text] from its start and the NUL behind
    it; a text that does not fit was written outside the block. *)
Definition sprintf_best (room : Z) (text : string) : M jump unit :=
  if room <? Z.of_nat (String.length text) + 1 then leave undefined
  else ret tt.

(** The loop that reads the packed data in blocks of 64 KB and writes
    it through [p] in base 16.  [i] is the [int] counter of the source
    and [n] the number of passes that are left, [file_hdr_pack_size - i];
    [p] is the offset of the pointer [p] in the block of [best].  After a
    complete read the first [to_read] bytes of the block are the bytes
    read; after a short one the rest is what the block held before.  The
    digits must stay inside the [room] bytes of [best], and [i++] must
    not go past [INT_MAX]. *)
Fixpoint read_packed (n : nat) (i bytes_left room p : Z) (acc : string)
  : M jump string :=
  match n with
  | O => ret acc
  | S n' =>
      let to_read := if bytes_left <? 64 * 1024 then bytes_left else 64 * 1024 in
      ' (count, got) <- io (fread 1 to_read) ;;
      when (negb (count =? to_read)) (eprintf D_read_archive) ;;
      let bytes := if count =? to_read then got
                   else store got (uninit (64 * 1024)) in
      if room <? p + 2 * to_read then leave undefined
      else if CInt.INT_MAX <? i + 1 then leave undefined
      else read_packed n' (i + 1) (bytes_left - to_read) room (p + 2 * to_read)
                       (acc ++ hex_of (firstn (Z.to_nat to_read) bytes))
  end.

(** [jtr_fseek64(fp, file_hdr_pack_size, SEEK_CUR); goto next_file_header;] *)
Definition skip_entry (file_hdr_pack_size : Z) (s : Scan) : M jump unit :=
  seek (CInt.i64 file_hdr_pack_size) SEEK_CUR ;; leave (goto_next_file_header s).

(** The -p branch, for the header in [file_hdr_block]. *)
Definition p_entry (type : Z) (archive_name base_aname : string)
           (file_hdr_block : list Z) (file_hdr_head_flags : Z) (s : Scan)
  : M jump unit :=
  w <- get ;;
  let v := verbose (glob w) in
  if negb (CInt.has file_hdr_head_flags 0x8000)
  then eprintf D_flag_8000_unset ;; leave (goto_BailOut s)
  else
    let file_hdr_head_size :=
      Z.lor (Z.shiftl (at_ file_hdr_block 6) 8) (at_ file_hdr_block 5) in
    let file_hdr_pack_size := size_t (le32 (skipn 7 file_hdr_block)) in
    let file_hdr_unp_size := size_t (le32 (skipn 11 file_hdr_block)) in
    when v (eprintf (D_sizes file_hdr_head_size file_hdr_pack_size
                             file_hdr_unp_size) ;;
            eprintf (D_hdr_block (firstn 32 file_hdr_block))) ;;
    let ext_time_size := file_hdr_head_size - 32 in
    ' (file_hdr_pack_size, file_hdr_unp_size, ext_time_size) <-
       (if CInt.has file_hdr_head_flags 0x100
        then
          ex <- high_word archive_name ;;
          let file_hdr_pack_size := size_t (file_hdr_pack_size + ex) in
          ex <- high_word archive_name ;;
          let file_hdr_unp_size := size_t (file_hdr_unp_size + ex) in
          (if v
           then eprintf D_high_pack_present ;;
                eprintf D_high_unp_present ;;
                if sizeof_size_t <? 8
                then eprintf (D_unsupported_64bit archive_name) ;; leave goto_err
                else ret tt
           else ret tt) ;;
          ret (file_hdr_pack_size, file_hdr_unp_size, ext_time_size - 4 - 4)
        else ret (file_hdr_pack_size, file_hdr_unp_size, ext_time_size)) ;;
    let file_name_size :=
      Z.lor (Z.shiftl (at_ file_hdr_block 27) 8) (at_ file_hdr_block 26) in
    when v (eprintf (D_name_size file_name_size)) ;;
    let file_name := repeat 0 (Z.to_nat (4 * PATH_BUF_SIZE)) in
    ok <- check_fread (4 * PATH_BUF_SIZE) file_name_size 1 ;;
    if negb ok then leave goto_err
    else
      got <- fread_or_err file_name_size archive_name ;;
      let file_name := put (4 * PATH_BUF_SIZE - 1) 0 (store got file_name) in
      let ext_time_size := ext_time_size - file_name_size in
      file_name <- file_name_processing file_hdr_head_flags file_name_size
                                        file_name ;;
      let s := add_gecos file_name s in
      ' (salt, ext_time_size) <-
         (if CInt.has file_hdr_head_flags 0x400
          then got <- fread_or_err 8 archive_name ;;
               ret (store got (repeat 0 8), ext_time_size - 8)
          else ret (repeat 0 8, ext_time_size)) ;;
      (if CInt.has file_hdr_head_flags 0x1000
       then
         when v (eprintf (D_ext_time ext_time_size)) ;;
         ok <- check_fread 32 (size_t ext_time_size) 1 ;;
         if negb ok then leave goto_err
         else _ <- fread_or_err (size_t ext_time_size) archive_name ;; ret tt
       else ret tt) ;;
      if CInt.has file_hdr_head_flags 0x10
      then eprintf D_solid ;; skip_entry file_hdr_pack_size s
      else if Z.shiftr (Z.land file_hdr_head_flags 0xe0) 5 =? 7
      then when v (eprintf D_directory) ;; skip_entry file_hdr_pack_size s
      else
        when v (eprintf (D_dict_size
                           (Z.shiftl 64 (Z.shiftr (Z.land file_hdr_head_flags 0xe0) 5)))) ;;
        if negb (CInt.has file_hdr_head_flags 0x04)
        then eprintf D_not_encrypted ;; skip_entry file_hdr_pack_size s
        else
          let method_ := at_ file_hdr_block 25 in
          if better_already (bestsize s) file_hdr_pack_size file_hdr_unp_size
                            method_
          then when v (eprintf D_better_already) ;;
               skip_entry file_hdr_pack_size s
          else
            when v (eprintf D_best_so_far) ;;
            let bestsize_ := mkBest file_hdr_pack_size file_hdr_unp_size method_ in
            let room := size_t (2 * LINE_BUFFER_SIZE + 2 * file_hdr_pack_size) in
            let head := (base_aname ++ ":$RAR3$*" ++ dec type ++ "*"
                                    ++ hex_of (firstn 8 salt))%string in
            sprintf_best room head ;;
            when v (eprintf (D_salt head)) ;;
            let head := (head ++ "*"
                              ++ hex_of (firstn 4 (skipn 16 file_hdr_block)))%string in
            sprintf_best room head ;;
            when v (eprintf (D_unp_ver (at_ file_hdr_block 24)) ;;
                    eprintf (D_method (method_ - 0x30)
                                      (97 + Z.shiftr (Z.land file_hdr_head_flags 0xe0) 5))) ;;
            let head := (head ++ "*" ++ dec file_hdr_pack_size ++ "*"
                              ++ dec file_hdr_unp_size ++ "*" ++ "1*")%string in
            sprintf_best room head ;;
            data <- read_packed (Z.to_nat file_hdr_pack_size) 0 file_hdr_pack_size
                                room (Z.of_nat (String.length head)) EmptyString ;;
            let tail := ("*" ++ hex2 method_ ++ ":" ++ dec type ++ "::")%string in
            sprintf_best room (head ++ data ++ tail) ;;
            leave (goto_next_file_header
                     (mkScan bestsize_ (Some (head ++ data ++ tail)%string)
                             (size_t (Z.of_nat (String.length head)
                                      + file_hdr_pack_size
                                      + Z.of_nat (String.length tail)))
                             (gecos s) (gecos_len s))).

(** From the label [next_file_header] to the next jump.  Ending
    normally is falling through to [err], as the -hp branch does. *)
Definition file_header (type : Z) (archive_name base_aname : string) (s : Scan)
  : M jump unit :=
  w <- get ;;
  let v := verbose (glob w) in
  when v (eprintf D_blank_line) ;;
  ' (count, got) <- io (fread 32 1) ;;
  w <- get ;;
  if feof (fp w)
  then when v (eprintf (D_end_of_file archive_name)) ;; leave (goto_BailOut s)
  else if negb (count =? 1)
  then eprintf (D_read_failed archive_name) ;; leave goto_err
  else
    let file_hdr_block := store got (uninit 40) in
    (if (type =? 1) && (at_ file_hdr_block 2 =? 0x7a)
     then when v (eprintf (D_comment_block archive_name))
     else if (type =? 1) && negb (at_ file_hdr_block 2 =? 0x74)
     then eprintf (D_no_more_headers archive_name) ;; leave (goto_BailOut s)
     else ret tt) ;;
    let file_hdr_head_flags :=
      Z.lor (Z.shiftl (at_ file_hdr_block 4) 8) (at_ file_hdr_block 3) in
    if type =? 0 then hp_entry type archive_name base_aname
    else p_entry type archive_name base_aname file_hdr_block
                 file_hdr_head_flags s.

(** The code at the label [BailOut]. *)
Definition BailOut (base_aname : string) (s : Scan) : M jump unit :=
  w <- get ;;
  match best s with
  | Some b =>
      if negb (String.eqb b EmptyString)
      then
        when (verbose (glob w)) (eprintf (D_found_candidate base_aname)) ;;
        when (unp (bestsize s) <? (if 0x30 <? method (bestsize s) then 5 else 1))
             (eprintf D_too_small) ;;
        printf (b ++ take (size_t (LINE_BUFFER_SIZE - best_len s - 1)) (gecos s)
                  ++ nl)
      else eprintf (D_no_candidate base_aname)
  | None => eprintf (D_no_candidate base_aname)
  end.

(** The loop the [goto next_file_header] statements make. *)
Fixpoint file_headers (fuel : nat) (type : Z) (archive_name base_aname : string)
         (s : Scan) : M (stop unit) unit :=
  match fuel with
  | O => leave Starved
  | S fuel' =>
      fun w =>
        match file_header type archive_name base_aname s w with
        | (inl (goto_next_file_header s'), w') =>
            file_headers fuel' type archive_name base_aname s' w'
        | (inl (goto_BailOut s'), w') =>
            (inr tt, snd (BailOut base_aname s' w'))
        | (inl goto_err, w') => (inr tt, w')
        | (inl undefined, w') => (inl Undefined, w')
        | (inr tt, w') => (inr tt, w')
        end
  end.

End Rar3.

Section Main.

Context {env : Environment}.

(** [process_file]; [fuel] bounds the headers it visits (and the blocks
    [process_file5] visits when the file is handed over to it). *)
Definition process_file (fuel : nat) (fs : filesystem) (archive_name : string)
  : M (stop unit) unit :=
  let base_aname := basename (take (PATH_BUFFER_SIZE - 1) archive_name) in
  match fopen fs archive_name with
  | None => eprintf (D_open_failed archive_name)
  | Some f =>
      (fun w => (inr tt, set_fp f w)) ;;
      ' (n, marker_block) <- io (fread RAR3_MAGIC_SIZE 1) ;;
      if negb (n =? 1) then eprintf (D_not_rar archive_name)
      else if mem_equal marker_block RAR_OLD_MAGIC RAR_OLD_MAGIC_SIZE
      then eprintf (D_too_old archive_name)
      else
        is_rar3 <-
          (if negb (mem_equal marker_block RAR3_MAGIC RAR3_MAGIC_SIZE)
           then
             if mem_equal marker_block [0x4d; 0x5a] 2
             then
               w <- get ;;
               match sfx_scan (S (List.length (content (fp w)))) RAR3_MAGIC (fp w) with
               | None => leave Starved
               | Some (true, f') => (fun w => (inr true, set_fp f' w))
               | Some (false, f') =>
                   (fun w => (inr tt, set_fp f' w)) ;;
                   _ <- call (process_file5 fuel fs archive_name) ;; ret false
               end
             else _ <- call (process_file5 fuel fs archive_name) ;; ret false
           else ret true) ;;
        if negb is_rar3 then ret tt
        else
          ' (n, archive_hdr_block) <- io (fread 13 1) ;;
          if negb (n =? 1) then eprintf (D_read_failed archive_name)
          else if negb (at_ archive_hdr_block 2 =? 0x73)
          then eprintf (D_bad_archive_tag archive_name)
          else
            let archive_hdr_head_flags :=
              Z.lor (Z.shiftl (at_ archive_hdr_block 4) 8) (at_ archive_hdr_block 3) in
            let type := if CInt.has archive_hdr_head_flags 0x0080 then 0 else 1 in
            let head_size :=
              Z.lor (Z.shiftl (at_ archive_hdr_block 6) 8) (at_ archive_hdr_block 5) in
            when (13 <? head_size) (seek (head_size - 13) SEEK_CUR) ;;
            file_headers fuel type archive_name base_aname initial_scan
  end.

(** [rar2john] after [getopt]: [v] is whether -v was given, [archives]
    what is left of [argv]. *)
Definition rar2john (fuel : nat) (fs : filesystem) (self : string) (v : bool)
           (archives : list string) : M (stop unit) Z :=
  update (fun g => mkGlobals (v || verbose g) (Encrypted g) (PswCheck g)
                             (rar5_interations g) (UsePswCheck g) (rar5_salt g)) ;;
  match archives with
  | [] => eprintf (D_usage self) ;; ret 1
  | _ =>
      fold_left (fun acc a => acc ;; process_file fuel fs a) archives (ret tt) ;;
      ret 0
  end.

End Main.

(** ** Concrete builds and archives *)

Module Sample.

(** A build with an 8-byte [size_t].  The collaborators that are not
    part of [src/] are stand-ins: the inputs below never depend on what
    they compute beyond the base-16 text of [base64_convert_cp]. *)
Definition host64 : Environment := {|
  sizeof_size_t := 8;
  LINE_BUFFER_SIZE := 1024;
  PATH_BUFFER_SIZE := 1024;
  basename := fun s => s;
  base64_convert_cp := hex_of;
  SHA256 := fun _ => repeat 0 32;
  utf16_to_utf8_r := fun _ l => l;
  CRYPT_VERSION := 0;
  CHFL_CRYPT_PSWCHECK := 1;
  MHFL_VOLNUMBER := 2;
  FHFL_UTIME := 2;
  FHFL_CRC32 := 4;
  stack_junk := fun _ => []
|}.

(** The same build with a 4-byte [size_t]. *)
Definition host32 : Environment := {|
  sizeof_size_t := 4;
  LINE_BUFFER_SIZE := 1024;
  PATH_BUFFER_SIZE := 1024;
  basename := fun s => s;
  base64_convert_cp := hex_of;
  SHA256 := fun _ => repeat 0 32;
  utf16_to_utf8_r := fun _ l => l;
  CRYPT_VERSION := 0;
  CHFL_CRYPT_PSWCHECK := 1;
  MHFL_VOLNUMBER := 2;
  FHFL_UTIME := 2;
  FHFL_CRC32 := 4;
  stack_junk := fun _ => []
|}.

(** [a; a+1; ...], [n] bytes. *)
Definition run_of (a n : Z) : list Z :=
  map (fun i => a + Z.of_nat i) (seq 0 (Z.to_nat n)).

(** [v] in [n] bytes, least significant first. *)
Definition le (n : nat) (v : Z) : list Z :=
  map (fun i => (v / 2 ^ (8 * Z.of_nat i)) mod 256) (seq 0 n).

Definition len (l : list Z) : Z := Z.of_nat (List.length l).

(** A process that has just started, reading nothing yet. *)
Definition fresh (v : bool) : World :=
  mkWorld (mkFILE [] 0 false None []) (initial_globals v) [] [] 0.

(** A file system that holds one archive, whatever name is asked for. *)
Definition disk (bytes : list Z) (health : option nat) : filesystem :=
  fun _ => Some (mkDisk (bytes_of bytes) health).

(** *** RAR3 *)

(** The 13-byte archive header with the given flags. *)
Definition archive_header (flags : Z) : list Z :=
  [0; 0; 0x73] ++ le 2 flags ++ le 2 13 ++ [0; 0; 0; 0; 0; 0].

(** A block with the layout of a file header: the 32 fixed bytes, the
    high size words if any, the name, the salt and the packed data. *)
Definition entry (tag flags pack_ unp_ method_ : Z) (high name salt data : list Z)
  : list Z :=
  [0; 0; tag] ++ le 2 flags ++ le 2 (32 + len high + len name + len salt)
    ++ le 4 pack_ ++ le 4 unp_ ++ [0] ++ [0xaa; 0xbb; 0xcc; 0xdd]
    ++ [0; 0; 0; 0] ++ [29; method_] ++ le 2 (len name) ++ [0; 0; 0; 0]
    ++ high ++ name ++ salt ++ data.

(** An archive made with -hp: the archive header has bit 0x0080, 40
    encrypted bytes follow, and the last 24 bytes are the salt and the
    encrypted end-of-archive block. *)
Definition hp_archive : list Z :=
  RAR3_MAGIC ++ archive_header 0x80 ++ run_of 100 40 ++ run_of 0 24.

(** An archive made with -p whose only entry has the 64-bit size
    extension (flag 0x0100): 4 bytes packed with method 0x33, and an
    unpacked size of 2^32 + 5. *)
Definition high_size_archive : list Z :=
  RAR3_MAGIC ++ archive_header 0
    ++ entry 0x74 0x8504 4 5 0x33 (le 4 0 ++ le 4 1) [97] (run_of 1 8) [1; 2; 3; 4].

(** An archive made with -hp that holds no more than its archive header
    and the 24 bytes at its end. *)
Definition hp_short_archive : list Z :=
  RAR3_MAGIC ++ archive_header 0x80 ++ run_of 0 24.

(** An archive made with -p with three stored or compressed entries
    "a", "b", "c" of the given sizes and methods. *)
Definition three_entries (e1 e2 e3 : Z * Z * Z) : list Z :=
  let one name '(p, u, m) :=
    entry 0x74 0x8404 p u m [] [name] (run_of 1 8) (repeat 0x55 (Z.to_nat p)) in
  RAR3_MAGIC ++ archive_header 0 ++ one 97 e1 ++ one 98 e2 ++ one 99 e3.

(** An archive made with -p whose only block has the type tag 0x7a and
    the encryption flag. *)
Definition comment_archive : list Z :=
  RAR3_MAGIC ++ archive_header 0
    ++ entry 0x7a 0x8404 4 5 0x30 [] [97] (run_of 1 8) [1; 2; 3; 4].

(** The world in which [file_header] meets the block of
    [comment_archive]: the stream is just behind the archive header. *)
Definition at_comment_header : World :=
  set_fp (mkFILE (bytes_of comment_archive) 20 false None []) (fresh false).

(** *** RAR5 *)

Definition main_block5 : list Z := [0; 0; 0; 0; 3; 1; 0; 0].
Definition end_block5 : list Z := [0; 0; 0; 0; 2; 5; 0].

(** The crypt record of an extra area: size 48, type 1, version 0,
    flags 1 (password check), log2 count 15, salt, IV, check value. *)
Definition crypt_record : list Z :=
  [48; 1; 0; 1; 15] ++ run_of 0 16 ++ run_of 16 16 ++ run_of 32 12.

(** A record of type 2 with a payload of two bytes. *)
Definition other_record : list Z := [3; 2; 0; 0].

(** A file block named "a" with the given extra area. *)
Definition file_block5 (extra : list Z) : list Z :=
  let body := [2; 1; len extra; 0; 0; 0; 0; 0; 1; 97] ++ extra in
  [0; 0; 0; 0; len body] ++ body.

(** One encrypted entry whose extra area is the crypt record alone. *)
Definition crypt_first_archive : list Z :=
  RAR5_MAGIC ++ main_block5 ++ file_block5 crypt_record ++ end_block5.

(** One encrypted entry whose crypt record follows another record. *)
Definition crypt_second_archive : list Z :=
  RAR5_MAGIC ++ main_block5 ++ file_block5 (other_record ++ crypt_record)
    ++ end_block5.

(** A crypt header block (type 4) with version 0, the given flags and
    log2 count, the salt 0..15 and [more], then [next]. *)
Definition crypt_block5 (flags lg2 : Z) (more next : list Z) : list Z :=
  let body := [4; 0; 0; flags; lg2] ++ run_of 0 16 ++ more in
  [0; 0; 0; 0; len body] ++ body ++ next.

(** A stream positioned at the start of its bytes. *)
Definition stream (bytes : list Z) : FILE :=
  mkFILE (bytes_of bytes) 0 false None [].

(** *** More inputs *)

(** An archive made with -p whose only entry lacks the flag 0x8000. *)
Definition old_header_archive : list Z :=
  RAR3_MAGIC ++ archive_header 0
    ++ entry 0x74 0x0404 4 5 0x30 [] [97] (run_of 1 8) [1; 2; 3; 4].

(** An archive made with -p whose only entry has an empty name. *)
Definition nameless_archive : list Z :=
  RAR3_MAGIC ++ archive_header 0
    ++ entry 0x74 0x8404 4 5 0x30 [] [] (run_of 1 8) [1; 2; 3; 4].

(** An archive made with -p with one encrypted entry "a". *)
Definition one_entry_archive : list Z :=
  RAR3_MAGIC ++ archive_header 0
    ++ entry 0x74 0x8404 4 5 0x30 [] [97] (run_of 1 8) [1; 2; 3; 4].

(** An archive made with -p with one entry "a" that is not encrypted. *)
Definition plain_entry_archive : list Z :=
  RAR3_MAGIC ++ archive_header 0
    ++ entry 0x74 0x8000 4 5 0x30 [] [97] [] [1; 2; 3; 4].

(** The world in which [file_header] meets the first block of an
    archive: the stream is just behind the archive header. *)
Definition at_first_header (archive : list Z) : World :=
  set_fp (mkFILE (bytes_of archive) 20 false None []) (fresh false).

(** The stream once the 32 bytes of that block are read. *)
Definition behind_first_header (archive : list Z) : FILE :=
  mkFILE (bytes_of archive) 52 false None [(20, 32)].

(** A self-extracting archive: a stub of [n] bytes that starts with
    "MZ", then the RAR3 magic and three more bytes. *)
Definition sfx_archive (n : nat) : list Z :=
  [0x4d; 0x5a] ++ repeat 0 (n - 2) ++ RAR3_MAGIC ++ [1; 2; 3].

(** A scan that holds a candidate. *)
Definition with_candidate : Scan :=
  mkScan (mkBest 4 5 0x30) (Some "cand"%string) 4 "g "%string 2.

(** A process that has met a crypt header block in an earlier archive. *)
Definition after_crypt_header : World :=
  mkWorld (mkFILE [] 0 false None [])
          (mkGlobals false true (repeat 0 12) 15 false (run_of 0 16))
          [] [] 0.

(** A RAR5 archive without encryption. *)
Definition plain_archive5 : list Z :=
  RAR5_MAGIC ++ main_block5 ++ file_block5 [] ++ end_block5.

(** A block of the unknown type 9 with a data area of 5 bytes. *)
Definition unknown_block5 : list Z := [0; 0; 0; 0; 3; 9; 2; 5; 0; 0; 0; 0; 0].

(** A file block named "a" with the crypt record as its extra area and
    a data area of two bytes. *)
Definition file_block_with_data : list Z :=
  [0; 0; 0; 0; 60; 2; 3; 49; 2; 0; 0; 0; 0; 0; 1; 97]
    ++ crypt_record ++ [0; 0].

(** The stream over [bytes] once the first four bytes were read in one
    piece and the bytes up to [k] one by one. *)
Definition read_up_to (bytes : list Z) (k : nat) : FILE :=
  mkFILE (bytes_of bytes) (Z.of_nat k) false None
         ((0, 4) :: map (fun i => (Z.of_nat i, 1)) (seq 4 (k - 4))).

End Sample.

(** ** Notions the properties are stated with *)

(** The value of the bytes of a variable-length integer: seven bits
    a byte, least significant group first. *)
Fixpoint vuint_value (bs : list byte) : Z :=
  match bs with
  | [] => 0
  | b :: bs' => Z.land (byte_val b) 0x7f + 128 * vuint_value bs'
  end.

(** The top bit of a byte of a variable-length integer says that more
    bytes follow. *)
Definition continues (b : byte) : bool := negb (Z.land (byte_val b) 0x80 =? 0).

(** The stream [f] after [n] more bytes were read from it: only the
    position and the log of the reads differ. *)
Definition advanced (f : FILE) (n : Z) (f' : FILE) : Prop :=
  content f' = content f /\ offset f' = offset f + n
  /\ at_eof f' = at_eof f /\ device f' = device f.

Section CandidateLine.

Context {env : Environment}.

(** What [BailOut] writes to stdout for the state [s] of the scan. *)
Definition candidate_lines (s : Scan) : list string :=
  match best s with
  | Some b =>
      if String.eqb b EmptyString then []
      else [(b ++ take (size_t (LINE_BUFFER_SIZE - best_len s - 1)) (gecos s)
               ++ nl)%string]
  | None => []
  end.

End CandidateLine.

(** The bytes of [magic] stand at the position [q] of the file. *)
Definition occurs_at (magic : list Z) (c : list byte) (q : Z) : Prop :=
  0 <= q
  /\ q + Z.of_nat (List.length magic) <= Z.of_nat (List.length c)
  /\ map byte_val (firstn (List.length magic) (skipn (Z.to_nat q) c)) = magic.

(** Between two worlds nothing was printed and [found] is as it was, or
    one line was printed and [found] went up by one. *)
Definition at_most_one_record (w w' : World) : Prop :=
  (stdout w' = stdout w /\ found w' = found w)
  \/ (exists line, stdout w' = stdout w ++ [line]
                   /\ found w' = CInt.i32 (found w + 1)).

(** The bytes of one variable-length integer: every byte but the last
    has its top bit set. *)
Fixpoint vuint_shape (bs : list byte) : bool :=
  match bs with
  | [] => false
  | [b] => negb (continues b)
  | b :: bs' => continues b && vuint_shape bs'
  end.

(** A stream on a device that does not fail. *)
Definition healthy (f : FILE) : Prop := device f = None /\ 0 <= offset f.

(** * Properties *)

(** Symbolic execution of the monad: unfold its operations and project
    out of the worlds that result. *)
Ltac run :=
  repeat progress
    (cbv beta iota delta [bind must io update get ret leave printf eprintf when
                          seek call read_global fread_or_err feof
                          set_fp set_glob set_found];
     cbn [fp glob stdout stderr found fst snd
          verbose Encrypted PswCheck rar5_interations UsePswCheck rar5_salt
          set_rar5_salt set_PswCheck set_UsePswCheck set_rar5_interations
          set_Encrypted content offset at_eof device reads negb andb orb]).

(** Case analysis on the innermost term a [match] is stuck on. *)
Ltac step_all :=
  repeat (match goal with
          | |- context [match ?x with _ => _ end] =>
              lazymatch x with
              | context [match _ with _ => _ end] => fail
              | _ => destruct x
              end
          end; run).

(** ** Lists and text *)

Section TextFacts.

Lemma skipn_app_length {A : Type} (a b : list A) (n : nat) :
  n = List.length a -> skipn n (a ++ b) = b.
Proof.
  intros ->. rewrite skipn_app, skipn_all, Nat.sub_diag. reflexivity.
Qed.

Lemma append_nil_r (s : string) : (s ++ "")%string = s.
Proof. induction s as [| c s IH]; cbn; [| rewrite IH]; reflexivity. Qed.

Lemma append_assoc (a b c : string) :
  ((a ++ b) ++ c)%string = (a ++ b ++ c)%string.
Proof. induction a as [| x a IH]; cbn; [| rewrite IH]; reflexivity. Qed.

Lemma concat_cons (x : string) (l : list string) :
  String.concat "" (x :: l) = (x ++ String.concat "" l)%string.
Proof. destruct l; cbn; [rewrite append_nil_r |]; reflexivity. Qed.

Lemma concat_app (l1 l2 : list string) :
  String.concat "" (l1 ++ l2)
  = (String.concat "" l1 ++ String.concat "" l2)%string.
Proof.
  induction l1 as [| x l1 IH]; [reflexivity |].
  rewrite <- app_comm_cons, !concat_cons, IH, append_assoc. reflexivity.
Qed.

(** Writing the digits of each byte in turn gives the base-16 text. *)
Lemma concat_hex2 (l : list Z) : String.concat "" (map hex2 l) = hex_of l.
Proof.
  induction l as [| b l IH]; [reflexivity |].
  cbn [map]. rewrite concat_cons, IH. reflexivity.
Qed.

End TextFacts.

(** ** The stream *)

Section StreamFacts.

Lemma fread_bytes_count (nmemb : Z) (f : FILE) :
  0 <= fst (fst (fread 1 nmemb f)).
Proof.
  unfold fread. rewrite Z.mul_1_l.
  destruct (nmemb <=? 0); [simpl; lia |].
  destruct (device f) as [[| k] |]; simpl; try lia;
    rewrite Z.div_1_r; lia.
Qed.

(** A complete item is read from a healthy device. *)
Lemma fread_item (f : FILE) (bs rest : list byte) (size : Z) :
  device f = None ->
  remaining f = bs ++ rest ->
  Z.of_nat (List.length bs) = size ->
  0 < size ->
  fread size 1 f
  = ((1, map byte_val bs),
     mkFILE (content f) (offset f + size) (at_eof f) None
            (reads f ++ [(offset f, size)])).
Proof.
  intros Hdev Hrem Hlen Hpos. unfold fread.
  rewrite Z.mul_1_r.
  destruct (Z.leb_spec size 0) as [| _]; [lia |].
  rewrite Hdev, Hrem.
  assert (Hn : Z.to_nat size = List.length bs) by lia.
  rewrite Hn, firstn_app, firstn_all, Nat.sub_diag. cbn [firstn].
  rewrite app_nil_r, Hlen, Z.div_same, Z.ltb_irrefl, orb_false_r by lia.
  reflexivity.
Qed.

Lemma remaining_advance (c : list byte) (o size : Z) (e : bool)
      (d : option nat) (r : list (Z * Z)) (bs rest : list byte) :
  0 <= o ->
  skipn (Z.to_nat o) c = bs ++ rest ->
  Z.of_nat (List.length bs) = size ->
  remaining (mkFILE c (o + size) e d r) = rest.
Proof.
  intros Ho Hrem Hlen. unfold remaining. cbn [offset content].
  rewrite Z2Nat.inj_add by lia.
  rewrite Nat.add_comm, <- skipn_skipn, Hrem.
  apply skipn_app_length. lia.
Qed.

Lemma fseek_ok (off : Z) (wh : whence) (f : FILE) :
  let base := match wh with
              | SEEK_SET => 0
              | SEEK_CUR => offset f
              | SEEK_END => Z.of_nat (List.length (content f))
              end in
  0 <= base + off <= CInt.INT64_MAX ->
  fseek off wh f = mkFILE (content f) (base + off) false (device f) (reads f).
Proof.
  intros base H. unfold fseek, file_size. fold base.
  destruct (Z.ltb_spec (base + off) 0); [lia |].
  destruct (Z.ltb_spec CInt.INT64_MAX (base + off)); [lia |].
  reflexivity.
Qed.

End StreamFacts.

(** ** The extra-area loop ends *)

Section Termination.

Context {env : Environment}.

Lemma fread_one (f f' : FILE) (n : Z) (c : list Z) :
  0 <= offset f ->
  fread 1 1 f = ((n, c), f') ->
  0 <= offset f'
  /\ (left_ f' <= left_ f)%nat
  /\ (n = 1 -> (left_ f' < left_ f)%nat).
Proof.
  intros Ho. unfold fread, left_, remaining. cbn [Z.mul Pos.mul Z.leb Z.compare].
  destruct (device f) as [[| d] |].
  - intros E. inversion E; subst; clear E. cbn [offset content].
    repeat split; [assumption | lia | lia].
  - destruct (skipn (Z.to_nat (offset f)) (content f)) as [| b rest] eqn:Hrem;
      intros E; inversion E; subst; clear E; cbn [offset content firstn List.length].
    + rewrite Z.add_0_r, Hrem. cbn. repeat split; [assumption | lia | intros; discriminate].
    + match goal with
      | |- context [Z.to_nat ?z] =>
          replace (Z.to_nat z) with (1 + Z.to_nat (offset f))%nat by (cbn; lia)
      end.
      rewrite <- skipn_skipn, Hrem. cbn [skipn List.length].
      repeat split; cbn; lia.
  - destruct (skipn (Z.to_nat (offset f)) (content f)) as [| b rest] eqn:Hrem;
      intros E; inversion E; subst; clear E; cbn [offset content firstn List.length].
    + rewrite Z.add_0_r, Hrem. cbn. repeat split; [assumption | lia | intros; discriminate].
    + match goal with
      | |- context [Z.to_nat ?z] =>
          replace (Z.to_nat z) with (1 + Z.to_nat (offset f))%nat by (cbn; lia)
      end.
      rewrite <- skipn_skipn, Hrem. cbn [skipn List.length].
      repeat split; cbn; lia.
Qed.

Lemma read_vuint_loop_progress (k : nat) :
  forall (i shift n br : Z) (f f' : FILE) (r v br' : Z),
    0 <= offset f -> 0 <= i ->
    read_vuint_loop k i shift n br f = ((r, v, br'), f') ->
    0 <= offset f'
    /\ (left_ f' <= left_ f)%nat
    /\ (r <> 0 -> (left_ f' < left_ f)%nat).
Proof.
  induction k as [| k IH]; intros i shift n br f f' r v br' Ho Hi.
  - cbn [read_vuint_loop]. intros E. inversion E; subst.
    repeat split; [assumption | lia | congruence].
  - cbn [read_vuint_loop].
    destruct (fread 1 1 f) as [[got c] f1] eqn:Hrd.
    destruct (fread_one f f1 got c Ho Hrd) as (Ho1 & Hle & Hlt).
    destruct (Z.eqb_spec got 1) as [-> | Hne]; cbn [negb].
    + specialize (Hlt eq_refl).
      destruct (Z.land (nth 0 c 0) 128 =? 0).
      * intros E. inversion E; subst. repeat split; [assumption | lia | lia].
      * intros E. apply IH in E; [| assumption | lia].
        destruct E as (Ho' & Hle' & _). repeat split; [assumption | lia | lia].
    + intros E. inversion E; subst. repeat split; [assumption | lia | congruence].
Qed.

Lemma read_vuint_progress (br : Z) (f f' : FILE) (r v br' : Z) :
  0 <= offset f ->
  read_vuint br f = ((r, v, br'), f') ->
  0 <= offset f'
  /\ (left_ f' <= left_ f)%nat
  /\ (r <> 0 -> (left_ f' < left_ f)%nat).
Proof.
  intros Ho E. unfold read_vuint in E.
  apply (read_vuint_loop_progress 10 0 0 0 br f f' r v br' Ho); [lia | exact E].
Qed.

(** The crypt record always ends in [return 0]. *)
Lemma extra_crypt_returns (n : Z) (name : string) (w : World) :
  fst (extra_crypt n name w) = inl (Returned 0).
Proof.
  unfold extra_crypt. run. step_all; reflexivity.
Qed.

Lemma ProcessExtra50_loop_returns (fuel : nat) :
  forall (bytes_left br ht : Z) (name : string) (w : World),
    0 <= offset (fp w) ->
    (left_ (fp w) < fuel)%nat ->
    fst (ProcessExtra50_loop fuel bytes_left br ht name w) = inl (Returned 0).
Proof.
  induction fuel as [| fuel IH]; intros bl br ht name w Ho Hm; [lia |].
  cbn [ProcessExtra50_loop]. run.
  destruct (read_vuint br (fp w)) as [[[len fs] n] f1] eqn:H1. run.
  destruct (read_vuint_progress br (fp w) f1 len fs n Ho H1) as (Ho1 & Hle1 & Hlt1).
  destruct ((len =? 0) || (3 <? len)) eqn:Hlen; run; [reflexivity |].
  assert (len <> 0) as Hnz by (intros ->; discriminate).
  specialize (Hlt1 Hnz).
  destruct (CInt.i32 (CInt.i32 (bl - len) - CInt.u32 fs) <? 0); run; [reflexivity |].
  destruct (read_vuint n f1) as [[[r2 ft] n2] f2] eqn:H2. run.
  destruct (read_vuint_progress n f1 f2 r2 ft n2 Ho1 H2) as (Ho2 & Hle2 & _).
  destruct (r2 =? 0); run; [reflexivity |].
  destruct (((ht =? HEAD_FILE) || (ht =? HEAD_SERVICE)) && (ft =? FHEXTRA_CRYPT)).
  - apply extra_crypt_returns.
  - apply IH; cbn [fp]; [assumption | lia].
Qed.

(** [ProcessExtra50] never runs out of the fuel it is given, and always
    ends in one of its [return 0] statements. *)
Lemma ProcessExtra50_returns (extra_size HeadSize HeaderType CurBlockPos : Z)
      (name : string) (w : World) :
  0 <= offset (fp w) ->
  fst (ProcessExtra50 extra_size HeadSize HeaderType CurBlockPos name w)
  = inl (Returned 0).
Proof.
  intros Ho. unfold ProcessExtra50. run.
  pose proof (ProcessExtra50_loop_returns
                (S (List.length (content (fp w)))) (CInt.i32 extra_size) 0
                HeaderType name w Ho) as H.
  assert (Hm : (left_ (fp w) < S (List.length (content (fp w))))%nat).
  { unfold left_, remaining. rewrite length_skipn. lia. }
  specialize (H Hm).
  destruct (ProcessExtra50_loop (S (List.length (content (fp w))))
              (CInt.i32 extra_size) 0 HeaderType name w) as [[e | u] w'];
    cbn [fst] in H |- *; [injection H as ->; reflexivity | discriminate].
Qed.
(** A pass of the search that goes on has read a whole chunk. *)
Lemma fread_chunk (f f' : FILE) (count : Z) (buf : list Z) :
  0 <= offset f ->
  at_eof f = false ->
  fread 1 CHUNK_SIZE f = ((count, buf), f') ->
  at_eof f' = false ->
  0 < count ->
  offset f' = offset f + CHUNK_SIZE
  /\ content f' = content f
  /\ (Z.to_nat CHUNK_SIZE <= left_ f)%nat.
Proof.
  intros Ho He. unfold fread, left_. cbn [Z.mul Pos.mul Z.leb Z.compare CHUNK_SIZE].
  rewrite He. cbn [orb].
  set (got := firstn (Z.to_nat 4096) (remaining f)).
  assert (Hk : (Z.of_nat (List.length got) <? 4096) = false ->
               Z.of_nat (List.length got) = 4096
               /\ (Z.to_nat 4096 <= List.length (remaining f))%nat).
  { intros H. apply Z.ltb_ge in H. subst got. rewrite length_firstn in *. lia. }
  destruct (device f) as [[| d] |]; intros E; inversion E; subst count buf f';
    clear E; cbn [at_eof offset content]; intros Hf Hc; try lia;
    destruct (Hk Hf) as [Hx Hl]; rewrite Hx; repeat split; assumption.
Qed.

Lemma seek_back_offset (m : Z) :
  sizeof_size_t = 4 \/ sizeof_size_t = 8 ->
  1 <= m <= CHUNK_SIZE ->
  - CHUNK_SIZE < CInt.i64 (size_t (1 - m)).
Proof.
  intros Hs Hm. unfold size_t, size_bits, CInt.i64, CInt.signed, CInt.wrap, CHUNK_SIZE in *.
  destruct Hs as [-> | ->].
  - change (2 ^ (8 * 4)) with 4294967296. change (2 ^ 64) with 18446744073709551616.
    change (2 ^ (64 - 1)) with 9223372036854775808.
    assert (0 <= (1 - m) mod 4294967296 < 4294967296) by (apply Z.mod_pos_bound; lia).
    rewrite (Z.mod_small ((1 - m) mod 4294967296)) by lia.
    destruct (Z.ltb_spec ((1 - m) mod 4294967296) 9223372036854775808); lia.
  - change (2 ^ (8 * 8)) with 18446744073709551616.
    change (2 ^ 64) with 18446744073709551616.
    change (2 ^ (64 - 1)) with 9223372036854775808.
    rewrite Z.mod_mod by lia.
    assert (0 <= (1 - m) mod 18446744073709551616 < 18446744073709551616)
      by (apply Z.mod_pos_bound; lia).
    destruct (Z.eq_dec m 1) as [-> | Hne].
    + cbn. lia.
    + assert ((1 - m) mod 18446744073709551616 = 18446744073709551616 + (1 - m)).
      { symmetry. apply Z.mod_unique_pos with (q := -1); lia. }
      destruct (Z.ltb_spec ((1 - m) mod 18446744073709551616) 9223372036854775808); lia.
Qed.

Lemma sfx_scan_total (fuel : nat) :
  forall (magic : list Z) (f : FILE),
    sizeof_size_t = 4 \/ sizeof_size_t = 8 ->
    1 <= Z.of_nat (List.length magic) <= CHUNK_SIZE ->
    0 <= offset f ->
    (left_ f < fuel)%nat ->
    sfx_scan fuel magic f <> None.
Proof.
  induction fuel as [| fuel IH]; intros magic f Hs Hm Ho Hl; [lia |].
  cbn [sfx_scan]. unfold feof.
  destruct (at_eof f) eqn:He; [discriminate |].
  destruct (fread 1 CHUNK_SIZE f) as [[count buf] f1] eqn:Hrd.
  destruct (Z.ltb_spec count (Z.of_nat (List.length magic))); [discriminate |].
  destruct (memmem buf magic); [discriminate |].
  destruct (at_eof f1) eqn:He1; [discriminate |].
  destruct (fread_chunk f f1 count buf Ho He Hrd He1 ltac:(lia)) as (Hof & Hc & Hn).
  pose proof (seek_back_offset (Z.of_nat (List.length magic)) Hs Hm) as Hback.
  set (d := CInt.i64 (size_t (1 - Z.of_nat (List.length magic)))) in *.
  apply IH; try assumption.
  - unfold fseek. cbn [offset]. destruct (_ || _); cbn [offset]; lia.
  - assert (Hlt : forall f2 : FILE,
               content f2 = content f -> offset f < offset f2 ->
               (left_ f2 < left_ f)%nat).
    { intros f2 Hc2 Ho2. unfold left_, remaining in *. rewrite Hc2, !length_skipn in *.
      unfold CHUNK_SIZE in *. lia. }
    assert ((left_ (fseek d SEEK_CUR f1) < left_ f)%nat); [| lia].
    apply Hlt; unfold fseek; destruct (_ || _); cbn [content offset];
      unfold CHUNK_SIZE in *; try assumption; lia.
Qed.
(** A record that is not the crypt record: the next pass of the loop
    starts at the stream as the read of the type field left it, whatever
    size the record declared; only [bytes_left] takes the size off. *)
Lemma other_record_payload_not_skipped
      (fuel : nat) (bytes_left br ht : Z) (name : string) (w : World)
      (len fs n1 r2 ft n2 : Z) (f1 f2 : FILE) :
  read_vuint br (fp w) = ((len, fs, n1), f1) ->
  len <> 0 -> len <= 3 ->
  0 <= CInt.i32 (CInt.i32 (bytes_left - len) - CInt.u32 fs) ->
  read_vuint n1 f1 = ((r2, ft, n2), f2) ->
  r2 <> 0 ->
  ft <> FHEXTRA_CRYPT ->
  ProcessExtra50_loop (S fuel) bytes_left br ht name w
  = ProcessExtra50_loop fuel (CInt.i32 (CInt.i32 (bytes_left - len) - CInt.u32 fs))
                        n2 ht name
                        (mkWorld f2 (glob w) (stdout w) (stderr w) (found w)).
Proof.
  intros H1 Hl0 Hl3 Hbl H2 Hr2 Hft.
  apply Z.eqb_neq in Hl0, Hr2, Hft. apply Z.ltb_ge in Hl3, Hbl.
  cbn [ProcessExtra50_loop]. run. rewrite H1. run.
  rewrite Hl0, Hl3. run. rewrite Hbl. run. rewrite H2. run. rewrite Hr2, Hft.
  rewrite andb_false_r. reflexivity.
Qed.

End Termination.

(** ** The RAR5 readers *)

Section ReaderFacts.

Context {env : Environment}.

(** C10.  For every requested length [len >= 1], [read_buf] returns
    [len] and adds the whole of [len] to the caller's counter (a
    [uint32_t], so modulo 2^32) as soon as [fread] delivered one byte,
    however few bytes came; it returns 0, and leaves the counter alone,
    exactly when [fread] delivered none. *)
Theorem read_buf_full_length_on_any_byte
        (cp : list Z) (len bytes_read : Z) (f : FILE) :
  1 <= len ->
  let yielded := fst (fst (fread 1 (size_t len) f)) in
  let '(ret, _, counter) := fst (read_buf cp len bytes_read f) in
  (1 <= yielded -> ret = len /\ counter = CInt.u32 (bytes_read + len))
  /\ (ret = 0 <-> yielded = 0)
  /\ (ret = 0 -> counter = bytes_read).
Proof.
  intros Hlen yielded. subst yielded.
  pose proof (fread_bytes_count (size_t len) f) as Hge.
  unfold read_buf.
  destruct (fread 1 (size_t len) f) as [[n got] f'].
  simpl in Hge |- *.
  destruct (Z.ltb_spec n 1); simpl; repeat split; intros; lia.
Qed.

End ReaderFacts.

Lemma read_buf_full_length_on_any_byte_witness :
  1 <= 16 /\
  let env := Sample.host64 in
  let f := Sample.stream [7; 8; 9] in
  let yielded := fst (fst (fread 1 (size_t 16) f)) in
  let '(ret, _, counter) := fst (read_buf (repeat 0 16) 16 0 f) in
  (1 <= yielded -> ret = 16 /\ counter = CInt.u32 (0 + 16))
  /\ (ret = 0 <-> yielded = 0)
  /\ (ret = 0 -> counter = 0).
Proof.
  split; [lia |].
  apply (read_buf_full_length_on_any_byte (env := Sample.host64)
           (repeat 0 16) 16 0 (Sample.stream [7; 8; 9])).
  lia.
Defined.

(** Three bytes are left of the stream, sixteen are asked for: the call
    reports sixteen, the counter moves by sixteen, the stream by three. *)
Example read_buf_short_read :
  let env := Sample.host64 in
  read_buf (repeat 0 16) 16 0 (Sample.stream [7; 8; 9])
  = ((16, [7; 8; 9; 0; 0; 0; 0; 0; 0; 0; 0; 0; 0; 0; 0; 0], 16),
     mkFILE (bytes_of [7; 8; 9]) 3 true None [(0, 16)]).
Proof. vm_compute. reflexivity. Qed.

(** ** RAR5 blocks *)

Section Rar5Facts.

Context {env : Environment}.

(** The crypt header block up to its count: the count is refused only
    above the maximum. *)
Lemma crypt_header_count_bound
      (w : World) (n r1 ver n1 r2 flags n2 r3 lg n3 : Z) (f1 f2 f3 : FILE) :
  read_vuint n (fp w) = ((r1, ver, n1), f1) -> r1 <> 0 ->
  ver <= CRYPT_VERSION ->
  read_vuint n1 f1 = ((r2, flags, n2), f2) -> r2 <> 0 ->
  read_uint8 (nth 0 (uninit 1) 0) n2 f2 = ((r3, lg, n3), f3) -> r3 <> 0 ->
  let w' := snd (crypt_block n w) in
  (lg <= CRYPT5_KDF_LG2_COUNT_MAX ->
   rar5_interations (glob w') = lg /\ stdout w' = stdout w)
  /\ (CRYPT5_KDF_LG2_COUNT_MAX < lg ->
      crypt_block n w
      = (inl (Returned 0),
         mkWorld f3 (set_UsePswCheck (CInt.has flags CHFL_CRYPT_PSWCHECK) (glob w))
                 (stdout w ++ [("rar PBKDF2 iteration count too large" ++ nl)%string])
                 (stderr w) (found w))).
Proof.
  intros H1 Hr1 Hver H2 Hr2 H3 Hr3.
  apply Z.eqb_neq in Hr1, Hr2, Hr3.
  apply Z.ltb_ge in Hver.
  unfold crypt_block. run. rewrite H1. run. rewrite Hr1, Hver. run.
  rewrite H2. run. rewrite Hr2. run. rewrite H3. run. rewrite Hr3. run.
  destruct (Z.ltb_spec CRYPT5_KDF_LG2_COUNT_MAX lg) as [Hbig | Hok].
  - split; [lia |]. intros _. reflexivity.
  - split; [| lia]. intros _. run. step_all; auto.
Qed.

(** The crypt record of an extra area up to its count: the count is
    refused from the maximum on. *)
Lemma extra_record_count_bound
      (w : World) (name : string)
      (n r1 ver n1 r2 flags n2 r3 lg n3 : Z) (f1 f2 f3 : FILE) :
  read_vuint n (fp w) = ((r1, ver, n1), f1) -> r1 <> 0 ->
  read_vuint n1 f1 = ((r2, flags, n2), f2) -> r2 <> 0 ->
  Z.land flags FHEXTRA_CRYPT_PSWCHECK <> 0 ->
  read_uint8 (nth 0 (uninit 1) 0) n2 f2 = ((r3, lg, n3), f3) -> r3 <> 0 ->
  (CRYPT5_KDF_LG2_COUNT_MAX <= lg ->
   extra_crypt n name w
   = (inl (Returned 0),
      mkWorld f3 (glob w) (stdout w) (stderr w ++ [D_lg2count]) (found w)))
  /\ (lg < CRYPT5_KDF_LG2_COUNT_MAX ->
      stderr (snd (extra_crypt n name w)) = stderr w).
Proof.
  intros H1 Hr1 H2 Hr2 Hfl H3 Hr3.
  apply Z.eqb_neq in Hr1, Hr2, Hr3, Hfl.
  unfold extra_crypt. run. rewrite H1. run. rewrite Hr1. run.
  rewrite H2. run. rewrite Hr2, Hfl. run. rewrite H3. run. rewrite Hr3. run.
  destruct (Z.leb_spec CRYPT5_KDF_LG2_COUNT_MAX lg) as [Hbig | Hok].
  - split; [| lia]. intros _. reflexivity.
  - split; [lia |]. intros _. run. step_all; reflexivity.
Qed.

(** C9.  A log2 iteration count equal to the maximum, 24, passes the
    check of a crypt header block, which refuses only larger counts
    (the count is stored and nothing is printed), and fails the check
    of the crypt record of a file or service extra area, which refuses
    every count from the maximum on (the message is printed, the call
    returns 0 and no record is written). *)
Theorem lg2_count_at_maximum :
  CRYPT5_KDF_LG2_COUNT_MAX = 24
  /\ (forall (w : World) (n r1 ver n1 r2 flags n2 r3 lg n3 : Z) (f1 f2 f3 : FILE),
        read_vuint n (fp w) = ((r1, ver, n1), f1) -> r1 <> 0 ->
        ver <= CRYPT_VERSION ->
        read_vuint n1 f1 = ((r2, flags, n2), f2) -> r2 <> 0 ->
        read_uint8 (nth 0 (uninit 1) 0) n2 f2 = ((r3, lg, n3), f3) -> r3 <> 0 ->
        let w' := snd (crypt_block n w) in
        (lg = 24 -> rar5_interations (glob w') = 24 /\ stdout w' = stdout w)
        /\ (lg <= 24 -> rar5_interations (glob w') = lg /\ stdout w' = stdout w)
        /\ (24 < lg ->
            fst (crypt_block n w) = inl (Returned 0)
            /\ stdout w'
               = stdout w ++ [("rar PBKDF2 iteration count too large" ++ nl)%string]))
  /\ (forall (w : World) (name : string)
             (n r1 ver n1 r2 flags n2 r3 lg n3 : Z) (f1 f2 f3 : FILE),
        read_vuint n (fp w) = ((r1, ver, n1), f1) -> r1 <> 0 ->
        read_vuint n1 f1 = ((r2, flags, n2), f2) -> r2 <> 0 ->
        Z.land flags FHEXTRA_CRYPT_PSWCHECK <> 0 ->
        read_uint8 (nth 0 (uninit 1) 0) n2 f2 = ((r3, lg, n3), f3) -> r3 <> 0 ->
        let w' := snd (extra_crypt n name w) in
        (24 <= lg ->
         fst (extra_crypt n name w) = inl (Returned 0)
         /\ stderr w' = stderr w ++ [D_lg2count]
         /\ stdout w' = stdout w /\ found w' = found w)
        /\ (lg < 24 -> stderr w' = stderr w)).
Proof.
  split; [reflexivity |]. split.
  - intros w n r1 ver n1 r2 flags n2 r3 lg n3 f1 f2 f3 H1 Hr1 Hv H2 Hr2 H3 Hr3 w'.
    destruct (crypt_header_count_bound w n r1 ver n1 r2 flags n2 r3 lg n3
                f1 f2 f3 H1 Hr1 Hv H2 Hr2 H3 Hr3) as [Hok Hbig].
    fold w' in Hok. change CRYPT5_KDF_LG2_COUNT_MAX with 24 in *.
    repeat split.
    + subst lg. apply Hok. lia.
    + subst lg. apply Hok. lia.
    + apply Hok. assumption.
    + apply Hok. assumption.
    + rewrite (Hbig H). reflexivity.
    + subst w'. rewrite (Hbig H). reflexivity.
  - intros w name n r1 ver n1 r2 flags n2 r3 lg n3 f1 f2 f3 H1 Hr1 H2 Hr2 Hfl H3 Hr3 w'.
    destruct (extra_record_count_bound w name n r1 ver n1 r2 flags n2 r3 lg n3
                f1 f2 f3 H1 Hr1 H2 Hr2 Hfl H3 Hr3) as [Hbig Hok].
    change CRYPT5_KDF_LG2_COUNT_MAX with 24 in *.
    split.
    + intros Hlg. subst w'. rewrite (Hbig Hlg). repeat split.
    + intros Hlg. apply Hok. assumption.
Qed.

End Rar5Facts.

Lemma lg2_count_at_maximum_witness :
  let env := Sample.host64 in
  let w := set_fp (Sample.stream ([0; 1; 24] ++ Sample.run_of 0 16))
                  (Sample.fresh false) in
  (rar5_interations (glob (snd (crypt_block 0 w))) = 24
   /\ stdout (snd (crypt_block 0 w)) = stdout w)
  /\ (fst (extra_crypt 0 "a.rar" w) = inl (Returned 0)
      /\ stderr (snd (extra_crypt 0 "a.rar" w)) = stderr w ++ [D_lg2count]
      /\ stdout (snd (extra_crypt 0 "a.rar" w)) = stdout w
      /\ found (snd (extra_crypt 0 "a.rar" w)) = found w).
Proof.
  intros env w.
  destruct (@lg2_count_at_maximum env) as [_ [Hc He]].
  split.
  - refine (proj1 (Hc w 0 _ _ _ _ _ _ _ 24 _ _ _ _ _ _ _ _ _ _ _) eq_refl);
      try (vm_compute; reflexivity); vm_compute; congruence.
  - refine (proj1 (He w "a.rar"%string 0 _ _ _ _ _ _ _ 24 _ _ _ _ _ _ _ _ _ _ _) _);
      try (vm_compute; reflexivity); vm_compute; congruence.
Defined.

Section EncryptedHeaders.

Context {env : Environment}.

(** A crypt header block without the password-check flag. *)
Lemma crypt_block_without_pswcheck
      (w : World) (n r1 ver n1 r2 flags n2 r3 lg n3 r4 n4 : Z)
      (salt : list Z) (f1 f2 f3 f4 : FILE) :
  read_vuint n (fp w) = ((r1, ver, n1), f1) -> r1 <> 0 ->
  ver <= CRYPT_VERSION ->
  read_vuint n1 f1 = ((r2, flags, n2), f2) -> r2 <> 0 ->
  CInt.has flags CHFL_CRYPT_PSWCHECK = false ->
  read_uint8 (nth 0 (uninit 1) 0) n2 f2 = ((r3, lg, n3), f3) -> r3 <> 0 ->
  lg <= CRYPT5_KDF_LG2_COUNT_MAX ->
  read_buf (rar5_salt (glob w)) SIZE_SALT50 n3 f3 = ((r4, salt, n4), f4) ->
  r4 <> 0 ->
  crypt_block n w
  = (inr tt,
     mkWorld f4 (mkGlobals (verbose (glob w)) true (PswCheck (glob w)) lg
                           false salt)
             (stdout w) (stderr w) (found w)).
Proof.
  intros H1 Hr1 Hver H2 Hr2 Hfl H3 Hr3 Hlg H4 Hr4.
  apply Z.eqb_neq in Hr1, Hr2, Hr3, Hr4.
  apply Z.ltb_ge in Hver, Hlg.
  unfold crypt_block. run. rewrite H1. run. rewrite Hr1, Hver. run.
  rewrite H2. run. rewrite Hr2. run. rewrite H3. run. rewrite Hr3, Hlg. run.
  rewrite H4. run. rewrite Hr4. run. rewrite Hfl. reflexivity.
Qed.

(** A crypt header block with the password-check flag: whatever the
    comparison of the checksum gives only goes into [UsePswCheck]. *)
Lemma crypt_block_with_pswcheck
      (w : World) (n r1 ver n1 r2 flags n2 r3 lg n3 r4 n4 r5 n5 r6 n6 : Z)
      (salt check chksum : list Z) (f1 f2 f3 f4 f5 f6 : FILE) :
  read_vuint n (fp w) = ((r1, ver, n1), f1) -> r1 <> 0 ->
  ver <= CRYPT_VERSION ->
  read_vuint n1 f1 = ((r2, flags, n2), f2) -> r2 <> 0 ->
  CInt.has flags CHFL_CRYPT_PSWCHECK = true ->
  read_uint8 (nth 0 (uninit 1) 0) n2 f2 = ((r3, lg, n3), f3) -> r3 <> 0 ->
  lg <= CRYPT5_KDF_LG2_COUNT_MAX ->
  read_buf (rar5_salt (glob w)) SIZE_SALT50 n3 f3 = ((r4, salt, n4), f4) ->
  r4 <> 0 ->
  read_buf (PswCheck (glob w)) SIZE_PSWCHECK n4 f4 = ((r5, check, n5), f5) ->
  r5 <> 0 ->
  read_buf (uninit SIZE_PSWCHECK_CSUM) SIZE_PSWCHECK_CSUM n5 f5
  = ((r6, chksum, n6), f6) ->
  r6 <> 0 ->
  crypt_block n w
  = (inr tt,
     mkWorld f6
             (mkGlobals (verbose (glob w)) true check lg
                        (mem_equal (SHA256 (firstn (Z.to_nat SIZE_PSWCHECK) check))
                                   chksum SIZE_PSWCHECK_CSUM)
                        salt)
             (stdout w) (stderr w) (found w)).
Proof.
  intros H1 Hr1 Hver H2 Hr2 Hfl H3 Hr3 Hlg H4 Hr4 H5 Hr5 H6 Hr6.
  apply Z.eqb_neq in Hr1, Hr2, Hr3, Hr4, Hr5, Hr6.
  apply Z.ltb_ge in Hver, Hlg.
  unfold crypt_block. run. rewrite H1. run. rewrite Hr1, Hver. run.
  rewrite H2. run. rewrite Hr2. run. rewrite H3. run. rewrite Hr3, Hlg. run.
  rewrite H4. run. rewrite Hr4. run. rewrite Hfl. run.
  rewrite H5. run. rewrite Hr5. run. rewrite H6. run. rewrite Hr6. run.
  reflexivity.
Qed.

(** The header read that follows once [Encrypted] is set. *)
Lemma encrypted_header_read (w : World) (pos : Z) (name : string)
      (r n : Z) (iv : list Z) (f' : FILE) :
  Encrypted (glob w) = true ->
  read_buf (uninit SIZE_INITV) SIZE_INITV 0 (fp w) = ((r, iv, n), f') ->
  (1 <= fst (fst (fread 1 (size_t SIZE_INITV) (fp w))) ->
   read_rar5_header pos name w
   = (inl (Returned 0),
      mkWorld f' (glob w)
              (stdout w ++ [rar5_record (basename name) (rar5_salt (glob w))
                                        (rar5_interations (glob w)) iv
                                        (PswCheck (glob w))])
              (stderr w) (CInt.i32 (found w + 1))))
  /\ (fst (fst (fread 1 (size_t SIZE_INITV) (fp w))) = 0 ->
      read_rar5_header pos name w
      = (inl (Returned 0),
         mkWorld f' (glob w) (stdout w) (stderr w ++ [D_iv_short name])
                 (found w))).
Proof.
  intros He Hrd.
  pose proof (fread_bytes_count (size_t SIZE_INITV) (fp w)) as Hge.
  unfold read_rar5_header. run. rewrite He. run. rewrite Hrd. run.
  unfold read_buf in Hrd.
  destruct (fread 1 (size_t SIZE_INITV) (fp w)) as [[k got] f''].
  cbn [fst] in Hge |- *.
  destruct (Z.ltb_spec k 1) as [Hk | Hk]; inversion Hrd; subst; clear Hrd.
  - split; [lia |]. intros _. reflexivity.
  - split; [| lia]. intros _. reflexivity.
Qed.

End EncryptedHeaders.

(** A whole archive: the magic, a crypt header block without the
    password-check flag, sixteen more bytes. *)
Example crypt_header_without_check_value :
  let env := Sample.host64 in
  let archive := RAR5_MAGIC ++ Sample.crypt_block5 0 15 [] (Sample.run_of 64 16) in
  let '(r, w') := process_file5 4 (Sample.disk archive None) "a.rar"
                                (Sample.fresh false) in
  r = inr 1
  /\ stdout w'
     = [("a.rar:$rar5$16$000102030405060708090a0b0c0d0e0f$15$"
           ++ "404142434445464748494a4b4c4d4e4f$12$000000000000000000000000"
           ++ nl)%string].
Proof. vm_compute. split; reflexivity. Qed.

(** ** The RAR3 candidate selector *)

Section SelectorFacts.

Context {env : Environment}.

Lemma admission_threshold_cases (m : Z) :
  admission_threshold m = 4 \/ admission_threshold m = 1.
Proof. unfold admission_threshold. destruct (0x30 <? m); auto. Qed.

(** The selector's test in propositional form. *)
Lemma better_already_spec (b : bestsize_t) (p u m : Z) :
  better_already b p u m = true <->
  pack b < SIZE_MAX /\
  ((pack b < p /\ admission_threshold (method b) <= unp b)
   \/ (u < unp b /\ u < admission_threshold m)
   \/ (pack b = p /\ ((u < unp b /\ u < 8) \/ (unp b <= u /\ 8 <= unp b)))).
Proof.
  unfold better_already.
  rewrite !andb_true_iff, !orb_true_iff, !andb_true_iff, !orb_true_iff,
    !andb_true_iff.
  rewrite !Z.ltb_lt, !Z.leb_le, Z.eqb_eq. tauto.
Qed.

(** C1, as amended.  The incumbent [b] is a candidate ([pack b] is below
    the sentinel [SIZE_MAX]) and the new entry has the same packed size.
    If only the incumbent has an unpacked size of 8 or more it is kept;
    if only the new entry has, the new entry is admitted.  When both have,
    the incumbent is kept exactly when its unpacked size is not larger
    than the new one; when neither has, exactly when the new unpacked
    size is strictly smaller than the incumbent's. *)
Theorem tied_pack_sizes (b : bestsize_t) (u m : Z) :
  pack b < SIZE_MAX ->
  (8 <= unp b -> u < 8 -> better_already b (pack b) u m = true)
  /\ (unp b < 8 -> 8 <= u -> better_already b (pack b) u m = false)
  /\ (8 <= unp b -> 8 <= u ->
      (better_already b (pack b) u m = true <-> unp b <= u))
  /\ (unp b < 8 -> u < 8 ->
      (better_already b (pack b) u m = true <-> u < unp b)).
Proof.
  intros Hb.
  pose proof (admission_threshold_cases m) as Hm.
  pose proof (better_already_spec b (pack b) u m) as S.
  repeat split; intros.
  - apply S. lia.
  - destruct (better_already b (pack b) u m); [| reflexivity].
    assert (true = true) as E by reflexivity. apply S in E. lia.
  - apply S in H1. lia.
  - apply S. lia.
  - apply S in H1. lia.
  - apply S. lia.
Qed.

(** C7, as amended.  When the incumbent [b] is a candidate with an
    unpacked size of 8 or more, an entry [c] that is admitted against it
    has an unpacked size of 8 or more, or a packed size strictly smaller
    than the incumbent's together with an unpacked size that reaches the
    threshold of its own method. *)
Theorem admitted_after_large (b c : bestsize_t) :
  pack b < SIZE_MAX ->
  8 <= unp b ->
  better_already b (pack c) (unp c) (method c) = false ->
  8 <= unp c
  \/ (pack c < pack b /\ admission_threshold (method c) <= unp c).
Proof.
  intros Hb Hu Hadm.
  pose proof (admission_threshold_cases (method b)) as Hm.
  pose proof (better_already_spec b (pack c) (unp c) (method c)) as S.
  destruct (Z.le_gt_cases 8 (unp c)) as [| Hsmall]; [left; assumption | right].
  assert (N : ~ (pack b < SIZE_MAX /\
    ((pack b < pack c /\ admission_threshold (method b) <= unp b)
     \/ (unp c < unp b /\ unp c < admission_threshold (method c))
     \/ (pack b = pack c
         /\ ((unp c < unp b /\ unp c < 8) \/ (unp b <= unp c /\ 8 <= unp b)))))).
  { intro H. apply S in H. congruence. }
  lia.
Qed.

End SelectorFacts.

Lemma tied_pack_sizes_witness :
  let env := Sample.host64 in
  let b := mkBest 1000 20 0x30 in
  pack b < SIZE_MAX
  /\ (8 <= unp b -> 8 <= 10 ->
      (better_already b (pack b) 10 0x30 = true <-> unp b <= 10)).
Proof.
  intros env b.
  assert (H : pack b < SIZE_MAX) by (vm_compute; reflexivity).
  split; [exact H |].
  exact (proj1 (proj2 (proj2 (tied_pack_sizes b 10 0x30 H)))).
Defined.

(** C1 as stated fails: with equal packed sizes the incumbent is replaced
    by an entry with a smaller unpacked size when both are 8 or more, and
    by an entry with a larger unpacked size when both are below 8. *)
Lemma tied_pack_sizes_replace_incumbent :
  let env := Sample.host64 in
  let b := mkBest 1000 20 0x30 in
  let b' := mkBest 1000 3 0x30 in
  (pack b < SIZE_MAX /\ 8 <= unp b /\ 8 <= 10
   /\ better_already b 1000 10 0x30 = false)
  /\ (pack b' < SIZE_MAX /\ unp b' < 8 /\ 5 < 8
      /\ better_already b' 1000 5 0x30 = false).
Proof. vm_compute. repeat split; congruence. Qed.

Lemma admitted_after_large_witness :
  let env := Sample.host64 in
  let b := mkBest 100 10 0x30 in
  let c := mkBest 50 1 0x30 in
  8 <= unp c \/ (pack c < pack b /\ admission_threshold (method c) <= unp c).
Proof.
  intros env b c.
  apply (admitted_after_large b c); vm_compute; congruence.
Defined.

(** C7 as stated fails: after the entry of 10 bytes was admitted, the
    stored entry of 1 byte replaces it (smaller packed size), and then an
    entry of 2 bytes compressed with method 0x33 is admitted with the same
    packed size, below the threshold of 4 of its method. *)
Lemma later_admission_below_threshold :
  let env := Sample.host64 in
  let c1 := mkBest 100 10 0x30 in
  let c2 := mkBest 50 1 0x30 in
  let c3 := mkBest 50 2 0x33 in
  admissions no_candidate [c1; c2; c3]
  = [(no_candidate, c1); (c1, c2); (c2, c3)]
  /\ 8 <= unp c1 /\ unp c3 < 8
  /\ ~ (pack c3 < pack c2) /\ ~ (admission_threshold (method c3) <= unp c3).
Proof. vm_compute. repeat split; congruence. Qed.

(** The same on whole archives of three entries with equal packed sizes:
    with unpacked sizes 20, 10, 12 the record is that of the second entry,
    and with 3, 5, 4 as well. *)
Example tied_entries_in_an_archive :
  let env := Sample.host64 in
  (let '(_, w') :=
     process_file 5 (Sample.disk (Sample.three_entries (10, 20, 0x30) (10, 10, 0x30)
                                                       (10, 12, 0x30)) None)
                  "a.rar" (Sample.fresh false) in
   stdout w'
   = [("a.rar:$RAR3$*1*0102030405060708*aabbccdd*10*10*1*55555555555555555555"
         ++ "*30:1::a b c " ++ nl)%string])
  /\ (let '(_, w') :=
        process_file 5 (Sample.disk (Sample.three_entries (10, 3, 0x30) (10, 5, 0x30)
                                                          (10, 4, 0x30)) None)
                     "a.rar" (Sample.fresh false) in
      stdout w'
      = [("a.rar:$RAR3$*1*0102030405060708*aabbccdd*10*5*1*55555555555555555555"
            ++ "*30:1::a b c " ++ nl)%string]).
Proof. vm_compute. split; reflexivity. Qed.

(** Entries of 10 bytes stored, 1 byte stored and 2 bytes compressed with
    method 0x33 in one archive, the last two with equal packed sizes: the
    record is that of the third entry, and the warning about a candidate
    that is too small is printed. *)
Example small_entry_wins_in_an_archive :
  let env := Sample.host64 in
  let '(_, w') :=
    process_file 5 (Sample.disk (Sample.three_entries (100, 10, 0x30) (50, 1, 0x30)
                                                      (50, 2, 0x33)) None)
                 "a.rar" (Sample.fresh false) in
  stdout w'
  = [("a.rar:$RAR3$*1*0102030405060708*aabbccdd*50*2*1*" ++ hex_of (repeat 0x55 50)
        ++ "*33:1::a b c " ++ nl)%string]
  /\ last (stderr w') D_blank_line = D_too_small.
Proof. vm_compute. split; reflexivity. Qed.

(** ** RAR3 archives with encrypted headers *)

Section HeadersEncrypted.

Context {env : Environment}.

(** The loop over the file headers in the -hp mode, on a healthy device
    with at least 32 bytes at the position of the first file header. *)
Lemma file_headers_hp (fuel : nat) (name base : string) (s : Scan)
      (c : list byte) (o : Z) (r : list (Z * Z)) (g : Globals)
      (out : list string) (err : list diag) (fnd : Z) (blk rest : list byte) :
  0 <= o ->
  skipn (Z.to_nat o) c = blk ++ rest ->
  List.length blk = 32%nat ->
  Z.of_nat (List.length c) <= CInt.INT64_MAX ->
  let size := Z.of_nat (List.length c) in
  let tail := map byte_val (skipn (List.length c - 24) c) in
  file_headers (S fuel) 0 name base s
               (mkWorld (mkFILE c o false None r) g out err fnd)
  = (inr tt,
     mkWorld (mkFILE c size false None (r ++ [(o, 32); (size - 24, 24)])) g
             (out ++ [(base ++ ":$RAR3$*0*")%string] ++ map hex2 (firstn 8 tail)
                  ++ ["*"%string] ++ map hex2 (skipn 8 tail)
                  ++ [(":0::::" ++ name ++ nl)%string])
             (err ++ (if verbose g then [D_blank_line; D_hp_entry base] else []))
             fnd).
Proof.
  intros Ho Hrem Hblk Hmax size tail.
  assert (Hlen : 32 <= size).
  { subst size. apply (f_equal (@List.length byte)) in Hrem.
    rewrite length_skipn, length_app, Hblk in Hrem. lia. }
  cbn [file_headers]. unfold file_header. run.
  assert (R32 :
    fread 32 1 (mkFILE c o false None r)
    = ((1, map byte_val blk), mkFILE c (o + 32) false None (r ++ [(o, 32)]))).
  { apply (fread_item (mkFILE c o false None r) blk rest 32);
      [reflexivity | exact Hrem | rewrite Hblk; reflexivity | lia]. }
  assert (Rtail :
    fread 24 1 (fseek (-24) SEEK_END (mkFILE c (o + 32) false None (r ++ [(o, 32)])))
    = ((1, tail),
       mkFILE c size false None (r ++ [(o, 32); (size - 24, 24)]))).
  { rewrite fseek_ok by (cbn [content]; fold size; lia).
    cbn [content offset device reads]. fold size.
    rewrite (fread_item _ (skipn (List.length c - 24) c) [] 24).
    - cbn [content offset at_eof reads]. fold tail.
      rewrite <- app_assoc. cbn [app].
      repeat f_equal; lia.
    - reflexivity.
    - unfold remaining. cbn [offset content]. rewrite app_nil_r.
      f_equal. lia.
    - rewrite length_skipn. lia.
    - lia. }
  destruct (verbose g) eqn:Hv; run; rewrite R32; run;
    change (1 =? 1) with true; change (0 =? 1) with false;
    change (0 =? 0) with true; run; unfold hp_entry; run;
    rewrite Hv; run; rewrite Rtail; run;
    change (1 =? 1) with true; run;
    rewrite (firstn_all2 (n := 24) tail)
      by (subst tail; rewrite length_map, length_skipn; lia);
    rewrite ?app_nil_r, <- ?app_assoc; reflexivity.
Qed.

(** C3, as amended.  The archive is the RAR3 magic, a 13-byte archive
    header with the tag 0x73 and the flag 0x0080, the rest of the header
    when its size field says more than 13, and at least 32 more bytes;
    the device is healthy.  Then [process_file] returns, and what it
    wrote to stdout is exactly one mode-0 line, whose salt and block are
    the 8 and 16 bytes that start 24 bytes before the end of the file.
    Before it prints anything it reads the 32 bytes at the position of
    the first file header (the third read of the log); none of their
    fields goes into the line. *)
Theorem hp_archive_one_record
        (fs : filesystem) (name : string) (hdr gap blk rest : list byte)
        (fuel : nat) (w : World) :
  let img := bytes_of RAR3_MAGIC ++ hdr ++ gap ++ blk ++ rest in
  let H := map byte_val hdr in
  let head_size := Z.lor (Z.shiftl (at_ H 6) 8) (at_ H 5) in
  let tail := map byte_val (skipn (List.length img - 24) img) in
  let base := basename (take (PATH_BUFFER_SIZE - 1) name) in
  fs name = Some (mkDisk img None) ->
  Z.of_nat (List.length img) <= CInt.INT64_MAX ->
  List.length hdr = 13%nat ->
  at_ H 2 = 0x73 ->
  CInt.has (Z.lor (Z.shiftl (at_ H 4) 8) (at_ H 3)) 0x0080 = true ->
  Z.of_nat (List.length gap) = (if 13 <? head_size then head_size - 13 else 0) ->
  List.length blk = 32%nat ->
  exists (w' : World) (writes : list string),
    process_file (S fuel) fs name w = (inr tt, w')
    /\ stdout w' = stdout w ++ writes
    /\ String.concat "" writes
       = (base ++ ":$RAR3$*0*" ++ hex_of (firstn 8 tail) ++ "*"
               ++ hex_of (skipn 8 tail) ++ ":0::::" ++ name ++ nl)%string
    /\ stderr w'
       = stderr w ++ (if verbose (glob w) then [D_blank_line; D_hp_entry base]
                      else [])
    /\ reads (fp w')
       = [(0, 7); (7, 13); (20 + Z.of_nat (List.length gap), 32);
          (Z.of_nat (List.length img) - 24, 24)].
Proof.
  intros img H head_size tail base Hfs Hsize Hhdr Htag Hflag Hgap Hblk.
  assert (Himg : Z.of_nat (List.length img)
                 = 52 + Z.of_nat (List.length gap) + Z.of_nat (List.length rest)).
  { subst img. rewrite !length_app, Hhdr, Hblk.
    cbn [bytes_of RAR3_MAGIC map List.length]. lia. }
  exists (snd (process_file (S fuel) fs name w)).
  exists ([(base ++ ":$RAR3$*0*")%string] ++ map hex2 (firstn 8 tail)
            ++ ["*"%string] ++ map hex2 (skipn 8 tail)
            ++ [(":0::::" ++ name ++ nl)%string]).
  assert (Hcat :
    String.concat "" ([(base ++ ":$RAR3$*0*")%string] ++ map hex2 (firstn 8 tail)
            ++ ["*"%string] ++ map hex2 (skipn 8 tail)
            ++ [(":0::::" ++ name ++ nl)%string])
    = (base ++ ":$RAR3$*0*" ++ hex_of (firstn 8 tail) ++ "*"
            ++ hex_of (skipn 8 tail) ++ ":0::::" ++ name ++ nl)%string).
  { rewrite !concat_app, !concat_hex2. cbn [String.concat].
    rewrite !append_assoc. reflexivity. }
  unfold process_file. fold base.
  unfold fopen. rewrite Hfs. cbn [image healthy_reads]. run.
  rewrite (fread_item _ (bytes_of RAR3_MAGIC) (hdr ++ gap ++ blk ++ rest) 7)
    by (try reflexivity; lia).
  run.
  change (map byte_val (bytes_of RAR3_MAGIC)) with RAR3_MAGIC.
  change (1 =? 1) with true.
  change (mem_equal RAR3_MAGIC RAR_OLD_MAGIC RAR_OLD_MAGIC_SIZE) with false.
  change (mem_equal RAR3_MAGIC RAR3_MAGIC RAR3_MAGIC_SIZE) with true.
  run.
  rewrite (fread_item _ hdr (gap ++ blk ++ rest) 13);
    [| reflexivity
     | eapply (remaining_advance _ 0 7 _ _ _ (bytes_of RAR3_MAGIC));
       [lia | reflexivity | reflexivity]
     | lia | lia ].
  run. fold H. rewrite Htag. change (1 =? 1) with true.
  change (0x73 =? 0x73) with true. run.
  rewrite Hflag. fold head_size.
  assert (Hseek :
    (if 13 <? head_size
     then fseek (head_size - 13) SEEK_CUR
                (mkFILE img (0 + 7 + 13) false None (([] ++ [(0, 7)]) ++ [(0 + 7, 13)]))
     else mkFILE img (0 + 7 + 13) false None (([] ++ [(0, 7)]) ++ [(0 + 7, 13)]))
    = mkFILE img (20 + Z.of_nat (List.length gap)) false None [(0, 7); (7, 13)]).
  { destruct (13 <? head_size).
    - rewrite fseek_ok by (cbn [offset]; lia).
      cbn [offset content device reads app]. f_equal; lia.
    - now rewrite Hgap. }
  destruct (13 <? head_size); run; rewrite Hseek;
    (erewrite file_headers_hp;
     [ cbn [snd fp stdout stderr reads glob]; fold tail;
       split; [reflexivity |]; split; [reflexivity |];
       split; [exact Hcat |]; split; reflexivity
     | lia
     | subst img;
       replace (bytes_of RAR3_MAGIC ++ hdr ++ gap ++ blk ++ rest)
         with ((bytes_of RAR3_MAGIC ++ hdr ++ gap) ++ blk ++ rest)
         by (rewrite <- !app_assoc; reflexivity);
       apply skipn_app_length;
       rewrite !length_app, Hhdr; cbn [bytes_of RAR3_MAGIC map List.length]; lia
     | exact Hblk
     | exact Hsize ]).
Qed.

End HeadersEncrypted.

Lemma hp_archive_one_record_witness :
  let env := Sample.host64 in
  let hdr := bytes_of (Sample.archive_header 0x80) in
  let blk := bytes_of (Sample.run_of 100 32) in
  let rest := bytes_of (Sample.run_of 132 8 ++ Sample.run_of 0 24) in
  let img := bytes_of RAR3_MAGIC ++ hdr ++ [] ++ blk ++ rest in
  let tail := map byte_val (skipn (List.length img - 24) img) in
  let base := basename (take (PATH_BUFFER_SIZE - 1) "a.rar") in
  let w := Sample.fresh false in
  exists (w' : World) (writes : list string),
    process_file 1 (Sample.disk Sample.hp_archive None) "a.rar" w = (inr tt, w')
    /\ stdout w' = stdout w ++ writes
    /\ String.concat "" writes
       = (base ++ ":$RAR3$*0*" ++ hex_of (firstn 8 tail) ++ "*"
               ++ hex_of (skipn 8 tail) ++ ":0::::" ++ "a.rar" ++ nl)%string
    /\ stderr w'
       = stderr w ++ (if verbose (glob w) then [D_blank_line; D_hp_entry base]
                      else [])
    /\ reads (fp w')
       = [(0, 7); (7, 13); (20 + Z.of_nat (@List.length byte []), 32);
          (Z.of_nat (List.length img) - 24, 24)].
Proof.
  intros env hdr blk rest img tail base w.
  apply (hp_archive_one_record (Sample.disk Sample.hp_archive None) "a.rar"
                               hdr [] blk rest 0 w);
    vm_compute; first [reflexivity | congruence].
Defined.

(** C3 as stated fails: on an archive made with -hp the 32 bytes at
    offset 20, where the first file header starts, are read before the 24
    bytes at the end and so before the record is written; and when fewer
    than 32 bytes follow the archive header the record is not written at
    all. *)
Lemma hp_archive_reads_header_block :
  let env := Sample.host64 in
  (let '(r, w') := process_file 1 (Sample.disk Sample.hp_archive None) "a.rar"
                                (Sample.fresh false) in
   r = inr tt
   /\ String.concat "" (stdout w')
      = ("a.rar:$RAR3$*0*0001020304050607*08090a0b0c0d0e0f1011121314151617"
           ++ ":0::::a.rar" ++ nl)%string
   /\ reads (fp w') = [(0, 7); (7, 13); (20, 32); (60, 24)])
  /\ (let '(r, w') := process_file 1 (Sample.disk Sample.hp_short_archive None)
                                   "a.rar" (Sample.fresh false) in
      r = inr tt
      /\ stdout w' = []
      /\ stderr w' = [D_no_candidate "a.rar"]
      /\ reads (fp w') = [(0, 7); (7, 13); (20, 32)]).
Proof. vm_compute. repeat split. Qed.

(** C4: the code run at the failing input.  On an archive made with -hp
    whose device fails at the fourth read, the 24 bytes at the end, the
    first [printf] of the record has already gone out: stdout holds the
    head of the record and nothing else. *)
Theorem hp_record_head_written_before_tail_read :
  let env := Sample.host64 in
  let '(r, w') := process_file 1 (Sample.disk Sample.hp_archive (Some 3%nat))
                               "a.rar" (Sample.fresh false) in
  r = inr tt
  /\ stdout w' = ["a.rar:$RAR3$*0*"%string]
  /\ stderr w' = [D_read_failed "a.rar"]
  /\ reads (fp w') = [(0, 7); (7, 13); (20, 32); (60, 24)].
Proof. vm_compute. repeat split. Qed.

(** ** RAR3 archives with encrypted files *)

Section TagFacts.

Context {env : Environment}.

(** C6, as amended.  In the -p mode, once the 32 bytes of a header are
    read, a header with the tag 0x74 is processed as a file entry by
    [p_entry]; a header with the tag 0x7a is processed by [p_entry] in
    the same way, after a message that only the verbose mode prints; any
    other tag prints a message and goes to [BailOut], which ends the
    parsing of the archive. *)
Theorem comment_tag_processed_as_file
        (name base : string) (s : Scan) (w : World) (blk : list Z) (f' : FILE) :
  fread 32 1 (fp w) = ((1, blk), f') ->
  at_eof f' = false ->
  let v := verbose (glob w) in
  let block := store blk (uninit 40) in
  let flags := Z.lor (Z.shiftl (at_ block 4) 8) (at_ block 3) in
  let tag := at_ block 2 in
  let after (msgs : list diag) :=
    mkWorld f' (glob w) (stdout w)
            ((stderr w ++ (if v then [D_blank_line] else [])) ++ msgs)
            (found w) in
  (tag = 0x74 ->
   file_header 1 name base s w = p_entry 1 name base block flags s (after []))
  /\ (tag = 0x7a ->
      file_header 1 name base s w
      = p_entry 1 name base block flags s
                (after (if v then [D_comment_block name] else [])))
  /\ (tag <> 0x74 -> tag <> 0x7a ->
      file_header 1 name base s w
      = (inl (goto_BailOut s), after [D_no_more_headers name])).
Proof.
  intros Hrd Heof v block flags tag after.
  subst after flags tag block v. cbv zeta.
  unfold file_header. run.
  destruct (verbose (glob w)) eqn:Hv; run; rewrite Hrd; run; rewrite Heof; run;
    change (1 =? 1) with true; change (1 =? 0) with false; run;
    rewrite ?app_nil_r.
  all: repeat split.
  all: try (intros E;
            assert (E1 : (at_ (store blk (uninit 40)) 2 =? 122) = false)
              by (rewrite E; reflexivity);
            assert (E2 : (at_ (store blk (uninit 40)) 2 =? 116) = true)
              by (rewrite E; reflexivity);
            rewrite E1, E2; run; reflexivity).
  all: try (intros E;
            assert (E1 : (at_ (store blk (uninit 40)) 2 =? 122) = true)
              by (rewrite E; reflexivity);
            rewrite E1; run; reflexivity).
  all: intros H1 H2; apply Z.eqb_neq in H1, H2; rewrite H1, H2; run;
    reflexivity.
Qed.

End TagFacts.

Lemma comment_tag_processed_as_file_witness :
  let env := Sample.host64 in
  let w := Sample.at_comment_header in
  let blk := firstn 32 (skipn 20 Sample.comment_archive) in
  let f' := mkFILE (bytes_of Sample.comment_archive) 52 false None [(20, 32)] in
  let block := store blk (uninit 40) in
  let flags := Z.lor (Z.shiftl (at_ block 4) 8) (at_ block 3) in
  at_ block 2 = 0x7a
  /\ file_header 1 "a.rar" "a.rar" initial_scan w
     = p_entry 1 "a.rar" "a.rar" block flags initial_scan
               (mkWorld f' (glob w) (stdout w)
                        ((stderr w ++ (if verbose (glob w) then [D_blank_line] else []))
                           ++ (if verbose (glob w) then [D_comment_block "a.rar"]
                               else []))
                        (found w)).
Proof.
  intros env w blk f' block flags.
  assert (Htag : at_ block 2 = 0x7a) by (vm_compute; reflexivity).
  split; [exact Htag |].
  refine (proj1 (proj2 (comment_tag_processed_as_file
                          "a.rar" "a.rar" initial_scan w blk f' _ _)) Htag);
    vm_compute; reflexivity.
Defined.

(** C6 as stated fails: the only block of the archive has the tag 0x7a;
    it is not skipped but taken as a file entry, it becomes the best
    candidate of the scan, and its record is what the program prints. *)
Lemma comment_header_becomes_candidate :
  let env := Sample.host64 in
  (let '(j, _) := file_header 1 "a.rar" "a.rar" initial_scan
                              Sample.at_comment_header in
   j = inl (goto_next_file_header
              (mkScan (mkBest 4 5 0x30)
                      (Some "a.rar:$RAR3$*1*0102030405060708*aabbccdd*4*5*1*01020304*30:1::"%string)
                      58 "a " 2)))
  /\ (let '(r, w') := process_file 2 (Sample.disk Sample.comment_archive None)
                                   "a.rar" (Sample.fresh false) in
      r = inr tt
      /\ stdout w'
         = [("a.rar:$RAR3$*1*0102030405060708*aabbccdd*4*5*1*01020304*30:1::a "
               ++ nl)%string]).
Proof. vm_compute. repeat split. Qed.

(** C5: the code run at the failing input, on a build with a 4-byte
    [size_t].  Without -v the entry with the flag 0x0100 is not refused:
    the high words are dropped and the record gives the unpacked size
    2^32 + 5 as 5.  With -v the same archive is refused. *)
Theorem high_sizes_refused_only_when_verbose :
  let env := Sample.host32 in
  (let '(r, w') := process_file 2 (Sample.disk Sample.high_size_archive None)
                                "a.rar" (Sample.fresh false) in
   r = inr tt
   /\ stdout w'
      = [("a.rar:$RAR3$*1*0102030405060708*aabbccdd*4*5*1*01020304*33:1::a "
            ++ nl)%string]
   /\ stderr w' = [D_file_name "a"])
  /\ (let '(r, w') := process_file 2 (Sample.disk Sample.high_size_archive None)
                                   "a.rar" (Sample.fresh true) in
      r = inr tt
      /\ stdout w' = []
      /\ last (stderr w') D_blank_line = D_unsupported_64bit "a.rar").
Proof. vm_compute. repeat split. Qed.

(** C2: the code run at the failing input.  The archive holds one file
    block whose extra area carries a crypt record with the password-check
    flag, and no crypt header block, so one record is due.  When the crypt
    record is the first record of the extra area the record is printed;
    when a record of another type with a payload of two bytes comes first,
    the payload is read as the next record and nothing is printed. *)
Theorem leading_record_hides_crypt_record :
  let env := Sample.host64 in
  (let '(r, w') := process_file 8 (Sample.disk Sample.crypt_first_archive None)
                                "a.rar" (Sample.fresh false) in
   r = inr tt
   /\ stdout w'
      = [("a.rar:$rar5$16$000102030405060708090a0b0c0d0e0f$15$"
            ++ "101112131415161718191a1b1c1d1e1f$12$202122232425262728292a2b"
            ++ nl)%string]
   /\ stderr w' = [])
  /\ (let '(r, w') := process_file 8 (Sample.disk Sample.crypt_second_archive None)
                                   "a.rar" (Sample.fresh false) in
      r = inr tt
      /\ stdout w' = []
      /\ stderr w' = [D_no_candidate "a.rar"]).
Proof. vm_compute. repeat split. Qed.

(** * More of the program *)

(** Hypotheses at a concrete input, by evaluation. *)
Ltac evaluated :=
  vm_compute;
  first [ reflexivity | congruence | lia
        | split; first [reflexivity | congruence | lia]
        | split; split; first [reflexivity | congruence | lia] ].

(** ** The readers of RAR5, byte by byte *)

Section ByteReaders.

Context {env : Environment}.

Lemma byte_val_range (b : byte) : 0 <= byte_val b < 256.
Proof.
  unfold byte_val. pose proof (Byte.to_N_bounded b). lia.
Qed.

(** Bytes are read from a healthy device that has them. *)
Lemma fread_bytes (f : FILE) (bs rest : list byte) (n : Z) :
  device f = None ->
  remaining f = bs ++ rest ->
  Z.of_nat (List.length bs) = n ->
  0 < n ->
  fread 1 n f
  = ((n, map byte_val bs),
     mkFILE (content f) (offset f + n) (at_eof f) None
            (reads f ++ [(offset f, n)])).
Proof.
  intros Hdev Hrem Hlen Hpos. unfold fread.
  rewrite Z.mul_1_l.
  destruct (Z.leb_spec n 0) as [| _]; [lia |].
  rewrite Hdev, Hrem.
  assert (Hn : Z.to_nat n = List.length bs) by lia.
  rewrite Hn, firstn_app, firstn_all, Nat.sub_diag. cbn [firstn].
  rewrite app_nil_r, Hlen, Z.div_1_r, Z.ltb_irrefl, orb_false_r.
  reflexivity.
Qed.

(** One byte is read from a healthy device. *)
Lemma fread_byte (f : FILE) (b : byte) (rest : list byte) :
  device f = None ->
  remaining f = b :: rest ->
  fread 1 1 f
  = ((1, [byte_val b]),
     mkFILE (content f) (offset f + 1) (at_eof f) None (reads f ++ [(offset f, 1)])).
Proof.
  intros Hd Hr.
  exact (fread_item f [b] rest 1 Hd Hr eq_refl ltac:(lia)).
Qed.

Lemma remaining_step (f : FILE) (b : byte) (rest : list byte) (e : bool)
      (d : option nat) (r : list (Z * Z)) :
  0 <= offset f ->
  remaining f = b :: rest ->
  remaining (mkFILE (content f) (offset f + 1) e d r) = rest.
Proof.
  intros Ho Hr.
  apply (remaining_advance (content f) (offset f) 1 e d r [b] rest Ho Hr eq_refl).
Qed.

Lemma u64_add_l (x y : Z) : CInt.u64 (CInt.u64 x + y) = CInt.u64 (x + y).
Proof. unfold CInt.u64, CInt.wrap. apply Z.add_mod_idemp_l. lia. Qed.

Lemma u64_add_shift (n a v s : Z) :
  0 <= s ->
  CInt.u64 (CInt.u64 (n + CInt.u64 (Z.shiftl a s)) + 2 ^ (s + 7) * v)
  = CInt.u64 (n + 2 ^ s * (a + 128 * v)).
Proof.
  intros Hs. unfold CInt.u64, CInt.wrap.
  rewrite Z.shiftl_mul_pow2 by lia.
  rewrite Z.add_mod_idemp_l by lia.
  replace (n + (a * 2 ^ s) mod 2 ^ 64 + 2 ^ (s + 7) * v)
    with ((n + 2 ^ (s + 7) * v) + (a * 2 ^ s) mod 2 ^ 64) by ring.
  rewrite Z.add_mod_idemp_r by lia.
  f_equal. rewrite Z.pow_add_r by lia. change (2 ^ 7) with 128. ring.
Qed.

Lemma read_vuint_loop_decodes (init : list byte) :
  forall (k : nat) (i shift n br : Z) (f : FILE) (last : byte) (rest : list byte),
    device f = None ->
    0 <= offset f ->
    0 <= shift ->
    remaining f = init ++ last :: rest ->
    forallb continues init = true ->
    continues last = false ->
    (List.length init < k)%nat ->
    let len := Z.of_nat (S (List.length init)) in
    exists f',
      read_vuint_loop k i shift n br f
      = ((i + len,
          CInt.u64 (CInt.u64 n + 2 ^ shift * vuint_value (init ++ [last])),
          CInt.u32 (br + (i + len))), f')
      /\ advanced f len f'
      /\ remaining f' = rest.
Proof.
  induction init as [| b init IH];
    intros k i shift n br f last rest Hd Ho Hs Hr Hall Hlast Hk len.
  - destruct k as [| k]; [cbn in Hk; lia |].
    cbn [app] in Hr. cbn [read_vuint_loop].
    rewrite (fread_byte f last rest Hd Hr). cbn [negb Z.eqb Pos.eqb nth].
    unfold continues in Hlast. apply negb_false_iff in Hlast. rewrite Hlast.
    eexists. split; [| split].
    + f_equal. f_equal. f_equal.
      cbn [app vuint_value]. rewrite u64_add_l.
      unfold CInt.u64, CInt.wrap.
      rewrite Z.shiftl_mul_pow2 by lia.
      rewrite Z.add_mod_idemp_r by lia. f_equal. ring.
    + unfold advanced. cbn. rewrite Hd. repeat split.
    + apply (remaining_step f last rest _ _ _ Ho Hr).
  - destruct k as [| k]; [cbn in Hk; lia |].
    cbn [app] in Hr. cbn [read_vuint_loop].
    rewrite (fread_byte f b (init ++ last :: rest) Hd Hr).
    cbn [negb Z.eqb Pos.eqb nth].
    cbn [forallb] in Hall. apply andb_true_iff in Hall as [Hb Hall].
    unfold continues in Hb. apply negb_true_iff in Hb. rewrite Hb.
    set (f1 := mkFILE (content f) (offset f + 1) (at_eof f) None
                      (reads f ++ [(offset f, 1)])).
    destruct (IH k (i + 1) (shift + 7)
                 (CInt.u64 (n + CInt.u64 (Z.shiftl (Z.land (byte_val b) 127) shift)))
                 br f1 last rest) as (f' & E & Hadv & Hrem).
    + reflexivity.
    + subst f1. cbn [offset]. lia.
    + lia.
    + apply (remaining_step f b _ _ _ _ Ho Hr).
    + exact Hall.
    + exact Hlast.
    + cbn in Hk. lia.
    + exists f'. split; [| split].
      * rewrite E. subst len. f_equal. f_equal; [f_equal |].
        -- cbn [List.length]. lia.
        -- cbn [app vuint_value].
           rewrite (u64_add_l (CInt.u64 _)), u64_add_shift by lia.
           rewrite (u64_add_l n). reflexivity.
        -- f_equal. cbn [List.length]. lia.
      * unfold advanced in *. subst f1. cbn in Hadv.
        destruct Hadv as (Hc & Hof & He & Hdv). rewrite Hd. subst len.
        repeat split; try assumption. cbn [List.length]. lia.
      * exact Hrem.
Qed.

(** X1.  [read_vuint] decodes the variable-length integers of RAR5: on
    a healthy stream that holds at most nine bytes with the top bit set
    and then one byte without it, it returns the number of bytes read,
    stores the value of their low seven bits taken least significant
    group first (as a 64-bit integer), adds the number of bytes to the
    caller's counter, and leaves the stream just behind the last byte. *)
Theorem read_vuint_decodes (f : FILE) (init : list byte) (last : byte)
        (rest : list byte) (br : Z) :
  device f = None ->
  0 <= offset f ->
  remaining f = init ++ last :: rest ->
  forallb continues init = true ->
  continues last = false ->
  (List.length init < 10)%nat ->
  let len := Z.of_nat (S (List.length init)) in
  exists f',
    read_vuint br f
    = ((len, CInt.u64 (vuint_value (init ++ [last])), CInt.u32 (br + len)), f')
    /\ advanced f len f'
    /\ remaining f' = rest.
Proof.
  intros Hd Ho Hr Hall Hlast Hk len.
  destruct (read_vuint_loop_decodes init 10 0 0 0 br f last rest
              Hd Ho ltac:(lia) Hr Hall Hlast Hk) as (f' & E & Hadv & Hrem).
  exists f'. split; [| split; assumption].
  unfold read_vuint. rewrite E. subst len.
  rewrite u64_add_l. cbn [Z.add Z.pow Z.pow_pos Pos.iter Z.mul].
  repeat f_equal.
  destruct (vuint_value (init ++ [last])); reflexivity.
Qed.

Lemma read_vuint_loop_overlong (bs : list byte) :
  forall (k : nat) (i shift n br : Z) (f : FILE) (rest : list byte),
    device f = None ->
    0 <= offset f ->
    remaining f = bs ++ rest ->
    forallb continues bs = true ->
    List.length bs = k ->
    exists v f',
      read_vuint_loop k i shift n br f = ((0, v, br), f')
      /\ advanced f (Z.of_nat k) f'
      /\ remaining f' = rest.
Proof.
  induction bs as [| b bs IH]; intros k i shift n br f rest Hd Ho Hr Hall Hk.
  - subst k. cbn [List.length read_vuint_loop]. exists n, f.
    split; [reflexivity |]. split; [| exact Hr].
    unfold advanced. cbn. repeat split. lia.
  - subst k. cbn [List.length read_vuint_loop]. cbn [app] in Hr.
    rewrite (fread_byte f b (bs ++ rest) Hd Hr).
    cbn [negb Z.eqb Pos.eqb nth].
    cbn [forallb] in Hall. apply andb_true_iff in Hall as [Hb Hall].
    unfold continues in Hb. apply negb_true_iff in Hb. rewrite Hb.
    destruct (IH (List.length bs) (i + 1) (shift + 7)
                 (CInt.u64 (n + CInt.u64 (Z.shiftl (Z.land (byte_val b) 127) shift)))
                 br
                 (mkFILE (content f) (offset f + 1) (at_eof f) None
                         (reads f ++ [(offset f, 1)]))
                 rest) as (v & f' & E & Hadv & Hrem).
    + reflexivity.
    + cbn [offset]. lia.
    + apply (remaining_step f b _ _ _ _ Ho Hr).
    + exact Hall.
    + reflexivity.
    + exists v, f'. split; [exact E |]. split; [| exact Hrem].
      unfold advanced in *. cbn in Hadv.
      destruct Hadv as (Hc & Hof & He & Hdv). rewrite Hd.
      repeat split; try assumption. lia.
Qed.

(** X2.  An integer of ten bytes that all have the top bit set is
    refused: [read_vuint] returns 0 and leaves the caller's counter as it
    was, but the ten bytes are consumed. *)
Theorem read_vuint_overlong (f : FILE) (bs rest : list byte) (br : Z) :
  device f = None ->
  0 <= offset f ->
  remaining f = bs ++ rest ->
  forallb continues bs = true ->
  List.length bs = 10%nat ->
  exists v f',
    read_vuint br f = ((0, v, br), f')
    /\ advanced f 10 f'
    /\ remaining f' = rest.
Proof.
  intros Hd Ho Hr Hall Hk.
  exact (read_vuint_loop_overlong bs 10 0 0 0 br f rest Hd Ho Hr Hall Hk).
Qed.

(** A request that the stream cannot fill. *)
Lemma fread_short (f : FILE) (size nmemb : Z) :
  device f = None ->
  0 < size -> 0 < nmemb ->
  Z.of_nat (left_ f) < size * nmemb ->
  fread size nmemb f
  = ((Z.of_nat (left_ f) / size, map byte_val (remaining f)),
     mkFILE (content f) (offset f + Z.of_nat (left_ f)) true None
            (reads f ++ [(offset f, size * nmemb)])).
Proof.
  intros Hd Hs Hn Hl. unfold fread, left_ in *.
  destruct (Z.leb_spec (size * nmemb) 0) as [| _]; [nia |].
  rewrite Hd.
  rewrite firstn_all2 by lia.
  destruct (Z.ltb_spec (Z.of_nat (List.length (remaining f))) (size * nmemb)); [| lia].
  rewrite orb_true_r. reflexivity.
Qed.

(** X3.  [read_uint32] on a healthy stream: four bytes are read as a
    little-endian integer and the counter goes up by four; when fewer
    than four bytes are left it returns 0, stores 0, leaves the counter
    alone, and the stream is at its end with the end-of-file indicator
    set. *)
Theorem read_uint32_little_endian (f : FILE) (br : Z) :
  device f = None ->
  0 <= offset f ->
  (forall (b0 b1 b2 b3 : byte) (rest : list byte),
      remaining f = b0 :: b1 :: b2 :: b3 :: rest ->
      exists f',
        read_uint32 br f
        = ((4, byte_val b0 + 256 * byte_val b1 + 65536 * byte_val b2
               + 16777216 * byte_val b3, CInt.u32 (br + 4)), f')
        /\ advanced f 4 f'
        /\ remaining f' = rest)
  /\ ((left_ f < 4)%nat ->
      exists f',
        read_uint32 br f = ((0, 0, br), f')
        /\ offset f' = offset f + Z.of_nat (left_ f)
        /\ at_eof f' = true
        /\ remaining f' = []).
Proof.
  intros Hd Ho. split.
  - intros b0 b1 b2 b3 rest Hr.
    unfold read_uint32.
    assert (E : fread 1 4 f
                = ((4, map byte_val [b0; b1; b2; b3]),
                   mkFILE (content f) (offset f + 4) (at_eof f) None
                          (reads f ++ [(offset f, 4)]))).
    { apply (fread_bytes f [b0; b1; b2; b3] rest 4 Hd Hr eq_refl). lia. }
    rewrite E. cbn [Z.ltb Z.compare Pos.compare Pos.compare_cont].
    eexists. split; [| split].
    + f_equal. f_equal. f_equal.
      unfold le32. cbn [map nth].
      pose proof (byte_val_range b0). pose proof (byte_val_range b1).
      pose proof (byte_val_range b2). pose proof (byte_val_range b3).
      rewrite !Z.shiftl_mul_pow2 by lia.
      unfold CInt.u32, CInt.wrap. rewrite Z.mod_small; lia.
    + unfold advanced. cbn. rewrite Hd. repeat split.
    + apply (remaining_advance (content f) (offset f) 4 _ _ _ [b0; b1; b2; b3] rest Ho Hr
                               eq_refl).
  - intros Hl. unfold read_uint32.
    rewrite (fread_short f 1 4 Hd) by lia.
    rewrite Z.div_1_r.
    destruct (Z.ltb_spec (Z.of_nat (left_ f)) 4); [| lia].
    eexists. split; [reflexivity |]. cbn [offset at_eof].
    repeat split.
    unfold left_, remaining in *. cbn [offset content].
    apply skipn_all2. rewrite length_skipn in *. lia.
Qed.

End ByteReaders.

(** The two bytes 0x85 0x01 are read as 133. *)
Lemma read_vuint_decodes_witness :
  let f := Sample.stream [0x85; 0x01; 7] in
  exists f', read_vuint 0 f = ((2, 133, 2), f') /\ remaining f' = [x07].
Proof.
  intros f.
  destruct (read_vuint_decodes f [x85] x01 [x07] 0) as (f' & E & _ & R);
    [evaluated .. |].
  exists f'. split; [exact E | exact R].
Defined.

(** Ten bytes 0x80 are consumed and refused. *)
Lemma read_vuint_overlong_witness :
  let f := Sample.stream (repeat 0x80 10 ++ [1]) in
  exists v f', read_vuint 5 f = ((0, v, 5), f') /\ remaining f' = [x01].
Proof.
  intros f.
  destruct (read_vuint_overlong f (repeat x80 10) [x01] 5) as (v & f' & E & _ & R);
    [evaluated .. |].
  exists v, f'. split; [exact E | exact R].
Defined.

(** Four bytes are read as 0x12345678; three bytes are not enough. *)
Lemma read_uint32_little_endian_witness :
  let f := Sample.stream [0x78; 0x56; 0x34; 0x12; 9] in
  let g := Sample.stream [1; 2; 3] in
  (exists f', read_uint32 0 f = ((4, 0x12345678, 4), f') /\ remaining f' = [x09])
  /\ (exists g', read_uint32 0 g = ((0, 0, 0), g') /\ at_eof g' = true).
Proof.
  intros f g. split.
  - destruct (read_uint32_little_endian f 0) as [H _]; [evaluated .. |].
    destruct (H x78 x56 x34 x12 [x09] eq_refl) as (f' & E & _ & R).
    exists f'. split; [exact E | exact R].
  - destruct (read_uint32_little_endian g 0) as [_ H]; [evaluated .. |].
    destruct (H ltac:(vm_compute; lia)) as (g' & E & _ & Ee & _).
    exists g'. split; [exact E | exact Ee].
Defined.

(** ** The decoder of the names *)

Section DecoderFacts.

Context {env : Environment}.

Lemma length_put (i v : Z) (a : list Z) : List.length (put i v a) = List.length a.
Proof.
  unfold put. destruct ((i <? 0) || (Z.of_nat (List.length a) <=? i)) eqn:E;
    [reflexivity |].
  apply orb_false_iff in E as [E1 E2]. apply Z.ltb_ge in E1. apply Z.leb_gt in E2.
  rewrite length_app. cbn [List.length]. rewrite length_firstn, length_skipn. lia.
Qed.

Lemma at_put_same (i v : Z) (a : list Z) :
  0 <= i < Z.of_nat (List.length a) -> at_ (put i v a) i = v.
Proof.
  intros H. unfold put, at_.
  destruct (Z.ltb_spec i 0); [lia |].
  destruct (Z.leb_spec (Z.of_nat (List.length a)) i); [lia |]. cbn [orb].
  rewrite app_nth2; rewrite length_firstn; [| lia].
  replace (Z.to_nat i - Nat.min (Z.to_nat i) (List.length a))%nat with 0%nat by lia.
  reflexivity.
Qed.

Lemma at_put_other (i j v : Z) (a : list Z) :
  i <> j -> at_ (put j v a) i = at_ a i.
Proof.
  intros H. unfold put, at_.
  destruct (Z.ltb_spec i 0); [reflexivity |].
  destruct ((j <? 0) || (Z.of_nat (List.length a) <=? j)) eqn:E; [reflexivity |].
  apply orb_false_iff in E as [E1 E2]. apply Z.ltb_ge in E1. apply Z.leb_gt in E2.
  destruct (Z.lt_ge_cases i j) as [Hlt | Hge].
  - rewrite app_nth1 by (rewrite length_firstn; lia).
    rewrite <- (firstn_skipn (Z.to_nat j) a) at 2.
    rewrite app_nth1 by (rewrite length_firstn; lia). reflexivity.
  - rewrite app_nth2 by (rewrite length_firstn; lia).
    rewrite length_firstn.
    replace (Nat.min (Z.to_nat j) (List.length a)) with (Z.to_nat j) by lia.
    destruct (Z.to_nat i - Z.to_nat j)%nat as [| d] eqn:Hd; [lia |].
    cbn [nth]. rewrite nth_skipn. f_equal. lia.
Qed.

(** A run of command 3 stays inside the destination. *)
Lemma copy_run_bounds (k : nat) :
  forall (Length DecPos Max : Z) (val : Z -> Z) (NameW : list Z),
    0 <= DecPos <= Max ->
    let '(DecPos', NameW') := copy_run k Length DecPos Max val NameW in
    DecPos <= DecPos' <= Max
    /\ List.length NameW' = List.length NameW
    /\ (forall i, Max <= i -> at_ NameW' i = at_ NameW i).
Proof.
  induction k as [| k IH]; intros Length DecPos Max val NameW Hd.
  - cbn [copy_run]. repeat split; lia.
  - cbn [copy_run].
    destruct ((0 <? Length) && (DecPos <? Max)) eqn:E.
    + apply andb_true_iff in E as [_ E]. apply Z.ltb_lt in E.
      specialize (IH (Length - 1) (DecPos + 1) Max val
                     (put DecPos (val DecPos) NameW) ltac:(lia)).
      destruct (copy_run k (Length - 1) (DecPos + 1) Max val
                         (put DecPos (val DecPos) NameW)) as [d' w'].
      destruct IH as (Hb & Hl & Hk). rewrite length_put in Hl.
      repeat split; try lia.
      intros i Hi. rewrite Hk by assumption. apply at_put_other. lia.
    + repeat split; lia.
Qed.

Lemma decode_loop_bounds (fuel : nat) :
  forall (Name EncName : list Z)
         (EncSize Max HighByte Flags FlagBits EncPos DecPos : Z) (NameW : list Z),
    size_t (Max - 1) = Max - 1 ->
    0 <= DecPos <= Max ->
    let '(DecPos', NameW') :=
      decode_loop fuel Name EncName EncSize Max HighByte Flags FlagBits EncPos
                  DecPos NameW in
    DecPos <= DecPos' <= Max
    /\ List.length NameW' = List.length NameW
    /\ (forall i, Max <= i -> at_ NameW' i = at_ NameW i).
Proof.
  induction fuel as [| fuel IH];
    intros Name EncName EncSize Max HighByte Flags FlagBits EncPos DecPos NameW HM Hd.
  - cbn [decode_loop]. repeat split; lia.
  - cbn [decode_loop]. rewrite HM.
    destruct ((EncPos <? size_t (EncSize - 1)) && (DecPos <? Max - 1)) eqn:E;
      [| repeat split; lia].
    apply andb_true_iff in E as [_ E]. apply Z.ltb_lt in E.
    destruct (if FlagBits =? 0 then (at_ EncName EncPos, 8, EncPos + 1)
              else (Flags, FlagBits, EncPos)) as [[Flags' FlagBits'] EncPos'].
    assert (Hstep : forall (e d : Z) (w : list Z),
               DecPos <= d <= Max ->
               List.length w = List.length NameW ->
               (forall i, Max <= i -> at_ w i = at_ NameW i) ->
               let '(DecPos', NameW') :=
                 decode_loop fuel Name EncName EncSize Max HighByte
                             (CInt.u8 (Z.shiftl Flags' 2)) (CInt.u32 (FlagBits' - 2))
                             e d w in
               DecPos <= DecPos' <= Max
               /\ List.length NameW' = List.length NameW
               /\ (forall i, Max <= i -> at_ NameW' i = at_ NameW i)).
    { intros e d w Hdd Hlw Hkw.
      specialize (IH Name EncName EncSize Max HighByte
                     (CInt.u8 (Z.shiftl Flags' 2)) (CInt.u32 (FlagBits' - 2))
                     e d w HM ltac:(lia)).
      destruct (decode_loop fuel Name EncName EncSize Max HighByte
                            (CInt.u8 (Z.shiftl Flags' 2)) (CInt.u32 (FlagBits' - 2))
                            e d w) as [d' w'].
      destruct IH as (Hb & Hl & Hk).
      repeat split; try lia.
      intros i Hi. rewrite Hk by assumption. apply Hkw. assumption. }
    assert (Hput : forall v i, Max <= i -> at_ (put DecPos v NameW) i = at_ NameW i).
    { intros v i Hi. apply at_put_other. lia. }
    destruct (Z.shiftr Flags' 6) as [| [[q | q |] | [q | q |] |] | q];
      try (apply Hstep; [lia | apply length_put | apply Hput]).
    all: destruct (CInt.has (at_ EncName EncPos') 128).
    all: match goal with
         | |- context [copy_run ?k ?l ?d ?m ?v ?w] =>
             pose proof (copy_run_bounds k l d m v w ltac:(lia)) as Hc;
             destruct (copy_run k l d m v w) as [d1 w1];
             destruct Hc as (Hb & Hl & Hk); cbv beta iota;
             apply Hstep; [lia | exact Hl | exact Hk]
         end.
Qed.

(** X4.  [DecodeFileName] stays inside its buffer and terminates the
    name: whatever the encoded bytes are, the result has the length of
    the buffer it was given, one of the first [MaxDecSize / 2] elements
    is 0, and every element from [MaxDecSize / 2] on is as it was. *)
Theorem DecodeFileName_terminated
        (Name EncName : list Z) (EncSize : Z) (NameW : list Z) (MaxDecSize : Z) :
  let Max := MaxDecSize / 2 in
  1 <= Max <= Z.of_nat (List.length NameW) ->
  size_t (Max - 1) = Max - 1 ->
  let out := DecodeFileName Name EncName EncSize NameW MaxDecSize in
  List.length out = List.length NameW
  /\ (exists i, 0 <= i < Max /\ at_ out i = 0)
  /\ (forall i, Max <= i -> at_ out i = at_ NameW i).
Proof.
  intros Max HMax Hsz out. subst out. unfold DecodeFileName. fold Max.
  pose proof (decode_loop_bounds (Z.to_nat Max) Name EncName EncSize Max
                (at_ EncName 0) 0 0 1 0 NameW Hsz ltac:(lia)) as H.
  destruct (decode_loop (Z.to_nat Max) Name EncName EncSize Max (at_ EncName 0)
                        0 0 1 0 NameW) as [d w].
  destruct H as (Hb & Hl & Hk).
  set (idx := if d <? Max then d else Max - 1).
  assert (Hidx : 0 <= idx < Max).
  { subst idx. destruct (Z.ltb_spec d Max); lia. }
  split; [rewrite length_put; exact Hl |]. split.
  - exists idx. split; [exact Hidx |]. apply at_put_same. lia.
  - intros i Hi. rewrite at_put_other by lia. apply Hk. assumption.
Qed.
End DecoderFacts.

(** An encoded name of three commands in the buffers of [process_file]. *)
Lemma DecodeFileName_terminated_witness :
  let env := Sample.host64 in
  let Name := [0x3f; 0x3f; 0; 0x04; 0x50; 0x30; 0x31] ++ repeat 0 1017 in
  let out := DecodeFileName Name (skipn 3 Name) 1021 (uninit PATH_BUF_SIZE) 512 in
  List.length out = List.length (uninit PATH_BUF_SIZE)
  /\ (exists i, 0 <= i < 512 / 2 /\ at_ out i = 0)
  /\ (forall i, 512 / 2 <= i -> at_ out i = at_ (uninit PATH_BUF_SIZE) i).
Proof.
  intros env Name out.
  apply (DecodeFileName_terminated Name (skipn 3 Name) 1021 (uninit PATH_BUF_SIZE) 512);
    vm_compute; [split; congruence | reflexivity].
Defined.

(** ** The selector when the packed sizes differ *)

Section SelectorMore.

Context {env : Environment}.

(** X5.  The selector when the packed sizes differ.  Without an
    incumbent every entry is admitted.  With one, an entry with a smaller
    packed size is turned down exactly when its unpacked size is below
    both the incumbent's and the threshold of its own method; an entry
    with a larger packed size is admitted exactly when the incumbent's
    unpacked size is below the threshold of the incumbent's method and
    the unpacked size of the entry is not below both the incumbent's and
    the threshold of its own method. *)
Theorem packed_size_rules :
  (forall p u m : Z, better_already no_candidate p u m = false)
  /\ (forall (b : bestsize_t) (p u m : Z),
        pack b < SIZE_MAX ->
        (p < pack b ->
         (better_already b p u m = true
          <-> u < unp b /\ u < admission_threshold m))
        /\ (pack b < p ->
            (better_already b p u m = false
             <-> unp b < admission_threshold (method b)
                 /\ ~ (u < unp b /\ u < admission_threshold m)))).
Proof.
  split.
  - intros p u m. unfold better_already, no_candidate. cbn [pack].
    rewrite Z.ltb_irrefl. reflexivity.
  - intros b p u m Hb.
    pose proof (better_already_spec b p u m) as S.
    split; intros Hp.
    + rewrite S. split; [intros (_ & [H | [H | H]]); [lia | exact H | lia] |].
      intros H. split; [exact Hb | right; left; exact H].
    + split.
      * intros Hf.
        assert (N : ~ (pack b < SIZE_MAX /\
          ((pack b < p /\ admission_threshold (method b) <= unp b)
           \/ (u < unp b /\ u < admission_threshold m)
           \/ (pack b = p
               /\ ((u < unp b /\ u < 8) \/ (unp b <= u /\ 8 <= unp b)))))).
        { intro H. apply S in H. congruence. }
        lia.
      * intros (H1 & H2).
        apply not_true_is_false. intro E. apply S in E. lia.
Qed.
End SelectorMore.

(** ** The GECOS text *)

Section GecosFacts.

Context {env : Environment}.

Lemma length_append (a b : string) :
  String.length (a ++ b) = (String.length a + String.length b)%nat.
Proof. induction a as [| c a IH]; cbn; [| rewrite IH]; reflexivity. Qed.

Lemma length_substring0 (n : nat) (s : string) :
  String.length (String.substring 0 n s) = Nat.min n (String.length s).
Proof.
  revert s. induction n as [| n IH]; intros s.
  - destruct s; reflexivity.
  - destruct s as [| c s]; [reflexivity |]. cbn. rewrite IH. reflexivity.
Qed.

Lemma length_take (n : Z) (s : string) :
  String.length (take n s) = Nat.min (Z.to_nat n) (String.length s).
Proof. apply length_substring0. Qed.

(** X6.  The GECOS buffer of [process_file] is never overrun and is
    only appended to.  While the recorded length equals the length of
    the text, or has reached [LINE_BUFFER_SIZE - 1], and the text has at
    most [LINE_BUFFER_SIZE - 2] characters, adding a name keeps all of
    that, the old text is a prefix of the new one, the recorded length
    does not go down, and the candidate is left alone. *)
Theorem add_gecos_bounded (file_name : list Z) (s : Scan) :
  0 <= LINE_BUFFER_SIZE < 2 ^ 31 ->
  0 <= gecos_len s ->
  Z.of_nat (String.length (gecos s)) = gecos_len s
  \/ LINE_BUFFER_SIZE - 1 <= gecos_len s ->
  Z.of_nat (String.length (gecos s)) <= Z.max 0 (LINE_BUFFER_SIZE - 2) ->
  let s' := add_gecos file_name s in
  gecos_len s <= gecos_len s'
  /\ (Z.of_nat (String.length (gecos s')) = gecos_len s'
      \/ LINE_BUFFER_SIZE - 1 <= gecos_len s')
  /\ Z.of_nat (String.length (gecos s')) <= Z.max 0 (LINE_BUFFER_SIZE - 2)
  /\ (exists more, gecos s' = (gecos s ++ more)%string)
  /\ bestsize s' = bestsize s /\ best s' = best s /\ best_len s' = best_len s.
Proof.
  intros HL Hg Hinv Hb s'. subst s'. unfold add_gecos.
  assert (Hs : 0 <= strlen file_name) by (unfold strlen; lia).
  destruct (Z.ltb_spec (gecos_len s + strlen file_name) LINE_BUFFER_SIZE) as [Hc | Hc].
  - cbn [gecos gecos_len bestsize best best_len].
    assert (Hi : CInt.i32 (gecos_len s + (strlen file_name + 1))
                 = gecos_len s + (strlen file_name + 1)).
    { unfold CInt.i32, CInt.signed, CInt.wrap.
      change (2 ^ 32) with 4294967296. change (2 ^ (32 - 1)) with 2147483648.
      change (2 ^ 31) with 2147483648 in HL.
      rewrite Z.mod_small by lia.
      destruct (Z.ltb_spec (gecos_len s + (strlen file_name + 1)) 2147483648); lia. }
    rewrite Hi, length_append, length_take, length_append.
    unfold strlen in *. cbn [String.length].
    repeat split; try lia.
    eexists. reflexivity.
  - repeat split; try lia; try assumption.
    exists EmptyString. symmetry. apply append_nil_r.
Qed.
End GecosFacts.

(** The name "c" added behind the name "ab". *)
Lemma add_gecos_bounded_witness :
  let env := Sample.host64 in
  let s := add_gecos [97; 98; 0] initial_scan in
  let s' := add_gecos [99; 0] s in
  gecos_len s <= gecos_len s'
  /\ (Z.of_nat (String.length (gecos s')) = gecos_len s'
      \/ LINE_BUFFER_SIZE - 1 <= gecos_len s')
  /\ Z.of_nat (String.length (gecos s')) <= Z.max 0 (LINE_BUFFER_SIZE - 2)
  /\ (exists more, gecos s' = (gecos s ++ more)%string)
  /\ bestsize s' = bestsize s /\ best s' = best s /\ best_len s' = best_len s.
Proof.
  intros env s s'.
  apply (add_gecos_bounded [99; 0] s); vm_compute;
    first [split; congruence | congruence | left; reflexivity].
Defined.

(** An incumbent of 100 bytes packed, 10 unpacked, against a smaller and a larger entry. *)
Lemma packed_size_rules_witness :
  let env := Sample.host64 in
  let b := mkBest 100 10 0x30 in
  (better_already b 50 0 0x30 = true <-> 0 < unp b /\ 0 < admission_threshold 0x30)
  /\ (better_already b 200 20 0x30 = false
      <-> unp b < admission_threshold (method b)
          /\ ~ (20 < unp b /\ 20 < admission_threshold 0x30)).
Proof.
  intros env b.
  assert (H : pack b < SIZE_MAX) by (vm_compute; reflexivity).
  destruct (proj2 (@packed_size_rules env) b 50 0 0x30 H) as [H1 _].
  destruct (proj2 (@packed_size_rules env) b 200 20 0x30 H) as [_ H2].
  split; [apply H1 | apply H2]; vm_compute; reflexivity.
Defined.

(** ** The packed data *)

Section PackedData.

Context {env : Environment}.

Lemma hex_of_app (a b : list Z) : hex_of (a ++ b) = (hex_of a ++ hex_of b)%string.
Proof.
  induction a as [| x a IH]; [reflexivity |].
  cbn [app hex_of fold_right]. fold (hex_of (a ++ b)). fold (hex_of a).
  rewrite IH. unfold hex2. reflexivity.
Qed.

Lemma length_hex_of (l : list Z) :
  String.length (hex_of l) = (2 * List.length l)%nat.
Proof.
  induction l as [| x l IH]; [reflexivity |].
  cbn [hex_of fold_right]. fold (hex_of l). unfold hex2.
  cbn [append String.length List.length]. rewrite IH. lia.
Qed.

Lemma length_uninit (n : Z) : List.length (uninit n) = Z.to_nat n.
Proof.
  unfold uninit. rewrite length_firstn, length_app, repeat_length. lia.
Qed.

Lemma length_store (got buf : list Z) :
  List.length (store got buf) = Nat.max (List.length got) (List.length buf).
Proof.
  unfold store. rewrite length_app, length_skipn. lia.
Qed.

(** What [fread] stores is as long as the count it returns. *)
Lemma fread_bytes_length (n : Z) (f : FILE) :
  Z.of_nat (List.length (snd (fst (fread 1 n f)))) = fst (fst (fread 1 n f)).
Proof.
  unfold fread. rewrite Z.mul_1_l.
  destruct (n <=? 0); [reflexivity |].
  destruct (device f) as [[| k] |]; cbn [fst snd];
    rewrite ?length_map, ?Z.div_1_r; reflexivity.
Qed.

Lemma fread_keeps_content (size nmemb : Z) (f : FILE) :
  content (snd (fread size nmemb f)) = content f.
Proof.
  unfold fread.
  destruct (size * nmemb <=? 0); [reflexivity |].
  destruct (device f) as [[| k] |]; reflexivity.
Qed.

Lemma read_packed_exact (n : nat) :
  forall (i bytes_left room p : Z) (acc : string) (w : World)
         (data rest : list byte),
    device (fp w) = None ->
    0 <= offset (fp w) ->
    remaining (fp w) = data ++ rest ->
    Z.of_nat (List.length data) = bytes_left ->
    bytes_left <= Z.of_nat n * 65536 ->
    i + Z.of_nat n <= CInt.INT_MAX ->
    p + 2 * bytes_left <= room ->
    exists f',
      read_packed n i bytes_left room p acc w
      = (inr (acc ++ hex_of (map byte_val data))%string,
         mkWorld f' (glob w) (stdout w) (stderr w) (found w))
      /\ advanced (fp w) bytes_left f'
      /\ remaining f' = rest.
Proof.
  induction n as [| n IH];
    intros i bytes_left room p acc w data rest Hd Ho Hr Hl Hi Hint Hroom.
  - assert (data = []) by (destruct data; [reflexivity | cbn in Hl; lia]).
    subst data. cbn in Hl. subst bytes_left. cbn [read_packed map hex_of fold_right].
    rewrite append_nil_r. exists (fp w). destruct w as [f g o e k].
    split; [reflexivity |]. split; [| exact Hr].
    unfold advanced. cbn. repeat split; lia.
  - cbn [read_packed]. change (64 * 1024) with 65536.
    set (to_read := if bytes_left <? 65536 then bytes_left else 65536).
    assert (Ht : 0 <= to_read <= bytes_left
                 /\ (to_read = bytes_left \/ to_read = 65536))
      by (subst to_read; destruct (Z.ltb_spec bytes_left 65536); lia).
    destruct (Z.ltb_spec room (p + 2 * to_read)) as [Hover | _]; [lia |].
    destruct (Z.ltb_spec CInt.INT_MAX (i + 1)) as [Hover | _]; [lia |].
    destruct (Z.eq_dec to_read 0) as [Hz | Hz].
    + assert (bytes_left = 0)
        by (subst to_read; destruct (Z.ltb_spec bytes_left 65536); lia).
      assert (data = []) by (destruct data; [reflexivity | cbn in Hl; lia]).
      subst data. rewrite Hz. run.
      change (fread 1 0 (fp w)) with ((0, @nil Z), fp w).
      cbn [Z.mul Z.leb Z.compare fst snd Z.eqb negb firstn Z.to_nat hex_of fold_right].
      rewrite append_nil_r.
      destruct (IH (i + 1) (bytes_left - 0) room (p + 0) acc
                   (mkWorld (fp w) (glob w) (stdout w) (stderr w) (found w))
                   [] rest Hd Ho Hr ltac:(cbn; lia) ltac:(lia) ltac:(lia)
                   ltac:(lia)) as (f' & E & A & R).
      cbn [fp glob stdout stderr found] in *.
      exists f'. rewrite E. cbn [map hex_of fold_right].
      split; [reflexivity |]. split; [| exact R].
      replace bytes_left with (bytes_left - 0) by lia. exact A.
    + set (d1 := firstn (Z.to_nat to_read) data).
      set (d2 := skipn (Z.to_nat to_read) data).
      assert (Hsplit : data = d1 ++ d2) by (symmetry; apply firstn_skipn).
      assert (Hl1 : Z.of_nat (List.length d1) = to_read)
        by (subst d1; rewrite length_firstn; lia).
      assert (Hr1 : remaining (fp w) = d1 ++ (d2 ++ rest))
        by (rewrite Hr, Hsplit at 1; symmetry; apply app_assoc).
      run.
      rewrite (fread_bytes (fp w) d1 (d2 ++ rest) to_read Hd Hr1 Hl1 ltac:(lia)).
      cbn [fst snd]. rewrite Z.eqb_refl. cbn [negb].
      set (f1 := mkFILE _ _ _ _ _).
      assert (Hn : Z.to_nat to_read = List.length (map byte_val d1))
        by (rewrite length_map; lia).
      rewrite Hn, firstn_all.
      destruct (IH (i + 1) (bytes_left - to_read) room (p + 2 * to_read)
                   (acc ++ hex_of (map byte_val d1))%string
                   (mkWorld f1 (glob w) (stdout w) (stderr w) (found w)) d2 rest)
        as (f' & E & A & R).
      * reflexivity.
      * subst f1. cbn. lia.
      * subst f1. cbn [fp].
        apply (remaining_advance (content (fp w)) (offset (fp w)) to_read
                 (at_eof (fp w)) None _ d1 (d2 ++ rest) Ho Hr1 Hl1).
      * subst d2. rewrite length_skipn. lia.
      * lia.
      * lia.
      * lia.
      * cbn [fp glob stdout stderr found] in *.
        exists f'. rewrite E. split; [| split; [| exact R]].
        -- rewrite Hsplit at 1. rewrite map_app, hex_of_app, append_assoc.
           reflexivity.
        -- destruct A as (A1 & A2 & A3 & A4). subst f1. cbn in *.
           unfold advanced. rewrite A1, A2, A3, A4, Hd. repeat split. lia.
Qed.

(** X7.  The packed data of an admitted entry goes out unchanged.  When
    the packed size is at most [INT_MAX] and the digits fit between the
    offset [p] and the end of the block of [best], then on a healthy
    stream that holds the [pack_size] bytes the 64 KB loop returns their
    base-16 text, two digits per byte in file order, and leaves the
    stream just behind them; nothing is written to stdout or stderr. *)
Theorem read_packed_hex (pack_size room p : Z) (w : World)
        (data rest : list byte) :
  device (fp w) = None ->
  0 <= offset (fp w) ->
  remaining (fp w) = data ++ rest ->
  Z.of_nat (List.length data) = pack_size ->
  pack_size <= CInt.INT_MAX ->
  p + 2 * pack_size <= room ->
  exists f',
    read_packed (Z.to_nat pack_size) 0 pack_size room p EmptyString w
    = (inr (hex_of (map byte_val data)),
       mkWorld f' (glob w) (stdout w) (stderr w) (found w))
    /\ advanced (fp w) pack_size f'
    /\ remaining f' = rest.
Proof.
  intros Hd Ho Hr Hl Hint Hroom.
  apply (read_packed_exact (Z.to_nat pack_size) 0 pack_size room p EmptyString w
           data rest Hd Ho Hr Hl); lia.
Qed.

Lemma read_packed_length (n : nat) :
  forall (i bytes_left room p : Z) (acc : string) (w : World),
    0 <= bytes_left <= Z.of_nat n * 65536 ->
    i + Z.of_nat n <= CInt.INT_MAX ->
    p + 2 * bytes_left <= room ->
    exists (text : string) (w' : World),
      read_packed n i bytes_left room p acc w = (inr text, w')
      /\ Z.of_nat (String.length text)
         = Z.of_nat (String.length acc) + 2 * bytes_left
      /\ stdout w' = stdout w /\ glob w' = glob w /\ found w' = found w
      /\ content (fp w') = content (fp w).
Proof.
  induction n as [| n IH]; intros i bytes_left room p acc w Hb Hint Hroom.
  - exists acc, w. cbn [read_packed]. repeat split; lia.
  - cbn [read_packed]. change (64 * 1024) with 65536.
    set (to_read := if bytes_left <? 65536 then bytes_left else 65536).
    assert (Ht : 0 <= to_read <= bytes_left /\ to_read <= 65536
                 /\ (to_read = bytes_left \/ to_read = 65536))
      by (subst to_read; destruct (Z.ltb_spec bytes_left 65536); lia).
    destruct (Z.ltb_spec room (p + 2 * to_read)) as [Hover | _]; [lia |].
    destruct (Z.ltb_spec CInt.INT_MAX (i + 1)) as [Hover | _]; [lia |].
    run.
    pose proof (fread_bytes_length to_read (fp w)) as Hlen.
    pose proof (fread_keeps_content 1 to_read (fp w)) as Hc.
    destruct (fread 1 to_read (fp w)) as [[k got] f1]. cbn [fst snd] in *.
    assert (Hbl : (Z.to_nat to_read
                   <= List.length (if (k =? to_read)%Z then got
                                   else store got (uninit 65536)))%nat).
    { destruct (Z.eqb_spec k to_read); [lia |].
      rewrite length_store, length_uninit. lia. }
    destruct (k =? to_read); run;
      match goal with
      | |- context [read_packed n ?j ?b ?r ?q ?a ?w1] =>
          destruct (IH j b r q a w1 ltac:(lia) ltac:(lia) ltac:(lia))
            as (text & w' & E & L & O1 & O2 & O3 & O4);
          exists text, w'; split; [exact E |];
          rewrite L, length_append, length_hex_of, length_firstn;
          rewrite O1, O2, O3, O4; cbn [fp glob stdout stderr found];
          rewrite Hc; repeat split; lia
      end.
Qed.

(** The loop leaves what C defines when the counter or the block is
    too small for the packed size. *)
Lemma read_packed_undefined (n : nat) :
  forall (i bytes_left room p : Z) (acc : string) (w : World),
    0 <= bytes_left <= Z.of_nat n * 65536 ->
    i <= CInt.INT_MAX ->
    p <= room ->
    CInt.INT_MAX < i + Z.of_nat n \/ room < p + 2 * bytes_left ->
    fst (read_packed n i bytes_left room p acc w) = inl undefined.
Proof.
  induction n as [| n IH]; intros i bytes_left room p acc w Hb Hi Hp Hbad.
  - cbn in Hb. lia.
  - cbn [read_packed]. change (64 * 1024) with 65536.
    set (to_read := if bytes_left <? 65536 then bytes_left else 65536).
    assert (Ht : 0 <= to_read <= bytes_left /\ to_read <= 65536
                 /\ (to_read = bytes_left \/ to_read = 65536))
      by (subst to_read; destruct (Z.ltb_spec bytes_left 65536); lia).
    run.
    destruct (fread 1 to_read (fp w)) as [[k got] f1]. cbn [fst snd].
    destruct (Z.ltb_spec room (p + 2 * to_read)) as [Hover | Hfit];
      [destruct (k =? to_read); reflexivity |].
    destruct (Z.ltb_spec CInt.INT_MAX (i + 1)) as [Hover | Hnext];
      [destruct (k =? to_read); reflexivity |].
    destruct (k =? to_read); run; apply IH; lia.
Qed.

(** X8.  When the loop over the packed data is defined, and what it
    gives then.  With the pointer [p] inside the block of [best]: if the
    packed size is at most [INT_MAX] and the digits fit behind [p], the
    loop returns a text of [2 * pack_size] digits whatever the stream
    delivers (after a short or failed read the missing bytes are taken
    from the buffer as it is), writes nothing to stdout and leaves the
    globals alone; if the packed size is above [INT_MAX], or the digits
    do not fit, the behaviour is undefined. *)
Theorem read_packed_defined_full_length (pack_size room p : Z) (w : World) :
  0 <= pack_size ->
  p <= room ->
  (pack_size <= CInt.INT_MAX -> p + 2 * pack_size <= room ->
   exists (text : string) (w' : World),
     read_packed (Z.to_nat pack_size) 0 pack_size room p EmptyString w
     = (inr text, w')
     /\ Z.of_nat (String.length text) = 2 * pack_size
     /\ stdout w' = stdout w /\ glob w' = glob w /\ found w' = found w
     /\ content (fp w') = content (fp w))
  /\ (CInt.INT_MAX < pack_size \/ room < p + 2 * pack_size ->
      fst (read_packed (Z.to_nat pack_size) 0 pack_size room p EmptyString w)
      = inl undefined).
Proof.
  intros Hp Hin. split.
  - intros Hint Hroom.
    destruct (read_packed_length (Z.to_nat pack_size) 0 pack_size room p
                EmptyString w ltac:(lia) ltac:(lia) Hroom)
      as (text & w' & E & L & R).
    exists text, w'. split; [exact E |]. split; [| exact R].
    rewrite L. cbn [String.length]. lia.
  - intros Hbad.
    apply read_packed_undefined; [lia | unfold CInt.INT_MAX; lia | exact Hin | lia].
Qed.

End PackedData.

(** Three bytes of packed data behind a head of ten characters. *)
Lemma read_packed_hex_witness :
  let env := Sample.host64 in
  let w := set_fp (Sample.stream [1; 2; 3; 4; 5]) (Sample.fresh false) in
  exists f',
    read_packed 3 0 3 2054 10 EmptyString w
    = (inr "010203"%string, mkWorld f' (glob w) (stdout w) (stderr w) (found w))
    /\ remaining f' = [x04; x05].
Proof.
  intros env w.
  destruct (read_packed_hex (env := env) 3 2054 10 w [x01; x02; x03] [x04; x05])
    as (f' & E & _ & R); [evaluated .. |].
  exists f'. split; [exact E | exact R].
Defined.

(** Four bytes are asked of a stream that holds two; and a block of 16
    bytes is too small for them behind a head of ten characters. *)
Lemma read_packed_defined_full_length_witness :
  let env := Sample.host64 in
  let w := set_fp (mkFILE [x01; x02] 0 false (Some 1%nat) []) (Sample.fresh false) in
  (exists (text : string) (w' : World),
      read_packed 4 0 4 2056 10 EmptyString w = (inr text, w')
      /\ Z.of_nat (String.length text) = 8)
  /\ fst (read_packed 4 0 4 16 10 EmptyString w) = inl undefined.
Proof.
  intros env w. split.
  - destruct (read_packed_defined_full_length (env := env) 4 2056 10 w)
      as [H _]; [evaluated | evaluated |].
    destruct H as (text & w' & E & L & _); [evaluated | evaluated |].
    exists text, w'. split; [exact E | exact L].
  - destruct (read_packed_defined_full_length (env := env) 4 16 10 w)
      as [_ H]; [evaluated | evaluated |].
    apply H. right. evaluated.
Defined.

(** ** Files that are no archive *)

Section Dispatch.

Context {env : Environment}.

(** The first item read from a file that was just opened. *)
Lemma fread_first (img : list byte) (dv : option nat) (size : Z) :
  0 < size ->
  fread size 1 (mkFILE img 0 false dv [])
  = match dv with
    | Some O => ((0, []), mkFILE img 0 false (Some O) [(0, size)])
    | _ =>
        if size <=? Z.of_nat (List.length img)
        then ((1, map byte_val (firstn (Z.to_nat size) img)),
              mkFILE img size false (option_map Nat.pred dv) [(0, size)])
        else ((0, map byte_val img),
              mkFILE img (Z.of_nat (List.length img)) true
                     (option_map Nat.pred dv) [(0, size)])
    end.
Proof.
  intros Hs. unfold fread. rewrite Z.mul_1_r.
  destruct (Z.leb_spec size 0) as [| _]; [lia |].
  cbn [device offset content at_eof reads remaining app orb].
  unfold remaining. cbn [offset content Z.to_nat skipn].
  assert (Hfull : size <= Z.of_nat (List.length img) ->
                  Z.of_nat (List.length (firstn (Z.to_nat size) img)) = size)
    by (intros; rewrite length_firstn; lia).
  assert (Hpart : Z.of_nat (List.length img) < size ->
                  firstn (Z.to_nat size) img = img)
    by (intros; apply firstn_all2; lia).
  destruct dv as [[| k] |]; [reflexivity | |];
    (destruct (Z.leb_spec size (Z.of_nat (List.length img))) as [Hle | Hgt];
     [ rewrite (Hfull Hle), Z.div_same, Z.ltb_irrefl by lia; reflexivity
     | rewrite (Hpart Hgt), Z.div_small by lia;
       destruct (Z.ltb_spec (Z.of_nat (List.length img)) size); [reflexivity | lia] ]).
Qed.

Lemma mem_equal_prefix (l b : list Z) (n : Z) (k : nat) :
  (Z.to_nat n <= k)%nat ->
  mem_equal (firstn k l) b n = mem_equal l b n.
Proof.
  intros H. unfold mem_equal.
  rewrite firstn_firstn, Nat.min_l by exact H. reflexivity.
Qed.

Lemma mem_equal_image (img : list byte) (b : list Z) (n : Z) (k : nat) :
  (Z.to_nat n <= k)%nat ->
  mem_equal (map byte_val (firstn k img)) b n = mem_equal (map byte_val img) b n.
Proof.
  intros H. rewrite <- firstn_map. apply mem_equal_prefix, H.
Qed.

(** X9.  A file that starts with none of the signatures is turned
    down with one message.  For a file that exists, on any device, if
    its length is below 7, or its first bytes are not the old magic, not
    the RAR3 magic, not "MZ" and not the RAR5 magic, [process_file]
    returns after printing "Not a RAR file" once on stderr; it prints
    nothing on stdout and leaves the globals alone, also after the file
    was handed to [process_file5]. *)
Theorem unknown_signature_rejected (fuel : nat) (fs : filesystem)
        (archive_name : string) (d : disk_file) (w : World) :
  fs archive_name = Some d ->
  let m := map byte_val (image d) in
  (7 <= Z.of_nat (List.length (image d)) ->
   mem_equal m RAR_OLD_MAGIC 4 = false
   /\ mem_equal m RAR3_MAGIC 7 = false
   /\ mem_equal m [0x4d; 0x5a] 2 = false
   /\ mem_equal m RAR5_MAGIC 8 = false) ->
  exists (f' : FILE) (n : Z),
    process_file fuel fs archive_name w
    = (inr tt, mkWorld f' (glob w) (stdout w)
                       (stderr w ++ [D_not_rar archive_name]) n).
Proof.
  intros Hfs m Hm. unfold process_file, fopen. rewrite Hfs.
  unfold RAR3_MAGIC_SIZE, RAR_OLD_MAGIC_SIZE. run.
  rewrite (fread_first (image d) (healthy_reads d) 7) by lia.
  destruct (healthy_reads d) as [[| k] |] eqn:Hdv.
  - run. eexists _, _. reflexivity.
  - destruct (Z.leb_spec 7 (Z.of_nat (List.length (image d)))) as [H7 | H7];
      [| run; eexists _, _; reflexivity].
    destruct (Hm H7) as (M1 & M2 & M3 & M4). subst m. run.
    rewrite !mem_equal_image by (cbn; lia). rewrite M1, M2, M3. run.
    unfold process_file5, fopen. rewrite Hfs, Hdv. unfold RAR5_MAGIC_SIZE. run.
    rewrite (fread_first (image d) (Some (S k)) 8) by lia.
    destruct (Z.leb_spec 8 (Z.of_nat (List.length (image d)))) as [H8 | H8];
      [| run; eexists _, _; reflexivity].
    run. rewrite !mem_equal_image by (cbn; lia). rewrite M3, M4. run.
    eexists _, _. reflexivity.
  - destruct (Z.leb_spec 7 (Z.of_nat (List.length (image d)))) as [H7 | H7];
      [| run; eexists _, _; reflexivity].
    destruct (Hm H7) as (M1 & M2 & M3 & M4). subst m. run.
    rewrite !mem_equal_image by (cbn; lia). rewrite M1, M2, M3. run.
    unfold process_file5, fopen. rewrite Hfs, Hdv. unfold RAR5_MAGIC_SIZE. run.
    rewrite (fread_first (image d) None 8) by lia.
    destruct (Z.leb_spec 8 (Z.of_nat (List.length (image d)))) as [H8 | H8];
      [| run; eexists _, _; reflexivity].
    run. rewrite !mem_equal_image by (cbn; lia). rewrite M3, M4. run.
    eexists _, _. reflexivity.
Qed.

(** X10.  A file of at least 7 bytes that starts with the magic of
    the format before RAR 1.50 is turned down with the message for old
    archives and nothing else. *)
Theorem old_format_rejected (fuel : nat) (fs : filesystem)
        (archive_name : string) (d : disk_file) (rest : list byte) (w : World) :
  fs archive_name = Some d ->
  healthy_reads d <> Some O ->
  image d = bytes_of RAR_OLD_MAGIC ++ rest ->
  (3 <= List.length rest)%nat ->
  exists f' : FILE,
    process_file fuel fs archive_name w
    = (inr tt, mkWorld f' (glob w) (stdout w)
                       (stderr w ++ [D_too_old archive_name]) (found w)).
Proof.
  intros Hfs Hdv Hi Hr. unfold process_file, fopen. rewrite Hfs.
  unfold RAR3_MAGIC_SIZE, RAR_OLD_MAGIC_SIZE. run.
  rewrite (fread_first (image d) (healthy_reads d) 7) by lia.
  assert (H7 : 7 <= Z.of_nat (List.length (image d))).
  { rewrite Hi, length_app. cbn [bytes_of RAR_OLD_MAGIC map List.length]. lia. }
  assert (M : mem_equal (map byte_val (firstn (Z.to_nat 7) (image d)))
                        RAR_OLD_MAGIC 4 = true).
  { rewrite mem_equal_image by (cbn; lia). rewrite Hi. reflexivity. }
  destruct (healthy_reads d) as [[| k] |]; [congruence | |];
    (destruct (Z.leb_spec 7 (Z.of_nat (List.length (image d)))); [| lia];
     run; rewrite M; run; eexists; reflexivity).
Qed.

End Dispatch.

(** A file of nine bytes that are no signature. *)
Lemma unknown_signature_rejected_witness :
  let env := Sample.host64 in
  let w := Sample.fresh false in
  exists (f' : FILE) (n : Z),
    process_file 1 (Sample.disk [1; 2; 3; 4; 5; 6; 7; 8; 9] None) "a.rar" w
    = (inr tt, mkWorld f' (glob w) (stdout w) [D_not_rar "a.rar"] n).
Proof.
  intros env w.
  apply (unknown_signature_rejected (env := env) 1
           (Sample.disk [1; 2; 3; 4; 5; 6; 7; 8; 9] None) "a.rar"
           (mkDisk (bytes_of [1; 2; 3; 4; 5; 6; 7; 8; 9]) None) w).
  - reflexivity.
  - intros _. vm_compute. repeat split; reflexivity.
Defined.

(** A file with the old magic. *)
Lemma old_format_rejected_witness :
  let env := Sample.host64 in
  let w := Sample.fresh false in
  exists f' : FILE,
    process_file 1 (Sample.disk (RAR_OLD_MAGIC ++ [0; 0; 0]) None) "a.rar" w
    = (inr tt, mkWorld f' (glob w) (stdout w) [D_too_old "a.rar"] (found w)).
Proof.
  intros env w.
  apply (old_format_rejected (env := env) 1
           (Sample.disk (RAR_OLD_MAGIC ++ [0; 0; 0]) None) "a.rar"
           (mkDisk (bytes_of (RAR_OLD_MAGIC ++ [0; 0; 0])) None)
           (bytes_of [0; 0; 0]) w); evaluated.
Defined.

(** ** File headers that end the scan *)

Section HeaderErrors.

Context {env : Environment}.

Lemma BailOut_stdout (base : string) (s : Scan) (w : World) :
  stdout (snd (BailOut base s w)) = stdout w ++ candidate_lines s
  /\ glob (snd (BailOut base s w)) = glob w
  /\ fp (snd (BailOut base s w)) = fp w.
Proof.
  unfold BailOut, candidate_lines. run.
  destruct (best s) as [b |]; [| run; rewrite app_nil_r; repeat split].
  destruct (String.eqb b EmptyString); run;
    [rewrite app_nil_r; repeat split |].
  destruct (verbose (glob w)); run;
    destruct (unp (bestsize s) <? (if 48 <? method (bestsize s) then 5 else 1));
    run; repeat split.
Qed.

(** A header of the -p mode with one of the two tags that are taken for
    a file entry: [file_header] reads its 32 bytes and goes on in
    [p_entry]. *)
Lemma file_header_enters_p_entry (name base : string) (s : Scan) (w : World)
      (blk : list Z) (f' : FILE) :
  fread 32 1 (fp w) = ((1, blk), f') ->
  at_eof f' = false ->
  let B := store blk (uninit 40) in
  at_ B 2 = 0x74 \/ at_ B 2 = 0x7a ->
  exists msgs : list diag,
    file_header 1 name base s w
    = p_entry 1 name base B (Z.lor (Z.shiftl (at_ B 4) 8) (at_ B 3)) s
              (mkWorld f' (glob w) (stdout w) (stderr w ++ msgs) (found w)).
Proof.
  intros Hrd Heof B Htag.
  unfold file_header. run.
  destruct (verbose (glob w)) eqn:Hv; run; rewrite Hrd; run; rewrite Heof; run;
    change (1 =? 1) with true; change (1 =? 0) with false; run; fold B;
    (destruct Htag as [Ht | Ht]; rewrite Ht; cbn [Z.eqb Pos.eqb negb andb]; run;
     eexists; rewrite <- ?app_assoc; try reflexivity;
     rewrite <- (app_nil_r (stderr w)) at 1; reflexivity).
Qed.

Lemma file_headers_bails_out (fuel : nat) (name base : string) (s s' : Scan)
      (w w1 : World) :
  file_header 1 name base s w = (inl (goto_BailOut s'), w1) ->
  file_headers (S fuel) 1 name base s w = (inr tt, snd (BailOut base s' w1)).
Proof. intros E. cbn [file_headers]. rewrite E. reflexivity. Qed.

Lemma file_headers_err (fuel : nat) (name base : string) (s : Scan)
      (w w1 : World) :
  file_header 1 name base s w = (inl goto_err, w1) ->
  file_headers (S fuel) 1 name base s w = (inr tt, w1).
Proof. intros E. cbn [file_headers]. rewrite E. reflexivity. Qed.

Lemma BailOut_stderr (base : string) (s : Scan) (w : World) :
  exists more, stderr (snd (BailOut base s w)) = stderr w ++ more.
Proof.
  unfold BailOut. run.
  destruct (best s) as [b |]; [| run; eexists; reflexivity].
  destruct (String.eqb b EmptyString); run; [eexists; reflexivity |].
  destruct (verbose (glob w)); run;
    destruct (unp (bestsize s) <? (if 48 <? method (bestsize s) then 5 else 1));
    run; rewrite <- ?app_assoc; eexists; try reflexivity;
    rewrite <- (app_nil_r (stderr w)) at 1; reflexivity.
Qed.

(** X11.  A file header of the -p mode without the flag 0x8000 ends
    the scan at [BailOut]: the message goes to stderr, and the candidate
    found so far, if there is one, is still printed. *)
Theorem missing_flag_8000_prints_candidate (fuel : nat)
        (archive_name base_aname : string) (s : Scan) (w : World)
        (blk : list Z) (f' : FILE) :
  fread 32 1 (fp w) = ((1, blk), f') ->
  at_eof f' = false ->
  let B := store blk (uninit 40) in
  at_ B 2 = 0x74 \/ at_ B 2 = 0x7a ->
  CInt.has (Z.lor (Z.shiftl (at_ B 4) 8) (at_ B 3)) 0x8000 = false ->
  exists w' : World,
    file_headers (S fuel) 1 archive_name base_aname s w = (inr tt, w')
    /\ stdout w' = stdout w ++ candidate_lines s
    /\ In D_flag_8000_unset (stderr w')
    /\ fp w' = f'.
Proof.
  intros Hrd Heof B Htag Hfl.
  destruct (file_header_enters_p_entry archive_name base_aname s w blk f'
              Hrd Heof Htag) as (msgs & E).
  fold B in E.
  eexists. split.
  - apply file_headers_bails_out. rewrite E. unfold p_entry. run.
    rewrite Hfl. run. reflexivity.
  - match goal with
    | |- context [BailOut ?b ?s0 ?w0] =>
        destruct (BailOut_stdout b s0 w0) as (E1 & E2 & E3);
        destruct (BailOut_stderr b s0 w0) as (more & E4);
        rewrite E1, E3, E4
    end.
    cbn [stdout fp stderr]. repeat split.
    rewrite !in_app_iff. cbn [In]. tauto.
Qed.

(** X12.  A file header of the -p mode whose name size is 0 or more
    than the 1024 bytes of the name buffer ends the scan at [err]: the
    last message on stderr is the one of the failed read or of
    [check_fread], and the candidate found so far is not printed. *)
Theorem bad_name_size_drops_candidate (fuel : nat)
        (archive_name base_aname : string) (s : Scan) (w : World)
        (blk : list Z) (f' : FILE) :
  fread 32 1 (fp w) = ((1, blk), f') ->
  at_eof f' = false ->
  let B := store blk (uninit 40) in
  let flags := Z.lor (Z.shiftl (at_ B 4) 8) (at_ B 3) in
  let name_size := Z.lor (Z.shiftl (at_ B 27) 8) (at_ B 26) in
  at_ B 2 = 0x74 \/ at_ B 2 = 0x7a ->
  CInt.has flags 0x8000 = true ->
  CInt.has flags 0x100 = false ->
  name_size = 0 \/ 4 * PATH_BUF_SIZE < size_t (name_size * 1) ->
  exists w' : World,
    file_headers (S fuel) 1 archive_name base_aname s w = (inr tt, w')
    /\ stdout w' = stdout w
    /\ exists earlier,
        stderr w'
        = earlier ++ [if name_size =? 0 then D_read_failed archive_name
                      else D_check_fread (4 * PATH_BUF_SIZE) name_size 1].
Proof.
  intros Hrd Heof B flags name_size Htag H8 H1 Hns.
  destruct (file_header_enters_p_entry archive_name base_aname s w blk f'
              Hrd Heof Htag) as (msgs & E).
  fold B in E. fold flags in E.
  assert (Hcf : name_size = 0 ->
                (4 * PATH_BUF_SIZE <? size_t (name_size * 1)) = false).
  { intros ->. unfold size_t, CInt.wrap. rewrite Z.mul_0_l, Zmod_0_l. reflexivity. }
  destruct Hns as [Hz | Hbig].
  - destruct (verbose (glob w)) eqn:Hv;
      (eexists; split; [| split];
       [ apply file_headers_err; rewrite E; unfold p_entry, check_fread; run;
         rewrite H8, H1, Hv; run; fold name_size; rewrite (Hcf Hz); run;
         rewrite Hz; change (fread 0 1 f') with ((0, @nil Z), f'); run;
         reflexivity
       | reflexivity
       | rewrite Hz; cbn [Z.eqb stderr]; eexists; reflexivity ]).
  - assert (Hnz : (name_size =? 0) = false).
    { apply Z.eqb_neq. intros Hz. specialize (Hcf Hz).
      apply Z.ltb_ge in Hcf. lia. }
    apply Z.ltb_lt in Hbig.
    destruct (verbose (glob w)) eqn:Hv;
      (eexists; split; [| split];
       [ apply file_headers_err; rewrite E; unfold p_entry, check_fread; run;
         rewrite H8, H1, Hv; run; fold name_size; rewrite Hbig; run;
         reflexivity
       | reflexivity
       | rewrite Hnz; cbn [stderr]; eexists; reflexivity ]).
Qed.

End HeaderErrors.

(** A header without the flag 0x8000 behind a candidate. *)
Lemma missing_flag_8000_prints_candidate_witness :
  let env := Sample.host64 in
  let w := Sample.at_first_header Sample.old_header_archive in
  exists w' : World,
    file_headers 1 1 "a.rar" "a.rar" Sample.with_candidate w = (inr tt, w')
    /\ stdout w' = [("cand" ++ "g " ++ nl)%string].
Proof.
  intros env w.
  destruct (missing_flag_8000_prints_candidate (env := env) 0 "a.rar" "a.rar"
              Sample.with_candidate w
              (firstn 32 (skipn 20 Sample.old_header_archive))
              (Sample.behind_first_header Sample.old_header_archive))
    as (w' & E & O & _);
    [evaluated | evaluated | left; evaluated | evaluated |].
  exists w'. split; [exact E | exact O].
Defined.

(** A header with an empty name behind a candidate. *)
Lemma bad_name_size_drops_candidate_witness :
  let env := Sample.host64 in
  let w := Sample.at_first_header Sample.nameless_archive in
  exists w' : World,
    file_headers 1 1 "a.rar" "a.rar" Sample.with_candidate w = (inr tt, w')
    /\ stdout w' = [].
Proof.
  intros env w.
  destruct (bad_name_size_drops_candidate (env := env) 0 "a.rar" "a.rar"
              Sample.with_candidate w
              (firstn 32 (skipn 20 Sample.nameless_archive))
              (Sample.behind_first_header Sample.nameless_archive))
    as (w' & E & O & _);
    [evaluated | evaluated | left; evaluated | evaluated | evaluated
     | left; evaluated |].
  exists w'. split; [exact E | exact O].
Defined.

(** ** The search in self-extracting archives *)

Section SfxScan.

Context {env : Environment}.

Lemma mem_equal_true (a b : list Z) (n : Z) :
  mem_equal a b n = true -> firstn (Z.to_nat n) a = firstn (Z.to_nat n) b.
Proof.
  unfold mem_equal.
  destruct (list_eq_dec Z.eq_dec _ _); [trivial | discriminate].
Qed.

Lemma mem_equal_refl (a b : list Z) (n : Z) :
  firstn (Z.to_nat n) a = firstn (Z.to_nat n) b -> mem_equal a b n = true.
Proof.
  intros H. unfold mem_equal.
  destruct (list_eq_dec Z.eq_dec _ _); [reflexivity | contradiction].
Qed.

Lemma memmem_sound (needle : list Z) :
  forall (hay : list Z) (p : Z),
    memmem hay needle = Some p ->
    0 <= p
    /\ p + Z.of_nat (List.length needle) <= Z.of_nat (List.length hay)
    /\ firstn (List.length needle) (skipn (Z.to_nat p) hay) = needle.
Proof.
  induction hay as [| a hay IH]; intros p H.
  - cbn [memmem] in H.
    destruct (mem_equal [] needle _ && _) eqn:E; [| discriminate].
    injection H as <-. apply andb_true_iff in E as [E1 E2].
    apply mem_equal_true in E1. apply Nat.leb_le in E2.
    rewrite Nat2Z.id, firstn_all in E1.
    cbn [Z.to_nat skipn]. repeat split; [lia | lia | exact E1].
  - cbn [memmem] in H.
    destruct (mem_equal (a :: hay) needle _ && _) eqn:E.
    + injection H as <-. apply andb_true_iff in E as [E1 E2].
      apply mem_equal_true in E1. apply Nat.leb_le in E2.
      rewrite Nat2Z.id, (firstn_all needle) in E1.
      cbn [Z.to_nat skipn]. repeat split; [lia | lia | exact E1].
    + destruct (memmem hay needle) as [p' |] eqn:Hm; [| discriminate].
      cbn [option_map] in H. injection H as <-.
      destruct (IH p' eq_refl) as (H0 & H1 & H2).
      repeat split; [lia | cbn [List.length]; lia |].
      replace (Z.to_nat (Z.succ p')) with (S (Z.to_nat p')) by lia.
      cbn [skipn]. exact H2.
Qed.

Lemma memmem_complete (needle : list Z) :
  forall (hay : list Z) (q : nat),
    (q + List.length needle <= List.length hay)%nat ->
    firstn (List.length needle) (skipn q hay) = needle ->
    memmem hay needle <> None.
Proof.
  induction hay as [| a hay IH]; intros q Hq Hocc.
  - cbn [List.length] in Hq.
    assert (needle = []) by (destruct needle; [reflexivity | cbn in Hq; lia]).
    subst needle. cbn. discriminate.
  - cbn [memmem].
    destruct (mem_equal (a :: hay) needle _ && _) eqn:E; [discriminate |].
    destruct q as [| q].
    + exfalso. cbn [skipn] in Hocc.
      rewrite (mem_equal_refl (a :: hay) needle) in E.
      * apply andb_false_iff in E as [E | E]; [discriminate |].
        apply Nat.leb_gt in E. lia.
      * rewrite Nat2Z.id, firstn_all. exact Hocc.
    + cbn [skipn List.length] in *.
      specialize (IH q ltac:(lia) Hocc).
      destruct (memmem hay needle); [discriminate | contradiction].
Qed.

Lemma i64_small (x : Z) : - 2 ^ 63 <= x < 2 ^ 63 -> CInt.i64 x = x.
Proof.
  intros H. unfold CInt.i64, CInt.signed, CInt.wrap.
  change (2 ^ (64 - 1)) with 9223372036854775808.
  change (2 ^ 64) with 18446744073709551616.
  change (2 ^ 63) with 9223372036854775808 in H.
  destruct (Z_lt_le_dec x 0).
  - assert (E : x mod 18446744073709551616 = x + 18446744073709551616)
      by (symmetry; apply Z.mod_unique_pos with (q := -1); lia).
    rewrite E. destruct (Z.ltb_spec (x + 18446744073709551616) 9223372036854775808); lia.
  - rewrite Z.mod_small by lia.
    destruct (Z.ltb_spec x 9223372036854775808); lia.
Qed.

Lemma i32_small (x : Z) : 0 <= x < 2 ^ 31 -> CInt.i32 x = x.
Proof.
  intros H. unfold CInt.i32, CInt.signed, CInt.wrap.
  change (2 ^ (32 - 1)) with 2147483648.
  change (2 ^ 32) with 4294967296.
  change (2 ^ 31) with 2147483648 in H.
  rewrite Z.mod_small by lia.
  destruct (Z.ltb_spec x 2147483648); lia.
Qed.

(** What a read of a chunk that got something has done. *)
Lemma fread_chunk_bytes (f f1 : FILE) (count : Z) (buf : list Z) :
  0 <= offset f ->
  fread 1 CHUNK_SIZE f = ((count, buf), f1) ->
  0 < count ->
  buf = map byte_val (firstn (Z.to_nat CHUNK_SIZE) (remaining f))
  /\ count = Z.of_nat (List.length buf)
  /\ count <= CHUNK_SIZE
  /\ content f1 = content f
  /\ offset f1 = offset f + count
  /\ offset f + count <= Z.of_nat (List.length (content f)).
Proof.
  intros Ho. unfold fread. cbn [Z.mul Pos.mul Z.leb Z.compare CHUNK_SIZE].
  assert (Hk : Z.of_nat (List.length (firstn (Z.to_nat 4096) (remaining f))) <= 4096
               /\ (0 < Z.of_nat (List.length (firstn (Z.to_nat 4096) (remaining f))) ->
                   offset f + Z.of_nat (List.length (firstn (Z.to_nat 4096) (remaining f)))
                   <= Z.of_nat (List.length (content f)))).
  { rewrite length_firstn. unfold remaining. rewrite length_skipn. lia. }
  destruct (device f) as [[| d] |]; intros E; inversion E; subst count buf f1;
    clear E; cbn [content offset]; intros Hc; try lia;
    rewrite Z.div_1_r in *; rewrite length_map;
    repeat split; try reflexivity; try tauto; lia.
Qed.

Lemma firstn_skipn_firstn {A : Type} (l : list A) (m p n : nat) :
  (p + m <= n)%nat ->
  firstn m (skipn p (firstn n l)) = firstn m (skipn p l).
Proof.
  intros H. rewrite skipn_firstn_comm, firstn_firstn, Nat.min_l by lia.
  reflexivity.
Qed.

(** A window of the chunk read at [o] is a window of the file. *)
Lemma chunk_window (c : list byte) (o p : Z) (m n : nat) :
  0 <= o -> 0 <= p ->
  (Z.to_nat p + m <= n)%nat ->
  firstn m (skipn (Z.to_nat p) (map byte_val (firstn n (skipn (Z.to_nat o) c))))
  = map byte_val (firstn m (skipn (Z.to_nat (o + p)) c)).
Proof.
  intros Ho Hp H.
  rewrite skipn_map, firstn_map, firstn_skipn_firstn by exact H.
  rewrite skipn_skipn. do 3 f_equal. lia.
Qed.

(** A hit leaves the stream just behind an occurrence of the magic. *)
Lemma sfx_scan_sound (fuel : nat) :
  forall (magic : list Z) (f f' : FILE),
    let m := Z.of_nat (List.length magic) in
    1 <= m ->
    size_t m = m ->
    0 <= offset f ->
    Z.of_nat (List.length (content f)) <= CInt.INT64_MAX ->
    sfx_scan fuel magic f = Some (true, f') ->
    content f' = content f
    /\ at_eof f' = false
    /\ occurs_at magic (content f) (offset f' - m).
Proof.
  induction fuel as [| fuel IH]; intros magic f f' m Hm Hsz Ho Hmax H;
    [discriminate |].
  cbn [sfx_scan] in H. unfold feof in H. fold m in H.
  destruct (at_eof f) eqn:He; [discriminate |].
  destruct (fread 1 CHUNK_SIZE f) as [[count buf] f1] eqn:Hrd.
  destruct (Z.ltb_spec count m); [discriminate |].
  destruct (fread_chunk_bytes f f1 count buf Ho Hrd ltac:(lia))
    as (Hbuf & Hcnt & Hle & Hc1 & Ho1 & Hin).
  unfold CHUNK_SIZE in *.
  destruct (memmem buf magic) as [pos |] eqn:Hmm.
  - destruct (memmem_sound magic buf pos Hmm) as (Hp0 & Hp1 & Hp2).
    fold m in Hp1. rewrite <- Hcnt in Hp1.
    unfold CInt.INT64_MAX in *. change (2 ^ 63 - 1) with 9223372036854775807 in *.
    rewrite Hsz in H.
    rewrite i32_small in H by (change (2 ^ 31) with 2147483648; lia).
    assert (B1 : - 2 ^ 63 <= m < 2 ^ 63)
      by (change (2 ^ 63) with 9223372036854775808; lia).
    assert (B2 : - 2 ^ 63 <= - (count - pos) < 2 ^ 63)
      by (change (2 ^ 63) with 9223372036854775808; lia).
    rewrite (i64_small _ B1), (i64_small _ B2) in H.
    rewrite (fseek_ok (- (count - pos)) SEEK_CUR f1) in H
      by (cbv beta iota zeta; unfold CInt.INT64_MAX;
          change (2 ^ 63 - 1) with 9223372036854775807; lia).
    rewrite fseek_ok in H
      by (cbv beta iota zeta; cbn [offset]; unfold CInt.INT64_MAX;
          change (2 ^ 63 - 1) with 9223372036854775807; lia).
    injection H as <-. cbn [content offset at_eof device].
    repeat split; try assumption; try lia.
    + replace (offset f1 + - (count - pos) + m - m) with (offset f + pos) by lia.
      rewrite <- Hp2 at 2. rewrite Hbuf. unfold remaining. symmetry.
      apply chunk_window; lia.
  - destruct (at_eof f1) eqn:He1; [discriminate |].
    apply IH in H; try assumption.
    + destruct H as (A & B & C).
      assert (Hc2 : content (fseek (CInt.i64 (size_t (1 - m))) SEEK_CUR f1)
                    = content f).
      { unfold fseek. destruct (_ || _); cbn [content]; assumption. }
      rewrite Hc2 in *. split; [assumption | split; assumption].
    + unfold fseek. destruct ((_ <? 0) || _) eqn:E; cbn [offset]; [lia |].
      apply orb_false_iff in E as [E _]. apply Z.ltb_ge in E. exact E.
    + unfold fseek. destruct (_ || _); cbn [content]; rewrite Hc1; assumption.
Qed.

Lemma seek_back_64 (m : Z) :
  sizeof_size_t = 8 ->
  1 <= m <= CHUNK_SIZE ->
  CInt.i64 (size_t (1 - m)) = 1 - m /\ size_t m = m.
Proof.
  intros Hs Hm. unfold size_t, size_bits, CInt.i64, CInt.signed, CInt.wrap, CHUNK_SIZE in *.
  rewrite Hs.
  change (2 ^ (8 * 8)) with 18446744073709551616.
  change (2 ^ 64) with 18446744073709551616.
  change (2 ^ (64 - 1)) with 9223372036854775808.
  split; [| apply Z.mod_small; lia].
  rewrite Z.mod_mod by lia.
  destruct (Z.eq_dec m 1) as [-> | Hne]; [reflexivity |].
  assert (E : (1 - m) mod 18446744073709551616 = 18446744073709551616 + (1 - m))
    by (symmetry; apply Z.mod_unique_pos with (q := -1); lia).
  rewrite E.
  destruct (Z.ltb_spec (18446744073709551616 + (1 - m)) 9223372036854775808); lia.
Qed.

(** On a build with a 64-bit [size_t], a magic that stands at or behind
    the position is found. *)
Lemma sfx_scan_complete (fuel : nat) :
  forall (magic : list Z) (f : FILE) (q : Z),
    let m := Z.of_nat (List.length magic) in
    sizeof_size_t = 8 ->
    1 <= m <= CHUNK_SIZE ->
    device f = None ->
    at_eof f = false ->
    0 <= offset f ->
    Z.of_nat (List.length (content f)) <= CInt.INT64_MAX ->
    occurs_at magic (content f) q ->
    offset f <= q ->
    (left_ f < fuel)%nat ->
    exists f', sfx_scan fuel magic f = Some (true, f').
Proof.
  induction fuel as [| fuel IH];
    intros magic f q m Hs Hm Hd He Ho Hmax Hocc Hq Hfuel; [lia |].
  destruct Hocc as (Hq0 & Hq1 & Hq2). fold m in Hq1.
  cbn [sfx_scan]. unfold feof. fold m. rewrite He.
  destruct (fread 1 CHUNK_SIZE f) as [[count buf] f1] eqn:Hrd.
  assert (Hrd' := Hrd).
  unfold fread in Hrd'. cbn [Z.mul Pos.mul Z.leb Z.compare CHUNK_SIZE] in Hrd'.
  rewrite Hd, He in Hrd'. cbn [orb option_map] in Hrd'.
  rewrite Z.div_1_r in Hrd'.
  set (got := firstn (Z.to_nat 4096) (remaining f)) in *.
  injection Hrd' as Hcnt Hbuf Hf1.
  assert (Hrem : List.length (remaining f)
                 = (List.length (content f) - Z.to_nat (offset f))%nat)
    by (unfold remaining; apply length_skipn).
  assert (Hgot : List.length got = Nat.min (Z.to_nat 4096) (List.length (remaining f)))
    by (subst got; apply length_firstn).
  unfold CHUNK_SIZE in *.
  destruct (Z_le_gt_dec (q + m) (offset f + count)) as [Hin | Hout].
  - destruct (Z.ltb_spec count m); [lia |].
    assert (Hfound : memmem buf magic <> None).
    { apply (memmem_complete magic buf (Z.to_nat (q - offset f))).
      - rewrite <- Hbuf, length_map. subst m. lia.
      - rewrite <- Hbuf. subst got. unfold remaining.
        rewrite chunk_window by (subst m; lia).
        rewrite <- Hq2 at 2. do 3 f_equal. lia. }
    destruct (memmem buf magic); [eexists; reflexivity | contradiction].
  - assert (Hfull : count = 4096) by lia.
    destruct (Z.ltb_spec count m); [lia |].
    destruct (memmem buf magic); [eexists; reflexivity |].
    rewrite <- Hf1. cbn [at_eof].
    destruct (Z.ltb_spec (Z.of_nat (List.length got)) 4096); [lia |].
    destruct (seek_back_64 m Hs ltac:(unfold CHUNK_SIZE; lia)) as [Hback _].
    rewrite Hback.
    rewrite fseek_ok
      by (cbv beta iota zeta; cbn [offset]; unfold CInt.INT64_MAX in *;
          change (2 ^ 63 - 1) with 9223372036854775807 in *; lia).
    cbn [content offset device reads].
    apply (IH magic _ q); cbn [content offset device at_eof]; fold m;
      try assumption; try reflexivity; try lia.
    + repeat split; assumption.
    + unfold left_, remaining in *. cbn [content offset].
      rewrite length_skipn in *. lia.
Qed.

(** X13.  The search for the signature in a self-extracting archive,
    on a build with a 64-bit [size_t] and a healthy device: a magic that
    stands at or behind the position of the stream is found, also when
    it straddles two chunks, within the fuel [process_file] gives the
    search, and the stream is left just behind an occurrence of the
    magic with the end-of-file indicator clear. *)
Theorem sfx_scan_finds_magic (magic : list Z) (f : FILE) (q : Z) :
  let m := Z.of_nat (List.length magic) in
  sizeof_size_t = 8 ->
  1 <= m <= CHUNK_SIZE ->
  device f = None ->
  at_eof f = false ->
  0 <= offset f ->
  Z.of_nat (List.length (content f)) <= CInt.INT64_MAX ->
  occurs_at magic (content f) q ->
  offset f <= q ->
  exists f',
    sfx_scan (S (List.length (content f))) magic f = Some (true, f')
    /\ content f' = content f
    /\ at_eof f' = false
    /\ occurs_at magic (content f) (offset f' - m).
Proof.
  intros m Hs Hm Hd He Ho Hmax Hocc Hq.
  destruct (sfx_scan_complete (S (List.length (content f))) magic f q
              Hs Hm Hd He Ho Hmax Hocc Hq) as (f' & E).
  { unfold left_, remaining. rewrite length_skipn. lia. }
  exists f'. split; [exact E |].
  destruct (seek_back_64 m Hs Hm) as [_ Hsz].
  apply (sfx_scan_sound _ magic f f' ltac:(fold m; lia) Hsz Ho Hmax E).
Qed.

Lemma fread_past_end (size nmemb : Z) (f : FILE) :
  0 < size ->
  Z.of_nat (List.length (content f)) <= offset f ->
  fst (fst (fread size nmemb f)) = 0.
Proof.
  intros Hs Hp. unfold fread.
  destruct (size * nmemb <=? 0); [reflexivity |].
  assert (E : remaining f = []).
  { unfold remaining. apply skipn_all2. lia. }
  rewrite E, firstn_nil.
  destruct (device f) as [[| k] |]; cbn [fst List.length]; try reflexivity;
    apply Z.div_0_l; lia.
Qed.

(** X14.  On a build with a 32-bit [size_t] the search gives up
    after the first chunk.  [1 - magic_size] is computed in [size_t] and
    reaches the 64-bit offset of [jtr_fseek64] as a forward seek of
    nearly 4 GB, so in a file of at most 4 GB the second read gets
    nothing: when the first chunk of 4096 bytes does not hold the magic,
    the search reports that it was not found, whatever follows. *)
Theorem sfx_scan_32bit_gives_up (fuel : nat) (magic : list Z) (f f1 : FILE)
        (count : Z) (buf : list Z) :
  let m := Z.of_nat (List.length magic) in
  sizeof_size_t = 4 ->
  2 <= m <= CHUNK_SIZE ->
  0 <= offset f ->
  Z.of_nat (List.length (content f)) <= 2 ^ 32 ->
  at_eof f = false ->
  fread 1 CHUNK_SIZE f = ((count, buf), f1) ->
  m <= count ->
  memmem buf magic = None ->
  at_eof f1 = false ->
  exists f', sfx_scan (S (S fuel)) magic f = Some (false, f').
Proof.
  intros m Hs Hm Ho Hsize He Hrd Hc Hmm He1.
  destruct (fread_chunk f f1 count buf Ho He Hrd He1 ltac:(lia))
    as (Ho1 & Hc1 & Hn).
  unfold left_, remaining in Hn. rewrite length_skipn in Hn.
  unfold CHUNK_SIZE in *.
  assert (Hfwd : CInt.i64 (size_t (1 - m)) = 2 ^ 32 + 1 - m).
  { unfold size_t, size_bits, CInt.wrap. rewrite Hs.
    change (2 ^ (8 * 4)) with 4294967296. change (2 ^ 32) with 4294967296.
    assert (E : (1 - m) mod 4294967296 = 4294967296 + (1 - m))
      by (symmetry; apply Z.mod_unique_pos with (q := -1); lia).
    rewrite E. replace (4294967296 + 1 - m) with (4294967296 + (1 - m)) by lia.
    apply i64_small.
    change (2 ^ 63) with 9223372036854775808. lia. }
  change (2 ^ 32) with 4294967296 in *.
  remember (S fuel) as fuel1.
  cbn [sfx_scan]. unfold feof. fold m. rewrite He.
  change CHUNK_SIZE with 4096. rewrite Hrd.
  destruct (Z.ltb_spec count m); [lia |].
  rewrite Hmm, He1, Hfwd.
  rewrite fseek_ok
    by (cbv beta iota zeta; unfold CInt.INT64_MAX;
        change (2 ^ 63 - 1) with 9223372036854775807; lia).
  subst fuel1. cbn [sfx_scan]. unfold feof. fold m. cbn [at_eof].
  match goal with
  | |- context [fread 1 CHUNK_SIZE ?f2] =>
      pose proof (fread_past_end 1 CHUNK_SIZE f2 ltac:(lia)) as Hz;
      destruct (fread 1 CHUNK_SIZE f2) as [[c2 b2] f3]
  end.
  cbn [fst content offset] in Hz. rewrite Hc1 in Hz. rewrite Hz by lia.
  destruct (Z.ltb_spec 0 m); [| lia].
  eexists. reflexivity.
Qed.

End SfxScan.

(** A stub of 5000 bytes: the magic is in the second chunk. *)
Lemma sfx_scan_finds_magic_witness :
  let env := Sample.host64 in
  let f := Sample.stream (Sample.sfx_archive 5000) in
  exists f',
    sfx_scan (S (List.length (content f))) RAR3_MAGIC f = Some (true, f')
    /\ offset f' = 5007.
Proof.
  intros env f.
  destruct (sfx_scan_finds_magic (env := env) RAR3_MAGIC f 5000)
    as (f' & E & _ & _ & _);
    [evaluated | evaluated | evaluated | evaluated | evaluated | evaluated
     | vm_compute; repeat split; congruence | evaluated |].
  exists f'. split; [exact E |].
  vm_compute in E. injection E as <-. reflexivity.
Defined.

(** The same file on the build with a 32-bit [size_t]. *)
Lemma sfx_scan_32bit_gives_up_witness :
  let env := Sample.host32 in
  let f := Sample.stream (Sample.sfx_archive 5000) in
  exists f', sfx_scan 2 RAR3_MAGIC f = Some (false, f').
Proof.
  intros env f.
  apply (sfx_scan_32bit_gives_up (env := env) 0 RAR3_MAGIC f
           (mkFILE (content f) 4096 false None [(0, 4096)]) 4096
           (firstn 4096 (Sample.sfx_archive 5000))); evaluated.
Defined.

(** ** The extra area prints one record at most *)

Section ExtraArea.

Context {env : Environment}.

Lemma extra_crypt_outcome (n : Z) (name : string) (w : World) :
  exists w', extra_crypt n name w = (inl (Returned 0), w')
             /\ at_most_one_record w w'.
Proof.
  unfold extra_crypt, at_most_one_record. run.
  step_all; eexists; (split; [reflexivity |]); cbn [stdout found];
    first [left; split; reflexivity | right; eexists; split; reflexivity].
Qed.

Lemma ProcessExtra50_loop_outcome (fuel : nat) :
  forall (bytes_left br ht : Z) (name : string) (w : World),
    0 <= offset (fp w) ->
    (left_ (fp w) < fuel)%nat ->
    exists w',
      ProcessExtra50_loop fuel bytes_left br ht name w = (inl (Returned 0), w')
      /\ at_most_one_record w w'.
Proof.
  induction fuel as [| fuel IH]; intros bl br ht name w Ho Hm; [lia |].
  cbn [ProcessExtra50_loop]. run.
  destruct (read_vuint br (fp w)) as [[[len fs] n] f1] eqn:H1. run.
  destruct (read_vuint_progress br (fp w) f1 len fs n Ho H1) as (Ho1 & Hle1 & Hlt1).
  assert (Same : forall f2, at_most_one_record w
                   (mkWorld f2 (glob w) (stdout w) (stderr w) (found w)))
    by (intros; left; split; reflexivity).
  destruct ((len =? 0) || (3 <? len)) eqn:Hlen; run;
    [eexists; split; [reflexivity | apply Same] |].
  assert (len <> 0) as Hnz by (intros ->; discriminate).
  specialize (Hlt1 Hnz).
  destruct (CInt.i32 (CInt.i32 (bl - len) - CInt.u32 fs) <? 0); run;
    [eexists; split; [reflexivity | apply Same] |].
  destruct (read_vuint n f1) as [[[r2 ft] n2] f2] eqn:H2. run.
  destruct (read_vuint_progress n f1 f2 r2 ft n2 Ho1 H2) as (Ho2 & Hle2 & _).
  destruct (r2 =? 0); run; [eexists; split; [reflexivity | apply Same] |].
  destruct (((ht =? HEAD_FILE) || (ht =? HEAD_SERVICE)) && (ft =? FHEXTRA_CRYPT)).
  - destruct (extra_crypt_outcome n2 name
                (mkWorld f2 (glob w) (stdout w) (stderr w) (found w)))
      as (w' & E & R).
    exists w'. split; [exact E | exact R].
  - destruct (IH (CInt.i32 (CInt.i32 (bl - len) - CInt.u32 fs)) n2 ht name
                (mkWorld f2 (glob w) (stdout w) (stderr w) (found w)))
      as (w' & E & R); cbn [fp]; [assumption | lia |].
    exists w'. split; [exact E | exact R].
Qed.

(** X15.  [ProcessExtra50] always ends in one of its [return 0]
    statements, within the fuel the model gives it (the [return 1] behind
    the loop is never reached), and it prints at most one record: either
    stdout and [found] are as they were, or one line was added and
    [found] went up by one. *)
Theorem ProcessExtra50_at_most_one_record
        (extra_size HeadSize HeaderType CurBlockPos : Z)
        (archive_name : string) (w : World) :
  0 <= offset (fp w) ->
  exists w',
    ProcessExtra50 extra_size HeadSize HeaderType CurBlockPos archive_name w
    = (inl (Returned 0), w')
    /\ at_most_one_record w w'.
Proof.
  intros Ho. unfold ProcessExtra50. run.
  destruct (ProcessExtra50_loop_outcome
              (S (List.length (content (fp w)))) (CInt.i32 extra_size) 0
              HeaderType archive_name w Ho) as (w' & E & R).
  { unfold left_, remaining. rewrite length_skipn. lia. }
  rewrite E. exists w'. split; [reflexivity | exact R].
Qed.

End ExtraArea.

(** The extra area that is one crypt record. *)
Lemma ProcessExtra50_at_most_one_record_witness :
  let env := Sample.host64 in
  let w := set_fp (Sample.stream Sample.crypt_record) (Sample.fresh false) in
  exists w',
    ProcessExtra50 49 0 HEAD_FILE 0 "a.rar" w = (inl (Returned 0), w')
    /\ at_most_one_record w w'.
Proof.
  intros env w.
  apply (ProcessExtra50_at_most_one_record (env := env) 49 0 HEAD_FILE 0 "a.rar" w).
  evaluated.
Defined.

(** ** Reads that follow one another on a healthy stream *)

Section ByteChains.

Context {env : Environment}.

Lemma vuint_shape_split (bs : list byte) :
  vuint_shape bs = true ->
  exists init last,
    bs = init ++ [last]
    /\ forallb continues init = true /\ continues last = false.
Proof.
  induction bs as [| b bs IH]; [discriminate |].
  destruct bs as [| b' bs].
  - cbn. intros H. exists [], b. apply negb_true_iff in H. repeat split; assumption.
  - intros H. change (continues b && vuint_shape (b' :: bs) = true) in H.
    apply andb_true_iff in H as [Hb H].
    destruct (IH H) as (init & last & E & Hi & Hl).
    exists (b :: init), last. rewrite E. cbn [app forallb]. rewrite Hb, Hi.
    repeat split; assumption.
Qed.

Lemma advanced_healthy (f f' : FILE) (n : Z) :
  healthy f -> 0 <= n -> advanced f n f' -> healthy f'.
Proof.
  intros [Hd Ho] Hn (_ & Hof & _ & Hdv). split; [congruence | lia].
Qed.

Lemma read_vuint_bytes (f : FILE) (bs rest : list byte) (br : Z) :
  healthy f ->
  remaining f = bs ++ rest ->
  vuint_shape bs = true ->
  (List.length bs <= 10)%nat ->
  exists f',
    read_vuint br f
    = ((Z.of_nat (List.length bs), CInt.u64 (vuint_value bs),
        CInt.u32 (br + Z.of_nat (List.length bs))), f')
    /\ healthy f' /\ remaining f' = rest.
Proof.
  intros Hh Hr Hs Hl.
  destruct (vuint_shape_split bs Hs) as (init & last & E & Hi & Hla).
  subst bs. rewrite length_app in *. cbn [List.length] in *.
  rewrite <- app_assoc in Hr. cbn [app] in Hr.
  destruct Hh as [Hd Ho].
  assert (Hk : (List.length init < 10)%nat) by lia.
  destruct (read_vuint_loop_decodes init 10 0 0 0 br f last rest
              Hd Ho (Z.le_refl 0) Hr Hi Hla Hk) as (f' & E' & Hadv & Hrem).
  exists f'. split; [| split; [| exact Hrem]].
  - unfold read_vuint. rewrite E'.
    rewrite u64_add_l. cbn [Z.add Z.pow Z.pow_pos Pos.iter Z.mul].
    replace (Z.of_nat (List.length init + 1)) with (Z.of_nat (S (List.length init)))
      by lia.
    repeat f_equal.
    destruct (vuint_value (init ++ [last])); reflexivity.
  - apply (advanced_healthy f f' (Z.of_nat (S (List.length init))) (conj Hd Ho));
      [lia | exact Hadv].
Qed.

Lemma read_uint8_byte (f : FILE) (b : byte) (rest : list byte) (old br : Z) :
  healthy f ->
  remaining f = b :: rest ->
  exists f',
    read_uint8 old br f = ((1, byte_val b, CInt.u32 (br + 1)), f')
    /\ healthy f' /\ remaining f' = rest.
Proof.
  intros [Hd Ho] Hr. unfold read_uint8.
  rewrite (fread_byte f b rest Hd Hr). cbn [Z.ltb Z.compare Pos.compare nth].
  eexists. split; [reflexivity |]. split.
  - split; cbn [device offset]; [reflexivity | lia].
  - apply (remaining_step f b _ _ _ _ Ho Hr).
Qed.

Lemma read_buf_bytes (f : FILE) (bs rest : list byte) (cp : list Z) (len br : Z) :
  healthy f ->
  remaining f = bs ++ rest ->
  Z.of_nat (List.length bs) = len ->
  0 < len ->
  size_t len = len ->
  exists f',
    read_buf cp len br f
    = ((len, store (map byte_val bs) cp, CInt.u32 (br + len)), f')
    /\ healthy f' /\ remaining f' = rest.
Proof.
  intros [Hd Ho] Hr Hl Hp Hsz. unfold read_buf. rewrite Hsz.
  rewrite (fread_bytes f bs rest len Hd Hr Hl Hp).
  destruct (Z.ltb_spec len 1); [lia |].
  eexists. split; [reflexivity |]. split.
  - split; cbn [device offset]; [reflexivity | lia].
  - apply (remaining_advance (content f) (offset f) len _ _ _ bs rest Ho Hr Hl).
Qed.

Lemma size_t_small (x : Z) :
  1 <= sizeof_size_t -> 0 <= x < 256 -> size_t x = x.
Proof.
  intros Hs Hx. unfold size_t, size_bits, CInt.wrap.
  apply Z.mod_small. split; [lia |].
  apply Z.lt_le_trans with (2 ^ 8); [cbn; lia |].
  apply Z.pow_le_mono_r; lia.
Qed.

Lemma firstn_store (got buf : list Z) (n : nat) :
  List.length got = n -> firstn n (store got buf) = got.
Proof.
  intros <-. unfold store. rewrite firstn_app, firstn_all, Nat.sub_diag.
  cbn [firstn]. apply app_nil_r.
Qed.

Lemma rar5_record_stored (base : string) (salt iv chk s0 i0 c0 : list Z) (lg : Z) :
  List.length salt = 16%nat -> List.length iv = 16%nat ->
  List.length chk = 12%nat ->
  rar5_record base (store salt s0) lg (store iv i0) (store chk c0)
  = rar5_record base salt lg iv chk.
Proof.
  intros H1 H2 H3. unfold rar5_record, SIZE_SALT50, SIZE_INITV, SIZE_PSWCHECK.
  assert (A : forall (n : nat) (got buf : list Z),
             List.length got = n -> firstn n (store got buf) = firstn n got).
  { intros n got buf H. rewrite firstn_store by exact H.
    symmetry. apply firstn_all2. lia. }
  change (Z.to_nat 16) with 16%nat. change (Z.to_nat 12) with 12%nat.
  rewrite (A _ salt s0 H1), (A _ iv i0 H2), (A _ chk c0 H3). reflexivity.
Qed.

Lemma rar5_record_iv (base : string) (salt iv chk i0 : list Z) (lg : Z) :
  List.length iv = 16%nat ->
  rar5_record base salt lg (store iv i0) chk = rar5_record base salt lg iv chk.
Proof.
  intros H. unfold rar5_record, SIZE_INITV.
  change (Z.to_nat 16) with 16%nat.
  rewrite firstn_store by exact H.
  rewrite (firstn_all2 (n := 16) iv) by lia. reflexivity.
Qed.

End ByteChains.

(** ** [Encrypted] across archives *)

Section LatchCarriesOver.

Context {env : Environment}.

(** X16.  [Encrypted] is never cleared, so it carries over to the
    next archive.  In a process in which it is set, [process_file5] on a
    healthy file that starts with the RAR5 magic and holds at least 16
    more bytes prints one record, whatever blocks the archive has: the
    salt, the count and the check value are the ones left in the
    globals, and the IV is the 16 bytes behind the magic.  It returns 1
    with [found] at 1 and prints nothing on stderr. *)
Theorem encrypted_latch_carries_over (fuel : nat) (fs : filesystem)
        (archive_name : string) (d : disk_file) (iv rest : list byte) (w : World) :
  1 <= sizeof_size_t ->
  Encrypted (glob w) = true ->
  fs archive_name = Some d ->
  healthy_reads d = None ->
  image d = bytes_of RAR5_MAGIC ++ iv ++ rest ->
  List.length iv = 16%nat ->
  exists f' : FILE,
    process_file5 (S fuel) fs archive_name w
    = (inr 1,
       mkWorld f' (glob w)
               (stdout w ++ [rar5_record (basename archive_name)
                                         (rar5_salt (glob w))
                                         (rar5_interations (glob w))
                                         (map byte_val iv)
                                         (PswCheck (glob w))])
               (stderr w) 1)
    /\ remaining f' = rest.
Proof.
  intros Hs He Hfs Hdv Himg Hiv.
  unfold process_file5, fopen. rewrite Hfs, Hdv. unfold RAR5_MAGIC_SIZE. run.
  rewrite (fread_first (image d) None 8) by lia.
  assert (H8 : 8 <= Z.of_nat (List.length (image d))).
  { rewrite Himg, length_app. cbn [bytes_of RAR5_MAGIC map List.length]. lia. }
  destruct (Z.leb_spec 8 (Z.of_nat (List.length (image d)))); [| lia].
  assert (Hmagic : map byte_val (firstn (Z.to_nat 8) (image d)) = RAR5_MAGIC).
  { rewrite Himg. reflexivity. }
  rewrite Hmagic. change (1 =? 1) with true. run.
  change (mem_equal RAR5_MAGIC [77; 90] 2) with false.
  change (mem_equal RAR5_MAGIC RAR5_MAGIC 8) with true. run.
  set (f1 := mkFILE (image d) 8 false None [(0, 8)]).
  assert (Hh : healthy f1) by (split; cbn; [reflexivity | lia]).
  assert (Hr : remaining f1 = iv ++ rest).
  { unfold remaining, f1. cbn [offset content]. rewrite Himg. reflexivity. }
  assert (Hsz : size_t SIZE_INITV = SIZE_INITV)
    by (apply size_t_small; [exact Hs | unfold SIZE_INITV; lia]).
  destruct (read_buf_bytes f1 iv rest (uninit SIZE_INITV) SIZE_INITV 0 Hh Hr
              ltac:(rewrite Hiv; reflexivity) ltac:(unfold SIZE_INITV; lia) Hsz)
    as (f' & Hrb & _ & Hrest).
  set (w1 := mkWorld f1 (glob w) (stdout w) (stderr w) 0).
  destruct (encrypted_header_read w1 (size_t (ftell f1)) archive_name
              SIZE_INITV (CInt.u32 (0 + SIZE_INITV))
              (store (map byte_val iv) (uninit SIZE_INITV)) f' He Hrb)
    as [Hhit _].
  assert (Hgot : 1 <= fst (fst (fread 1 (size_t SIZE_INITV) (fp w1)))).
  { rewrite Hsz. unfold w1. cbn [fp].
    rewrite (fread_bytes f1 iv rest SIZE_INITV (proj1 Hh) Hr
               ltac:(rewrite Hiv; reflexivity) ltac:(unfold SIZE_INITV; lia)).
    cbn [fst]. unfold SIZE_INITV. lia. }
  specialize (Hhit Hgot).
  exists f'. split; [| exact Hrest].
  cbn [rar5_blocks]. run. unfold call. cbn [option_map]. fold f1. fold w1.
  rewrite Hhit. run.
  cbn [Z.eqb]. run.
  change (CInt.i32 (0 + 1) =? 0) with false. run.
  unfold w1. cbn [glob stdout stderr found].
  rewrite rar5_record_iv by (rewrite length_map; exact Hiv).
  reflexivity.
Qed.

End LatchCarriesOver.

(** An archive without encryption, in a process that met a crypt header block before. *)
Lemma encrypted_latch_carries_over_witness :
  let env := Sample.host64 in
  let w := Sample.after_crypt_header in
  exists f' : FILE,
    process_file5 1 (Sample.disk Sample.plain_archive5 None) "b.rar" w
    = (inr 1,
       mkWorld f' (glob w)
               [rar5_record "b.rar" (Sample.run_of 0 16) 15
                            (firstn 16 (Sample.main_block5
                                          ++ Sample.file_block5 []
                                          ++ Sample.end_block5))
                            (repeat 0 12)]
               [] 1).
Proof.
  intros env w.
  destruct (encrypted_latch_carries_over (env := env) 0
              (Sample.disk Sample.plain_archive5 None) "b.rar"
              (mkDisk (bytes_of Sample.plain_archive5) None)
              (firstn 16 (skipn 8 (bytes_of Sample.plain_archive5)))
              (skipn 24 (bytes_of Sample.plain_archive5)) w)
    as (f' & E & _); [evaluated .. |].
  exists f'. exact E.
Defined.

(** ** The crypt record of an entry *)

Section CryptRecord.

Context {env : Environment}.

(** X17.  The crypt record of a file or service block.  On a healthy
    stream that holds a record with a size field of at most three bytes
    that the extra-area budget covers, the type 1, any version, flags
    with the password-check bit, a count below 24, and the 16 bytes of
    the salt, the 16 of the IV and the 12 of the check value,
    [ProcessExtra50] prints the record made of exactly these fields,
    stores the salt and the check value in the globals, adds one to
    [found] and returns 0 with the stream just behind the record. *)
Theorem extra_crypt_record_emitted
        (extra_size HeadSize HeaderType CurBlockPos : Z) (archive_name : string)
        (w : World) (sz ty ver fl : list byte) (lg : byte)
        (salt iv chk rest : list byte) :
  1 <= sizeof_size_t ->
  healthy (fp w) ->
  HeaderType = HEAD_FILE \/ HeaderType = HEAD_SERVICE ->
  remaining (fp w) = sz ++ ty ++ ver ++ fl ++ lg :: salt ++ iv ++ chk ++ rest ->
  vuint_shape sz = true -> (List.length sz <= 3)%nat ->
  vuint_shape ty = true -> (List.length ty <= 10)%nat ->
  CInt.u64 (vuint_value ty) = FHEXTRA_CRYPT ->
  vuint_shape ver = true -> (List.length ver <= 10)%nat ->
  vuint_shape fl = true -> (List.length fl <= 10)%nat ->
  Z.land (CInt.u64 (vuint_value fl)) FHEXTRA_CRYPT_PSWCHECK <> 0 ->
  byte_val lg < CRYPT5_KDF_LG2_COUNT_MAX ->
  List.length salt = 16%nat -> List.length iv = 16%nat ->
  List.length chk = 12%nat ->
  0 <= CInt.i32 (CInt.i32 (CInt.i32 extra_size - Z.of_nat (List.length sz))
                 - CInt.u32 (CInt.u64 (vuint_value sz))) ->
  exists f' : FILE,
    ProcessExtra50 extra_size HeadSize HeaderType CurBlockPos archive_name w
    = (inl (Returned 0),
       mkWorld f'
               (set_PswCheck (store (map byte_val chk) (PswCheck (glob w)))
                  (set_rar5_salt (store (map byte_val salt) (rar5_salt (glob w)))
                                 (glob w)))
               (stdout w ++ [rar5_record (basename archive_name)
                                         (map byte_val salt) (byte_val lg)
                                         (map byte_val iv) (map byte_val chk)])
               (stderr w) (CInt.i32 (found w + 1)))
    /\ remaining f' = rest.
Proof.
  intros Hs Hh Hht Hr Ssz Lsz Sty Lty Vty Sver Lver Sfl Lfl Vfl Hlg
         Lsalt Liv Lchk Hbudget.
  destruct (read_vuint_bytes (fp w) sz _ 0 Hh Hr Ssz ltac:(lia))
    as (f1 & R1 & Hh1 & Hr1).
  destruct (read_vuint_bytes f1 ty _ (CInt.u32 (0 + Z.of_nat (List.length sz)))
              Hh1 Hr1 Sty Lty) as (f2 & R2 & Hh2 & Hr2).
  destruct (read_vuint_bytes f2 ver _
              (CInt.u32 (CInt.u32 (0 + Z.of_nat (List.length sz))
                         + Z.of_nat (List.length ty)))
              Hh2 Hr2 Sver Lver) as (f3 & R3 & Hh3 & Hr3).
  set (n3 := CInt.u32 (_ + Z.of_nat (List.length ver))) in R3.
  destruct (read_vuint_bytes f3 fl _ n3 Hh3 Hr3 Sfl Lfl) as (f4 & R4 & Hh4 & Hr4).
  set (n4 := CInt.u32 (n3 + _)) in R4.
  destruct (read_uint8_byte f4 lg _ (nth 0 (uninit 1) 0) n4 Hh4 Hr4)
    as (f5 & R5 & Hh5 & Hr5).
  assert (Z16 : size_t 16 = 16) by (apply size_t_small; [exact Hs | lia]).
  assert (Z12 : size_t 12 = 12) by (apply size_t_small; [exact Hs | lia]).
  destruct (read_buf_bytes f5 salt _ (rar5_salt (glob w)) SIZE_SALT50
              (CInt.u32 (n4 + 1)) Hh5 Hr5 ltac:(rewrite Lsalt; reflexivity)
              ltac:(unfold SIZE_SALT50; lia) Z16) as (f6 & R6 & Hh6 & Hr6).
  destruct (read_buf_bytes f6 iv _ (uninit SIZE_INITV) SIZE_INITV
              (CInt.u32 (CInt.u32 (n4 + 1) + SIZE_SALT50)) Hh6 Hr6
              ltac:(rewrite Liv; reflexivity)
              ltac:(unfold SIZE_INITV; lia) Z16) as (f7 & R7 & Hh7 & Hr7).
  destruct (read_buf_bytes f7 chk rest (PswCheck (glob w)) SIZE_PSWCHECK
              (CInt.u32 (CInt.u32 (CInt.u32 (n4 + 1) + SIZE_SALT50) + SIZE_INITV))
              Hh7 Hr7 ltac:(rewrite Lchk; reflexivity)
              ltac:(unfold SIZE_PSWCHECK; lia) Z12) as (f8 & R8 & Hh8 & Hr8).
  exists f8. split; [| exact Hr8].
  assert (Hlen : (Z.of_nat (List.length sz) =? 0) || (3 <? Z.of_nat (List.length sz))
                 = false).
  { destruct sz; [discriminate |]. cbn [List.length] in *.
    apply orb_false_iff. split; [apply Z.eqb_neq | apply Z.ltb_ge]; lia. }
  assert (Hty : ((HeaderType =? HEAD_FILE) || (HeaderType =? HEAD_SERVICE))
                && (CInt.u64 (vuint_value ty) =? FHEXTRA_CRYPT) = true).
  { rewrite Vty, Z.eqb_refl, andb_true_r.
    destruct Hht as [-> | ->]; reflexivity. }
  assert (Hty0 : (Z.of_nat (List.length ty) =? 0) = false)
    by (destruct ty; [discriminate | reflexivity]).
  assert (Hver0 : (Z.of_nat (List.length ver) =? 0) = false)
    by (destruct ver; [discriminate | reflexivity]).
  assert (Hfl0 : (Z.of_nat (List.length fl) =? 0) = false)
    by (destruct fl; [discriminate | reflexivity]).
  apply Z.ltb_ge in Hbudget. apply Z.eqb_neq in Vfl.
  assert (Hlg' : (CRYPT5_KDF_LG2_COUNT_MAX <=? byte_val lg) = false)
    by (apply Z.leb_gt; exact Hlg).
  unfold ProcessExtra50. cbn [ProcessExtra50_loop]. run.
  rewrite R1. run. rewrite Hlen. run. rewrite Hbudget. run.
  rewrite R2. run. rewrite Hty0. run. rewrite Hty.
  unfold extra_crypt. run. rewrite R3. run. rewrite Hver0. run.
  fold n3. rewrite R4. run. rewrite Hfl0, Vfl. run.
  fold n4. rewrite R5. run. change (1 =? 0) with false. run. rewrite Hlg'. run.
  rewrite R6. run. change (SIZE_SALT50 =? 0) with false. run.
  rewrite R7. run. change (SIZE_INITV =? 0) with false. run.
  rewrite R8. run. change (SIZE_PSWCHECK =? 0) with false. run.
  rewrite rar5_record_stored by (rewrite length_map; assumption).
  reflexivity.
Qed.

End CryptRecord.

(** The crypt record of the sample archives. *)
Lemma extra_crypt_record_emitted_witness :
  let env := Sample.host64 in
  let w := set_fp (Sample.stream (Sample.crypt_record ++ [7])) (Sample.fresh false) in
  exists w' : World,
    ProcessExtra50 49 0 HEAD_FILE 0 "a.rar" w = (inl (Returned 0), w')
    /\ stdout w' = [rar5_record "a.rar" (Sample.run_of 0 16) 15
                                (Sample.run_of 16 16) (Sample.run_of 32 12)]
    /\ found w' = 1
    /\ remaining (fp w') = [x07].
Proof.
  intros env w.
  destruct (extra_crypt_record_emitted (env := env) 49 0 HEAD_FILE 0 "a.rar" w
              [x30] [x01] [x00] [x01] x0f
              (bytes_of (Sample.run_of 0 16)) (bytes_of (Sample.run_of 16 16))
              (bytes_of (Sample.run_of 32 12)) [x07])
    as (f' & E & R);
    [evaluated | evaluated | left; reflexivity | evaluated ..|].
  eexists. split; [exact E |]. cbn [stdout found fp].
  split; [reflexivity |]. split; [reflexivity | exact R].
Defined.

(** ** Entries of the -p mode *)

Section EntryRecorded.

Context {env : Environment}.

Lemma fread_item_healthy (f : FILE) (bs rest : list byte) (size : Z) :
  healthy f ->
  remaining f = bs ++ rest ->
  Z.of_nat (List.length bs) = size ->
  0 < size ->
  exists f',
    fread size 1 f = ((1, map byte_val bs), f')
    /\ healthy f' /\ remaining f' = rest /\ at_eof f' = at_eof f.
Proof.
  intros [Hd Ho] Hr Hl Hp.
  rewrite (fread_item f bs rest size Hd Hr Hl Hp).
  eexists. split; [reflexivity |]. split; [| split; [| reflexivity]].
  - split; cbn [device offset]; [reflexivity | lia].
  - apply (remaining_advance (content f) (offset f) size _ _ _ bs rest Ho Hr Hl).
Qed.

Lemma size_t_name (x : Z) :
  2 <= sizeof_size_t -> 0 <= x <= 4 * PATH_BUF_SIZE -> size_t x = x.
Proof.
  intros Hs Hx. unfold size_t, size_bits, CInt.wrap, PATH_BUF_SIZE in *.
  apply Z.mod_small. split; [lia |].
  apply Z.lt_le_trans with (2 ^ 16); [cbn; lia |].
  apply Z.pow_le_mono_r; lia.
Qed.

Lemma add_gecos_bestsize (file_name : list Z) (s : Scan) :
  bestsize (add_gecos file_name s) = bestsize s.
Proof. unfold add_gecos. destruct (_ <? _); reflexivity. Qed.

Lemma sprintf_best_fits (room : Z) (text : string) (w : World) :
  Z.of_nat (String.length text) + 1 <= room ->
  sprintf_best room text w = (inr tt, w).
Proof.
  intros H. unfold sprintf_best.
  destruct (Z.ltb_spec room (Z.of_nat (String.length text) + 1)); [lia |].
  reflexivity.
Qed.

(** One file header of the -p mode whose entry is encrypted and is not
    turned down by the selector, and whose line fits the block of
    [best]. *)
Lemma entry_recorded_step
        (archive_name base_aname : string) (s : Scan) (w : World)
        (blk : list Z) (f1 : FILE) (nm salt data rest : list byte) :
  2 <= sizeof_size_t ->
  fread 32 1 (fp w) = ((1, blk), f1) ->
  at_eof f1 = false ->
  healthy f1 ->
  remaining f1 = nm ++ salt ++ data ++ rest ->
  let B := store blk (uninit 40) in
  let flags := Z.lor (Z.shiftl (at_ B 4) 8) (at_ B 3) in
  let pack_size := size_t (le32 (skipn 7 B)) in
  let unp_size := size_t (le32 (skipn 11 B)) in
  let method_ := at_ B 25 in
  at_ B 2 = 0x74 \/ at_ B 2 = 0x7a ->
  CInt.has flags 0x8000 = true ->
  CInt.has flags 0x100 = false ->
  CInt.has flags 0x200 = false ->
  CInt.has flags 0x400 = true ->
  CInt.has flags 0x1000 = false ->
  CInt.has flags 0x10 = false ->
  Z.shiftr (Z.land flags 0xe0) 5 <> 7 ->
  CInt.has flags 0x04 = true ->
  Z.lor (Z.shiftl (at_ B 27) 8) (at_ B 26) = Z.of_nat (List.length nm) ->
  (1 <= List.length nm <= 1024)%nat ->
  List.length salt = 8%nat ->
  pack_size = Z.of_nat (List.length data) ->
  better_already (bestsize s) pack_size unp_size method_ = false ->
  let file_name :=
    put (4 * PATH_BUF_SIZE - 1) 0
        (store (map byte_val nm) (repeat 0 (Z.to_nat (4 * PATH_BUF_SIZE)))) in
  let s1 := add_gecos file_name s in
  let head := (base_aname ++ ":$RAR3$*" ++ dec 1 ++ "*"
                 ++ hex_of (map byte_val salt) ++ "*"
                 ++ hex_of (firstn 4 (skipn 16 B)) ++ "*"
                 ++ dec pack_size ++ "*" ++ dec unp_size ++ "*" ++ "1*")%string in
  let tail := ("*" ++ hex2 method_ ++ ":" ++ dec 1 ++ "::")%string in
  pack_size <= CInt.INT_MAX ->
  Z.of_nat (String.length head) + 2 * pack_size
  + Z.of_nat (String.length tail) + 1
  <= size_t (2 * LINE_BUFFER_SIZE + 2 * pack_size) ->
  exists w' : World,
    file_header 1 archive_name base_aname s w
    = (inl (goto_next_file_header
              (mkScan (mkBest pack_size unp_size method_)
                      (Some (head ++ hex_of (map byte_val data) ++ tail)%string)
                      (size_t (Z.of_nat (String.length head) + pack_size
                               + Z.of_nat (String.length tail)))
                      (gecos s1) (gecos_len s1))), w')
    /\ stdout w' = stdout w
    /\ glob w' = glob w
    /\ healthy (fp w') /\ remaining (fp w') = rest
    /\ at_eof (fp w') = false.
Proof.
  intros Hs Hrd Heof Hh1 Hr1 B flags pack_size unp_size method_
         Htag F8000 F100 F200 F400 F1000 F10 Fdir F04 Hns Lnm Lsalt Hpack Hbetter
         file_name s1 head tail Hint Hfit.
  destruct (file_header_enters_p_entry archive_name base_aname s w blk f1
              Hrd Heof Htag) as (msgs & E).
  fold B in E. fold flags in E. rewrite E. clear E.
  destruct (fread_item_healthy f1 nm _ (Z.of_nat (List.length nm)) Hh1 Hr1
              eq_refl ltac:(lia)) as (f2 & R2 & Hh2 & Hr2 & He2).
  destruct (fread_item_healthy f2 salt _ 8 Hh2 Hr2
              ltac:(rewrite Lsalt; reflexivity) ltac:(lia))
    as (f3 & R3 & Hh3 & Hr3 & He3).
  assert (Hcf : (4 * PATH_BUF_SIZE
                 <? size_t (Z.of_nat (List.length nm) * 1)) = false).
  { rewrite Z.mul_1_r, size_t_name by (unfold PATH_BUF_SIZE; lia).
    apply Z.ltb_ge. unfold PATH_BUF_SIZE. lia. }
  assert (Hsalt : firstn 8 (store (map byte_val salt) (repeat 0 8))
                  = map byte_val salt)
    by (apply firstn_store; rewrite length_map; exact Lsalt).
  apply Z.eqb_neq in Fdir.
  unfold head, tail in Hfit. rewrite !length_append in Hfit.
  cbn [String.length] in Hfit.
  unfold p_entry, check_fread, file_name_processing. run.
  rewrite F8000. run. rewrite F100. run.
  fold pack_size unp_size method_. rewrite Hns. rewrite Hcf.
  destruct (verbose (glob w)) eqn:Hv; run;
    (rewrite R2; run; change (1 =? 1) with true; run;
     rewrite F200; run; rewrite ?Hv; run; rewrite F400; run;
     rewrite R3; run; change (1 =? 1) with true; run;
     rewrite F1000; run; rewrite F10, Fdir; run; rewrite F04; run;
     fold file_name; fold s1; unfold s1 at 1; rewrite add_gecos_bestsize;
     rewrite Hbetter; run; rewrite ?Hv; run; rewrite Hsalt;
     do 3 (rewrite sprintf_best_fits
             by (rewrite !length_append; cbn [String.length]; lia);
           run);
     match goal with
     | |- context [read_packed ?n ?i pack_size ?room ?p ?acc ?w0] =>
         destruct (read_packed_exact n i pack_size room p acc w0 data rest
                     (proj1 Hh3) (proj2 Hh3) Hr3 (eq_sym Hpack)
                     ltac:(lia) ltac:(lia)
                     ltac:(rewrite !length_append; cbn [String.length]; lia))
           as (f4 & R4 & Hadv & Hr4);
         rewrite R4
     end;
     run;
     change (EmptyString ++ hex_of (map byte_val data))%string
       with (hex_of (map byte_val data));
     rewrite sprintf_best_fits
       by (rewrite !length_append, (length_hex_of (map byte_val data)),
                   length_map;
           cbn [String.length]; lia);
     run;
     eexists; split;
       [unfold head, tail; rewrite !append_assoc; reflexivity |];
     cbn [stdout glob fp];
     split; [reflexivity |]; split; [reflexivity |];
     split; [| split; [exact Hr4 |]];
     [ apply (advanced_healthy f3 f4 pack_size Hh3);
       [rewrite Hpack; lia | exact Hadv]
     | destruct Hadv as (_ & _ & Ha & _); cbn [fp] in Ha; congruence ]).
Qed.


(** X18.  An encrypted entry of the -p mode that the selector does
    not turn down becomes the candidate.  The header has the flags
    0x8000, 0x0400 and 0x04, and not 0x0100, 0x0200, 0x1000 or 0x10, and
    is not a directory; its packed size is at most [INT_MAX], and the
    line with its NUL fits the block of
    [2 * LINE_BUFFER_SIZE + 2 * file_hdr_pack_size] bytes, the sum taken
    in [size_t], that [mem_calloc] gave for [best].  With its 32 bytes
    read, and the name, the 8 bytes of the salt and the packed data on a
    healthy stream, the loop over the file headers goes on with the scan
    holding the sizes and the method of the entry and the mode-1 line
    built from its salt, CRC, sizes, data and method, and the name added
    to the GECOS text; nothing is printed yet, and the stream is just
    behind the data. *)
Theorem encrypted_entry_recorded (fuel : nat)
        (archive_name base_aname : string) (s : Scan) (w : World)
        (blk : list Z) (f1 : FILE) (nm salt data rest : list byte) :
  2 <= sizeof_size_t ->
  fread 32 1 (fp w) = ((1, blk), f1) ->
  at_eof f1 = false ->
  healthy f1 ->
  remaining f1 = nm ++ salt ++ data ++ rest ->
  let B := store blk (uninit 40) in
  let flags := Z.lor (Z.shiftl (at_ B 4) 8) (at_ B 3) in
  let pack_size := size_t (le32 (skipn 7 B)) in
  let unp_size := size_t (le32 (skipn 11 B)) in
  let method_ := at_ B 25 in
  at_ B 2 = 0x74 \/ at_ B 2 = 0x7a ->
  CInt.has flags 0x8000 = true ->
  CInt.has flags 0x100 = false ->
  CInt.has flags 0x200 = false ->
  CInt.has flags 0x400 = true ->
  CInt.has flags 0x1000 = false ->
  CInt.has flags 0x10 = false ->
  Z.shiftr (Z.land flags 0xe0) 5 <> 7 ->
  CInt.has flags 0x04 = true ->
  Z.lor (Z.shiftl (at_ B 27) 8) (at_ B 26) = Z.of_nat (List.length nm) ->
  (1 <= List.length nm <= 1024)%nat ->
  List.length salt = 8%nat ->
  pack_size = Z.of_nat (List.length data) ->
  better_already (bestsize s) pack_size unp_size method_ = false ->
  let file_name :=
    put (4 * PATH_BUF_SIZE - 1) 0
        (store (map byte_val nm) (repeat 0 (Z.to_nat (4 * PATH_BUF_SIZE)))) in
  let s1 := add_gecos file_name s in
  let head := (base_aname ++ ":$RAR3$*" ++ dec 1 ++ "*"
                 ++ hex_of (map byte_val salt) ++ "*"
                 ++ hex_of (firstn 4 (skipn 16 B)) ++ "*"
                 ++ dec pack_size ++ "*" ++ dec unp_size ++ "*" ++ "1*")%string in
  let tail := ("*" ++ hex2 method_ ++ ":" ++ dec 1 ++ "::")%string in
  pack_size <= CInt.INT_MAX ->
  Z.of_nat (String.length head) + 2 * pack_size
  + Z.of_nat (String.length tail) + 1
  <= size_t (2 * LINE_BUFFER_SIZE + 2 * pack_size) ->
  exists w' : World,
    file_headers (S fuel) 1 archive_name base_aname s w
    = file_headers fuel 1 archive_name base_aname
        (mkScan (mkBest pack_size unp_size method_)
                (Some (head ++ hex_of (map byte_val data) ++ tail)%string)
                (size_t (Z.of_nat (String.length head) + pack_size
                         + Z.of_nat (String.length tail)))
                (gecos s1) (gecos_len s1)) w'
    /\ stdout w' = stdout w
    /\ glob w' = glob w
    /\ healthy (fp w') /\ remaining (fp w') = rest.
Proof.
  intros Hs Hrd Heof Hh1 Hr1 B flags pack_size unp_size method_
         Htag F8000 F100 F200 F400 F1000 F10 Fdir F04 Hns Lnm Lsalt Hpack Hbetter
         file_name s1 head tail Hint Hfit.
  destruct (entry_recorded_step archive_name base_aname s w blk f1 nm salt data
              rest Hs Hrd Heof Hh1 Hr1 Htag F8000 F100 F200 F400 F1000 F10 Fdir
              F04 Hns Lnm Lsalt Hpack Hbetter Hint Hfit)
    as (w' & E & H1 & H2 & H3 & H4 & _).
  exists w'. split; [| split; [| split; [| split]]; assumption].
  cbn [file_headers]. rewrite E. reflexivity.
Qed.

(** The header read that hits the end of the file ends the scan at
    [BailOut]. *)
Lemma file_headers_at_eof (fuel : nat) (type : Z)
      (archive_name base_aname : string) (s : Scan) (w : World)
      (n : Z) (got : list Z) (f1 : FILE) :
  fread 32 1 (fp w) = ((n, got), f1) ->
  at_eof f1 = true ->
  exists w' : World,
    file_headers (S fuel) type archive_name base_aname s w = (inr tt, w')
    /\ stdout w' = stdout w ++ candidate_lines s.
Proof.
  intros Hrd He. cbn [file_headers]. unfold file_header. run.
  destruct (verbose (glob w)); run; rewrite Hrd; run; rewrite He; run;
    (eexists; split; [reflexivity |];
     match goal with
     | |- context [BailOut ?b ?s0 ?w0] =>
         destruct (BailOut_stdout b s0 w0) as (E1 & _); rewrite E1
     end; reflexivity).
Qed.

(** X19.  How the scan of the file headers ends at a read that does
    not give a header.  When the read of the 32 bytes sets the
    end-of-file indicator, the scan ends at [BailOut], which prints the
    candidate found so far.  When the read fails without the indicator,
    the scan ends at [err]: a message goes to stderr and the candidate is
    not printed. *)
Theorem scan_end_outcomes (fuel : nat) (type : Z)
        (archive_name base_aname : string) (s : Scan) (w : World)
        (n : Z) (got : list Z) (f1 : FILE) :
  fread 32 1 (fp w) = ((n, got), f1) ->
  (at_eof f1 = true ->
   exists w' : World,
     file_headers (S fuel) type archive_name base_aname s w = (inr tt, w')
     /\ stdout w' = stdout w ++ candidate_lines s)
  /\ (at_eof f1 = false -> n <> 1 ->
      exists w' : World,
        file_headers (S fuel) type archive_name base_aname s w = (inr tt, w')
        /\ stdout w' = stdout w
        /\ exists earlier, stderr w' = earlier ++ [D_read_failed archive_name]).
Proof.
  intros Hrd. split.
  - intros He.
    exact (file_headers_at_eof fuel type archive_name base_aname s w n got f1
             Hrd He).
  - intros He Hn. apply Z.eqb_neq in Hn.
    cbn [file_headers]. unfold file_header. run.
    destruct (verbose (glob w)); run; rewrite Hrd; run; rewrite He, Hn; run;
      (eexists; split; [reflexivity |]; split; [reflexivity |];
       eexists; reflexivity).
Qed.

End EntryRecorded.

(** The entry of the archive with one encrypted entry. *)
Lemma encrypted_entry_recorded_witness :
  let env := Sample.host64 in
  let w := Sample.at_first_header Sample.one_entry_archive in
  exists (s' : Scan) (w' : World),
    file_headers 2 1 "a.rar" "a.rar" initial_scan w
    = file_headers 1 1 "a.rar" "a.rar" s' w'
    /\ best s'
       = Some "a.rar:$RAR3$*1*0102030405060708*aabbccdd*4*5*1*01020304*30:1::"%string
    /\ bestsize s' = mkBest 4 5 0x30
    /\ stdout w' = [].
Proof.
  intros env w.
  destruct (encrypted_entry_recorded (env := env) 1 "a.rar" "a.rar" initial_scan w
              (firstn 32 (skipn 20 Sample.one_entry_archive))
              (Sample.behind_first_header Sample.one_entry_archive)
              [x61] (bytes_of (Sample.run_of 1 8)) [x01; x02; x03; x04] [])
    as (w' & E & O & _);
    [evaluated | evaluated | evaluated | evaluated | evaluated | left; evaluated
     | evaluated .. |].
  eexists. exists w'. split; [exact E |].
  split; [vm_compute; reflexivity |]. split; [vm_compute; reflexivity | exact O].
Defined.

(** Three bytes where a header should start, on a healthy and on a failing device. *)
Lemma scan_end_outcomes_witness :
  let env := Sample.host64 in
  let w := set_fp (Sample.stream [1; 2; 3]) (Sample.fresh false) in
  let v := set_fp (mkFILE [x01; x02; x03] 0 false (Some O) []) (Sample.fresh false) in
  (exists w' : World,
      file_headers 1 1 "a.rar" "a.rar" Sample.with_candidate w = (inr tt, w')
      /\ stdout w' = [("cand" ++ "g " ++ nl)%string])
  /\ (exists v' : World,
         file_headers 1 1 "a.rar" "a.rar" Sample.with_candidate v = (inr tt, v')
         /\ stdout v' = []).
Proof.
  intros env w v. split.
  - destruct (scan_end_outcomes (env := env) 0 1 "a.rar" "a.rar" Sample.with_candidate w
                0 [1; 2; 3] (mkFILE [x01; x02; x03] 3 true None [(0, 32)]))
      as [H _]; [evaluated |].
    destruct (H eq_refl) as (w' & E & O). exists w'. split; [exact E | exact O].
  - destruct (scan_end_outcomes (env := env) 0 1 "a.rar" "a.rar" Sample.with_candidate v
                0 [] (mkFILE [x01; x02; x03] 0 false (Some O) [(0, 32)]))
      as [_ H]; [evaluated |].
    destruct (H eq_refl ltac:(lia)) as (v' & E & O & _).
    exists v'. split; [exact E | exact O].
Defined.

(** ** An archive with one entry *)

Section SingleEntry.

Context {env : Environment}.



End SingleEntry.


(** ** Entries that are skipped *)

Section SkippedEntries.

Context {env : Environment}.

Lemma add_gecos_best (file_name : list Z) (s : Scan) :
  best (add_gecos file_name s) = best s
  /\ best_len (add_gecos file_name s) = best_len s.
Proof. unfold add_gecos. destruct (_ <? _); split; reflexivity. Qed.

(** X21.  Entries that are skipped leave the candidate alone.  A
    file header of the -p mode with the flag 0x8000 and without 0x0100,
    0x0200, 0x0400 and 0x1000 that is solid, a directory, not encrypted,
    or turned down by the selector only adds its name to the GECOS text:
    the candidate, its sizes and its length are as they were, nothing is
    printed, and the loop goes on behind a seek over the packed size from
    the end of the name. *)
Theorem skipped_entry_keeps_candidate (fuel : nat)
        (archive_name base_aname : string) (s : Scan) (w : World)
        (blk : list Z) (f1 : FILE) (nm rest : list byte) :
  2 <= sizeof_size_t ->
  fread 32 1 (fp w) = ((1, blk), f1) ->
  at_eof f1 = false ->
  healthy f1 ->
  remaining f1 = nm ++ rest ->
  let B := store blk (uninit 40) in
  let flags := Z.lor (Z.shiftl (at_ B 4) 8) (at_ B 3) in
  let pack_size := size_t (le32 (skipn 7 B)) in
  let unp_size := size_t (le32 (skipn 11 B)) in
  let method_ := at_ B 25 in
  at_ B 2 = 0x74 \/ at_ B 2 = 0x7a ->
  CInt.has flags 0x8000 = true ->
  CInt.has flags 0x100 = false ->
  CInt.has flags 0x200 = false ->
  CInt.has flags 0x400 = false ->
  CInt.has flags 0x1000 = false ->
  Z.lor (Z.shiftl (at_ B 27) 8) (at_ B 26) = Z.of_nat (List.length nm) ->
  (1 <= List.length nm <= 1024)%nat ->
  CInt.has flags 0x10
  || (Z.shiftr (Z.land flags 0xe0) 5 =? 7)
  || negb (CInt.has flags 0x04)
  || better_already (bestsize s) pack_size unp_size method_ = true ->
  let file_name :=
    put (4 * PATH_BUF_SIZE - 1) 0
        (store (map byte_val nm) (repeat 0 (Z.to_nat (4 * PATH_BUF_SIZE)))) in
  let s1 := add_gecos file_name s in
  exists (w' : World) (f2 : FILE),
    file_headers (S fuel) 1 archive_name base_aname s w
    = file_headers fuel 1 archive_name base_aname s1 w'
    /\ bestsize s1 = bestsize s /\ best s1 = best s /\ best_len s1 = best_len s
    /\ stdout w' = stdout w
    /\ glob w' = glob w
    /\ remaining f2 = rest
    /\ fp w' = fseek (CInt.i64 pack_size) SEEK_CUR f2.
Proof.
  intros Hs Hrd Heof Hh1 Hr1 B flags pack_size unp_size method_
         Htag F8000 F100 F200 F400 F1000 Hns Lnm Hskip file_name s1.
  destruct (file_header_enters_p_entry archive_name base_aname s w blk f1
              Hrd Heof Htag) as (msgs & E).
  fold B in E. fold flags in E.
  destruct (fread_item_healthy f1 nm _ (Z.of_nat (List.length nm)) Hh1 Hr1
              eq_refl ltac:(lia)) as (f2 & R2 & Hh2 & Hr2 & He2).
  assert (Hcf : (4 * PATH_BUF_SIZE
                 <? size_t (Z.of_nat (List.length nm) * 1)) = false).
  { rewrite Z.mul_1_r, size_t_name by (unfold PATH_BUF_SIZE; lia).
    apply Z.ltb_ge. unfold PATH_BUF_SIZE. lia. }
  destruct (add_gecos_best file_name s) as [Hb1 Hb2].
  pose proof (add_gecos_bestsize file_name s) as Hb0.
  assert (Hstep : exists w' : World,
             file_header 1 archive_name base_aname s w
             = (inl (goto_next_file_header s1), w')
             /\ stdout w' = stdout w /\ glob w' = glob w
             /\ fp w' = fseek (CInt.i64 pack_size) SEEK_CUR f2).
  { rewrite E. clear E.
    unfold p_entry, check_fread, file_name_processing, skip_entry. run.
    rewrite F8000. run. rewrite F100. run.
    fold pack_size unp_size method_. rewrite Hns. rewrite Hcf.
    destruct (verbose (glob w)) eqn:Hv; run;
      (rewrite R2; run; change (1 =? 1) with true; run;
       rewrite F200; run; rewrite ?Hv; run; rewrite F400; run;
       rewrite F1000; run;
       fold file_name; fold s1;
       destruct (CInt.has flags 16); run;
       [eexists; repeat split; reflexivity |];
       destruct (Z.shiftr (Z.land flags 224) 5 =? 7); run; rewrite ?Hv; run;
       [eexists; repeat split; reflexivity |];
       destruct (CInt.has flags 4); run;
       [| eexists; repeat split; reflexivity];
       unfold s1 at 1; rewrite Hb0;
       cbn [orb negb] in Hskip; rewrite Hskip; run; rewrite ?Hv; run;
       eexists; repeat split; reflexivity). }
  destruct Hstep as (w' & E' & O & G & F).
  exists w', f2. cbn [file_headers]. rewrite E'.
  repeat split; assumption.
Qed.

End SkippedEntries.

(** An entry that is not encrypted, behind a candidate. *)
Lemma skipped_entry_keeps_candidate_witness :
  let env := Sample.host64 in
  let w := Sample.at_first_header Sample.plain_entry_archive in
  exists (s' : Scan) (w' : World),
    file_headers 2 1 "a.rar" "a.rar" Sample.with_candidate w
    = file_headers 1 1 "a.rar" "a.rar" s' w'
    /\ best s' = Some "cand"%string
    /\ gecos s' = "g a "%string
    /\ stdout w' = [].
Proof.
  intros env w.
  destruct (skipped_entry_keeps_candidate (env := env) 1 "a.rar" "a.rar"
              Sample.with_candidate w
              (firstn 32 (skipn 20 Sample.plain_entry_archive))
              (Sample.behind_first_header Sample.plain_entry_archive)
              [x61] [x01; x02; x03; x04])
    as (w' & f2 & E & _ & B & _ & O & _);
    [evaluated | evaluated | evaluated | evaluated | evaluated | left; evaluated
     | evaluated .. |].
  eexists. exists w'. split; [exact E |].
  split; [exact B |]. split; [vm_compute; reflexivity | exact O].
Defined.

(** ** Blocks of RAR5 that are passed over *)

Section OtherBlocks.

Context {env : Environment}.

(** X22.  A RAR5 block of a type that is not known, with a data
    area and no extra area, is skipped: the loop over the blocks goes on
    at the position of the block plus the size of its header (the size
    field, the four bytes of the CRC and the bytes of the size field
    itself) plus the size of its data, as a [size_t]; when that position
    is 0 the loop ends instead. *)
Theorem unknown_block_skipped (fuel : nat) (archive_name : string) (w : World)
        (r0 crc n0 r1 block_size n1 r2 header_type n2 r3 flags n3
         r4 data_size n4 : Z) (f0 f1 f2 f3 f4 : FILE) :
  Encrypted (glob w) = false ->
  read_uint32 0 (fp w) = ((r0, crc, n0), f0) -> r0 <> 0 ->
  read_vuint n0 f0 = ((r1, block_size, n1), f1) -> r1 <> 0 ->
  read_uint8 (nth 0 (uninit 1) 0) n1 f1 = ((r2, header_type, n2), f2) -> r2 <> 0 ->
  read_vuint n2 f2 = ((r3, flags, n3), f3) -> r3 <> 0 ->
  CInt.has flags HFL_EXTRA = false ->
  CInt.has flags HFL_DATA = true ->
  read_vuint n3 f3 = ((r4, data_size, n4), f4) -> r4 <> 0 ->
  header_type < HEAD_MAIN \/ HEAD_ENDARC < header_type ->
  let HeadSize := CInt.u64 (block_size + 4 + CInt.u32 r1) in
  let next := size_t (CInt.u64 (size_t (offset (fp w)) + HeadSize + data_size)) in
  rar5_blocks (S fuel) archive_name w
  = if next =? 0
    then (inr tt, mkWorld f4 (glob w) (stdout w) (stderr w) (found w))
    else rar5_blocks fuel archive_name
           (mkWorld (fseek (CInt.i64 next) SEEK_SET f4) (glob w) (stdout w)
                    (stderr w) (found w)).
Proof.
  intros He H0 Hr0 H1 Hr1 H2 Hr2 H3 Hr3 Fx Fd H4 Hr4 Hty HeadSize next.
  apply Z.eqb_neq in Hr0, Hr1, Hr2, Hr3, Hr4.
  assert (T : (header_type =? HEAD_CRYPT) = false
              /\ (header_type =? HEAD_MAIN) = false
              /\ (header_type =? HEAD_FILE) = false
              /\ (header_type =? HEAD_SERVICE) = false
              /\ (header_type =? HEAD_ENDARC) = false).
  { unfold HEAD_CRYPT, HEAD_MAIN, HEAD_FILE, HEAD_SERVICE, HEAD_ENDARC in *.
    repeat split; apply Z.eqb_neq; lia. }
  destruct T as (T4 & T1 & T2 & T3 & T5).
  cbn [rar5_blocks]. unfold call, read_rar5_header, ftell. run.
  rewrite He. run. rewrite H0. run. rewrite Hr0. run.
  rewrite H1. run. rewrite Hr1. run. rewrite H2. run. rewrite Hr2. run.
  rewrite H3. run. rewrite Hr3. run. rewrite Fx. run. rewrite Fd. run.
  rewrite H4. run. rewrite Hr4. run.
  rewrite T4, T1, T2, T3, T5. run.
  fold HeadSize. fold next.
  destruct (next =? 0); reflexivity.
Qed.

End OtherBlocks.

(** A block of type 9 with five bytes of data. *)
Lemma unknown_block_skipped_witness :
  let env := Sample.host64 in
  let c := bytes_of Sample.unknown_block5 in
  let w := set_fp (Sample.stream Sample.unknown_block5) (Sample.fresh false) in
  rar5_blocks 1 "a.rar" w
  = rar5_blocks 0 "a.rar"
      (set_fp (mkFILE c 13 false None [(0, 4); (4, 1); (5, 1); (6, 1); (7, 1)]) w).
Proof.
  intros env c w.
  exact (unknown_block_skipped (env := env) 0 "a.rar" w
           4 0 4 1 3 5 1 9 6 1 2 7 1 5 8
           (mkFILE c 4 false None [(0, 4)])
           (mkFILE c 5 false None [(0, 4); (4, 1)])
           (mkFILE c 6 false None [(0, 4); (4, 1); (5, 1)])
           (mkFILE c 7 false None [(0, 4); (4, 1); (5, 1); (6, 1)])
           (mkFILE c 8 false None [(0, 4); (4, 1); (5, 1); (6, 1); (7, 1)])
           eq_refl eq_refl ltac:(lia) eq_refl ltac:(lia) eq_refl ltac:(lia)
           eq_refl ltac:(lia) eq_refl eq_refl eq_refl ltac:(lia)
           ltac:(right; vm_compute; reflexivity)).
Defined.

(** ** File blocks of RAR5 *)

Section FileBlocks.

Context {env : Environment}.

Lemma fseek_offset_nonneg (off : Z) (wh : whence) (f : FILE) :
  0 <= offset f -> 0 <= offset (fseek off wh f).
Proof.
  intros H. unfold fseek.
  destruct ((_ <? 0) || _) eqn:E; cbn [offset]; [exact H |].
  apply orb_false_iff in E as [E _]. apply Z.ltb_ge in E. exact E.
Qed.

(** X23.  A RAR5 file or service block with an extra area and a
    data area, whose fields can be read: [read_rar5_header] skips the
    name, lets [ProcessExtra50] go over the extra area, and returns the
    position of the next block, which does not depend on what the extra
    area holds; at most one record is printed on the way. *)
Theorem file_block_outcome (CurBlockPos : Z) (archive_name : string) (w : World)
        (r0 crc n0 r1 block_size n1 r2 header_type n2 r3 flags n3
         r4 extra_size n4 r5 data_size n5
         r6 FileFlags n6 r7 UnpSize n7 r8 FileAttr n8
         r9 CompInfo n9 r10 HostOS n10 r11 NameSize n11 : Z)
        (f0 f1 f2 f3 f4 f5 f6 f7 f8 f9 f10 f11 : FILE) :
  Encrypted (glob w) = false ->
  read_uint32 0 (fp w) = ((r0, crc, n0), f0) -> r0 <> 0 ->
  read_vuint n0 f0 = ((r1, block_size, n1), f1) -> r1 <> 0 ->
  read_uint8 (nth 0 (uninit 1) 0) n1 f1 = ((r2, header_type, n2), f2) -> r2 <> 0 ->
  header_type = HEAD_FILE \/ header_type = HEAD_SERVICE ->
  read_vuint n2 f2 = ((r3, flags, n3), f3) -> r3 <> 0 ->
  CInt.has flags HFL_EXTRA = true ->
  read_vuint n3 f3 = ((r4, extra_size, n4), f4) -> r4 <> 0 ->
  extra_size <> 0 ->
  CInt.has flags HFL_DATA = true ->
  read_vuint n4 f4 = ((r5, data_size, n5), f5) -> r5 <> 0 ->
  read_vuint n5 f5 = ((r6, FileFlags, n6), f6) -> r6 <> 0 ->
  CInt.has FileFlags FHFL_UTIME = false ->
  CInt.has FileFlags FHFL_CRC32 = false ->
  read_vuint n6 f6 = ((r7, UnpSize, n7), f7) -> r7 <> 0 ->
  read_vuint n7 f7 = ((r8, FileAttr, n8), f8) -> r8 <> 0 ->
  read_vuint n8 f8 = ((r9, CompInfo, n9), f9) -> r9 <> 0 ->
  read_vuint n9 f9 = ((r10, HostOS, n10), f10) -> r10 <> 0 ->
  read_vuint n10 f10 = ((r11, NameSize, n11), f11) -> r11 <> 0 ->
  0 <= offset f11 ->
  let HeadSize := CInt.u64 (block_size + 4 + CInt.u32 r1) in
  let behind_name :=
    mkWorld (fseek (CInt.i64 NameSize) SEEK_CUR f11) (glob w) (stdout w)
            (stderr w) (found w) in
  exists w' : World,
    read_rar5_header CurBlockPos archive_name w
    = (inr (size_t (CInt.u64 (CurBlockPos + HeadSize + data_size))), w')
    /\ at_most_one_record w w'
    /\ snd (ProcessExtra50 extra_size HeadSize header_type CurBlockPos
                           archive_name behind_name) = w'.
Proof.
  intros He H0 Hr0 H1 Hr1 H2 Hr2 Hty H3 Hr3 Fx H4 Hr4 Hx Fd H5 Hr5
         H6 Hr6 Fu Fc H7 Hr7 H8 Hr8 H9 Hr9 H10 Hr10 H11 Hr11 Ho
         HeadSize behind_name.
  apply Z.eqb_neq in Hr0, Hr1, Hr2, Hr3, Hr4, Hr5, Hr6, Hr7, Hr8, Hr9, Hr10,
                     Hr11, Hx.
  assert (T : (header_type =? HEAD_CRYPT) = false
              /\ (header_type =? HEAD_MAIN) = false
              /\ (header_type =? HEAD_FILE) || (header_type =? HEAD_SERVICE) = true).
  { destruct Hty as [-> | ->]; repeat split; reflexivity. }
  destruct T as (T4 & T1 & T2).
  destruct (ProcessExtra50_loop_outcome
              (S (List.length (content (fp behind_name)))) (CInt.i32 extra_size) 0
              header_type archive_name behind_name) as (w' & E & R).
  { unfold behind_name. cbn [fp]. apply fseek_offset_nonneg, Ho. }
  { unfold left_, remaining. rewrite length_skipn. lia. }
  exists w'. split; [| split; [exact R |]].
  - unfold read_rar5_header, file_block. run.
    rewrite He. run. rewrite H0. run. rewrite Hr0. run.
    rewrite H1. run. rewrite Hr1. run. rewrite H2. run. rewrite Hr2. run.
    rewrite H3. run. rewrite Hr3. run. rewrite Fx. run.
    rewrite H4. run. rewrite Hr4. run. rewrite Fd. run.
    rewrite H5. run. rewrite Hr5. run.
    rewrite T4, T1, T2. run.
    rewrite H6. run. rewrite Hr6. run.
    rewrite H7. run. rewrite Hr7. run.
    rewrite H8. run. rewrite Hr8. run.
    rewrite Fu, Fc. run.
    rewrite H9. run. rewrite Hr9. run.
    rewrite H10. run. rewrite Hr10. run.
    rewrite H11. run. rewrite Hr11. run.
    rewrite Hx. run.
    unfold ProcessExtra50. run.
    match goal with
    | |- context [ProcessExtra50_loop ?a ?b ?c ?d ?e ?w0] =>
        change (ProcessExtra50_loop a b c d e w0)
          with (ProcessExtra50_loop (S (List.length (content (fp behind_name))))
                                    (CInt.i32 extra_size) 0 header_type
                                    archive_name behind_name)
    end.
    rewrite E. run. reflexivity.
  - unfold ProcessExtra50. run.
    match goal with
    | |- context [ProcessExtra50_loop ?a ?b ?c ?d ?e ?w0] =>
        change (ProcessExtra50_loop a b c d e w0)
          with (ProcessExtra50_loop (S (List.length (content (fp behind_name))))
                                    (CInt.i32 extra_size) 0 header_type
                                    archive_name behind_name)
    end.
    rewrite E. reflexivity.
Qed.

End FileBlocks.

(** A file block with the crypt record and two bytes of data. *)
Lemma file_block_outcome_witness :
  let env := Sample.host64 in
  let w := set_fp (Sample.stream Sample.file_block_with_data) (Sample.fresh false) in
  exists w' : World,
    read_rar5_header 0 "a.rar" w = (inr 67, w')
    /\ at_most_one_record w w'.
Proof.
  intros env w.
  pose (f := Sample.read_up_to Sample.file_block_with_data).
  destruct (file_block_outcome (env := env) 0 "a.rar" w
              4 0 4 1 60 5 1 2 6 1 3 7 1 49 8 1 2 9
              1 0 10 1 0 11 1 0 12 1 0 13 1 0 14 1 1 15
              (f 4%nat) (f 5%nat) (f 6%nat) (f 7%nat) (f 8%nat) (f 9%nat)
              (f 10%nat) (f 11%nat) (f 12%nat) (f 13%nat) (f 14%nat) (f 15%nat))
    as (w' & E & R & _);
    [ evaluated | evaluated | evaluated | evaluated | evaluated | evaluated
    | evaluated | left; reflexivity | evaluated .. |].
  exists w'. split; [exact E | exact R].
Defined.

(** ** A crypt header block and the header read behind it *)

Section CryptHeaderBlock.

Context {env : Environment}.

Lemma read_buf_result (cp : list Z) (len br : Z) (f f' : FILE) (r n : Z)
      (v : list Z) :
  read_buf cp len br f = ((r, v, n), f') -> r = 0 \/ r = len.
Proof.
  unfold read_buf. destruct (fread 1 (size_t len) f) as [[k got] f''].
  destruct (k <? 1); intros H; inversion H; auto.
Qed.

(** The header read at a crypt header block whose fields can be read:
    it gives the position of the next block and has set [Encrypted]. *)
Lemma crypt_header_block_read
      (pos : Z) (name : string) (w : World)
      (r0 crc n0 r1 block_size n1 r2 n2 r3 flags n3 r4 extra_size n4
       r5 data_size n5 r6 ver n6 r7 enc_flags n7 r8 lg n8 r9 n9
       r10 n10 r11 n11 : Z)
      (salt check chksum : list Z)
      (f0 f1 f2 f3 f4 f5 f6 f7 f8 f9 f10 f11 : FILE) :
  Encrypted (glob w) = false ->
  read_uint32 0 (fp w) = ((r0, crc, n0), f0) -> r0 <> 0 ->
  read_vuint n0 f0 = ((r1, block_size, n1), f1) -> r1 <> 0 ->
  read_uint8 (nth 0 (uninit 1) 0) n1 f1 = ((r2, HEAD_CRYPT, n2), f2) ->
  r2 <> 0 ->
  read_vuint n2 f2 = ((r3, flags, n3), f3) -> r3 <> 0 ->
  (if CInt.has flags HFL_EXTRA then read_vuint n3 f3 else ((1, 0, n3), f3))
  = ((r4, extra_size, n4), f4) -> r4 <> 0 ->
  (if CInt.has flags HFL_DATA then read_vuint n4 f4 else ((1, 0, n4), f4))
  = ((r5, data_size, n5), f5) -> r5 <> 0 ->
  read_vuint n5 f5 = ((r6, ver, n6), f6) -> r6 <> 0 ->
  ver <= CRYPT_VERSION ->
  read_vuint n6 f6 = ((r7, enc_flags, n7), f7) -> r7 <> 0 ->
  read_uint8 (nth 0 (uninit 1) 0) n7 f7 = ((r8, lg, n8), f8) -> r8 <> 0 ->
  lg <= CRYPT5_KDF_LG2_COUNT_MAX ->
  read_buf (rar5_salt (glob w)) SIZE_SALT50 n8 f8 = ((r9, salt, n9), f9) ->
  r9 <> 0 ->
  (if CInt.has enc_flags CHFL_CRYPT_PSWCHECK
   then read_buf (PswCheck (glob w)) SIZE_PSWCHECK n9 f9
   else ((1, PswCheck (glob w), n9), f9))
  = ((r10, check, n10), f10) -> r10 <> 0 ->
  (if CInt.has enc_flags CHFL_CRYPT_PSWCHECK
   then read_buf (uninit SIZE_PSWCHECK_CSUM) SIZE_PSWCHECK_CSUM n10 f10
   else ((1, [], n10), f10))
  = ((r11, chksum, n11), f11) -> r11 <> 0 ->
  read_rar5_header pos name w
  = (inr (size_t (CInt.u64 (pos + CInt.u64 (block_size + 4 + CInt.u32 r1)
                            + data_size))),
     mkWorld f11
             (mkGlobals (verbose (glob w)) true check lg
                        (if CInt.has enc_flags CHFL_CRYPT_PSWCHECK
                         then mem_equal
                                (SHA256 (firstn (Z.to_nat SIZE_PSWCHECK) check))
                                chksum SIZE_PSWCHECK_CSUM
                         else false)
                        salt)
             (stdout w) (stderr w) (found w)).
Proof.
  intros He H0 Hr0 H1 Hr1 H2 Hr2 H3 Hr3 Hx Hr4 Hd Hr5 H6 Hr6 Hver H7 Hr7
         H8 Hr8 Hlg H9 Hr9 H10 Hr10 H11 Hr11.
  set (w5 := mkWorld f5 (glob w) (stdout w) (stderr w) (found w)).
  assert (Hc : crypt_block n5 w5
               = (inr tt,
                  mkWorld f11
                    (mkGlobals (verbose (glob w)) true check lg
                       (if CInt.has enc_flags CHFL_CRYPT_PSWCHECK
                        then mem_equal
                               (SHA256 (firstn (Z.to_nat SIZE_PSWCHECK) check))
                               chksum SIZE_PSWCHECK_CSUM
                        else false)
                       salt)
                    (stdout w) (stderr w) (found w))).
  { destruct (CInt.has enc_flags CHFL_CRYPT_PSWCHECK) eqn:Fp.
    - exact (crypt_block_with_pswcheck w5 n5 r6 ver n6 r7 enc_flags n7 r8 lg n8
               r9 n9 r10 n10 r11 n11 salt check chksum f6 f7 f8 f9 f10 f11
               H6 Hr6 Hver H7 Hr7 Fp H8 Hr8 Hlg H9 Hr9 H10 Hr10 H11 Hr11).
    - injection H10 as _ <- <- <-. injection H11 as _ _ _ <-.
      exact (crypt_block_without_pswcheck w5 n5 r6 ver n6 r7 enc_flags n7 r8
               lg n8 r9 n9 salt f6 f7 f8 f9
               H6 Hr6 Hver H7 Hr7 Fp H8 Hr8 Hlg H9 Hr9). }
  apply Z.eqb_neq in Hr0, Hr1, Hr2, Hr3, Hr4, Hr5.
  unfold read_rar5_header. run. rewrite He. run. rewrite H0. run.
  rewrite Hr0. run. rewrite H1. run. rewrite Hr1. run.
  rewrite H2. run. rewrite Hr2. run. rewrite H3. run. rewrite Hr3. run.
  destruct (CInt.has flags HFL_EXTRA);
    [ run; rewrite Hx; run; rewrite Hr4; run
    | injection Hx as _ _ <- <-; run ];
    (destruct (CInt.has flags HFL_DATA);
     [ run; rewrite Hd; run; rewrite Hr5; run
     | injection Hd as _ <- <- <-; run ];
     change (HEAD_CRYPT =? HEAD_CRYPT) with true;
     cbv beta iota; fold w5; rewrite Hc; run;
     rewrite ?Z.add_0_r; reflexivity).
Qed.

(** The header read once [Encrypted] is set, by what the read of the IV
    returns. *)
Lemma encrypted_header_outcome (pos : Z) (name : string) (w : World)
      (r n : Z) (iv : list Z) (f' : FILE) :
  Encrypted (glob w) = true ->
  read_buf (uninit SIZE_INITV) SIZE_INITV 0 (fp w) = ((r, iv, n), f') ->
  (r <> 0 ->
   read_rar5_header pos name w
   = (inl (Returned 0),
      mkWorld f' (glob w)
              (stdout w ++ [rar5_record (basename name) (rar5_salt (glob w))
                                        (rar5_interations (glob w)) iv
                                        (PswCheck (glob w))])
              (stderr w) (CInt.i32 (found w + 1))))
  /\ (r = 0 ->
      read_rar5_header pos name w
      = (inl (Returned 0),
         mkWorld f' (glob w) (stdout w) (stderr w ++ [D_iv_short name])
                 (found w))).
Proof.
  intros He Hrd.
  destruct (read_buf_result _ _ _ _ _ _ _ _ Hrd) as [-> | ->];
    (split; intros Hr; [| try (exfalso; unfold SIZE_INITV in Hr; lia)];
     try (exfalso; lia);
     unfold read_rar5_header; run; rewrite He; run; rewrite Hrd; run;
     reflexivity).
Qed.

(** The loop over the blocks at a header that sets [Encrypted] and gives
    a next position: the header read at that position ends it. *)
Lemma blocks_end_behind_latch (fuel : nat) (name : string) (w w1 : World)
      (next r n : Z) (iv : list Z) (f' : FILE) :
  read_rar5_header (size_t (ftell (fp w))) name w = (inr next, w1) ->
  next <> 0 ->
  Encrypted (glob w1) = true ->
  read_buf (uninit SIZE_INITV) SIZE_INITV 0
           (fseek (CInt.i64 next) SEEK_SET (fp w1)) = ((r, iv, n), f') ->
  (r <> 0 ->
   rar5_blocks (S (S fuel)) name w
   = (inr tt,
      mkWorld f' (glob w1)
              (stdout w1 ++ [rar5_record (basename name) (rar5_salt (glob w1))
                                         (rar5_interations (glob w1)) iv
                                         (PswCheck (glob w1))])
              (stderr w1) (CInt.i32 (found w1 + 1))))
  /\ (r = 0 ->
      rar5_blocks (S (S fuel)) name w
      = (inr tt,
         mkWorld f' (glob w1) (stdout w1) (stderr w1 ++ [D_iv_short name])
                 (found w1))).
Proof.
  intros Hh Hn He Hrd. apply Z.eqb_neq in Hn.
  set (w2 := mkWorld (fseek (CInt.i64 next) SEEK_SET (fp w1)) (glob w1)
                     (stdout w1) (stderr w1) (found w1)).
  pose proof (fun pos => encrypted_header_outcome pos name w2 r n iv f' He Hrd)
    as Hout.
  split; intros Hr;
    cbn [rar5_blocks]; unfold call; run; rewrite Hh; run; rewrite Hn; run;
    fold w2;
    [ rewrite (proj1 (Hout _) Hr) | rewrite (proj2 (Hout _) Hr) ];
    run; reflexivity.
Qed.

(** A run of bytes read from a healthy stream. *)
Lemma fread_run (f : FILE) (bs rest : list byte) (n : Z) :
  healthy f ->
  remaining f = bs ++ rest ->
  Z.of_nat (List.length bs) = n ->
  0 < n ->
  exists f',
    fread 1 n f = ((n, map byte_val bs), f')
    /\ healthy f' /\ remaining f' = rest /\ offset f' = offset f + n.
Proof.
  intros [Hd Ho] Hr Hl Hp.
  rewrite (fread_bytes f bs rest n Hd Hr Hl Hp).
  eexists. split; [reflexivity |]. split; [| split; [| reflexivity]].
  - split; cbn [device offset]; [reflexivity | lia].
  - apply (remaining_advance (content f) (offset f) n _ _ _ bs rest Ho Hr Hl).
Qed.

Lemma read_uint32_run (f : FILE) (bs rest : list byte) (br : Z) :
  healthy f ->
  remaining f = bs ++ rest ->
  List.length bs = 4%nat ->
  exists f',
    read_uint32 br f = ((4, le32 (map byte_val bs), CInt.u32 (br + 4)), f')
    /\ healthy f' /\ remaining f' = rest /\ offset f' = offset f + 4.
Proof.
  intros Hh Hr Hl.
  destruct (fread_run f bs rest 4 Hh Hr ltac:(rewrite Hl; reflexivity)
              ltac:(lia)) as (f' & E & H).
  exists f'. split; [| exact H]. unfold read_uint32. rewrite E. reflexivity.
Qed.

Lemma read_uint8_run (f : FILE) (b : byte) (rest : list byte) (old br : Z) :
  healthy f ->
  remaining f = b :: rest ->
  exists f',
    read_uint8 old br f = ((1, byte_val b, CInt.u32 (br + 1)), f')
    /\ healthy f' /\ remaining f' = rest /\ offset f' = offset f + 1.
Proof.
  intros Hh Hr.
  destruct (fread_run f [b] rest 1 Hh Hr eq_refl ltac:(lia)) as (f' & E & H).
  exists f'. split; [| exact H]. unfold read_uint8. rewrite E. reflexivity.
Qed.

(** A variable-length integer of one byte below 128 is that byte. *)
Lemma small_byte (b : byte) :
  byte_val b < 128 ->
  continues b = false
  /\ CInt.u64 (CInt.u64 0 + 2 ^ 0 * vuint_value ([] ++ [b])) = byte_val b.
Proof.
  intros H.
  destruct b; try (vm_compute in H; discriminate H); split; reflexivity.
Qed.

Lemma read_vuint_run (f : FILE) (b : byte) (rest : list byte) (br : Z) :
  healthy f ->
  remaining f = b :: rest ->
  byte_val b < 128 ->
  exists f',
    read_vuint br f = ((1, byte_val b, CInt.u32 (br + 1)), f')
    /\ healthy f' /\ remaining f' = rest /\ offset f' = offset f + 1.
Proof.
  intros Hh Hr Hb. destruct (small_byte b Hb) as [Hc Hv].
  destruct (read_vuint_loop_decodes [] 10 0 0 0 br f b rest (proj1 Hh)
              (proj2 Hh) (Z.le_refl 0) Hr eq_refl Hc ltac:(cbn; lia))
    as (f' & E & Hadv & Hrem).
  exists f'. split; [| split; [| split; [exact Hrem |]]].
  - unfold read_vuint. rewrite E, Hv. reflexivity.
  - apply (advanced_healthy f f' 1 Hh ltac:(lia) Hadv).
  - destruct Hadv as (_ & Ho & _). exact Ho.
Qed.

Lemma read_buf_run (f : FILE) (bs rest : list byte) (cp : list Z) (len br : Z) :
  healthy f ->
  remaining f = bs ++ rest ->
  Z.of_nat (List.length bs) = len ->
  0 < len ->
  size_t len = len ->
  exists f',
    read_buf cp len br f
    = ((len, store (map byte_val bs) cp, CInt.u32 (br + len)), f')
    /\ healthy f' /\ remaining f' = rest /\ offset f' = offset f + len.
Proof.
  intros Hh Hr Hl Hp Hsz.
  destruct (fread_run f bs rest len Hh Hr Hl Hp) as (f' & E & H).
  exists f'. split; [| exact H]. unfold read_buf. rewrite Hsz, E.
  destruct (Z.ltb_spec len 1); [lia | reflexivity].
Qed.

(** An archive that is the magic and one crypt header block without
    the password-check flag, with one-byte fields, and the IV behind it. *)
Lemma crypt_header_archive5 (fuel : nat) (fs : filesystem) (name : string)
      (d : disk_file) (crc salt iv rest : list byte) (ver encf lg : byte)
      (w : World) :
  1 <= sizeof_size_t ->
  Encrypted (glob w) = false ->
  fs name = Some d ->
  healthy_reads d = None ->
  image d = bytes_of RAR5_MAGIC ++ crc ++ [x15; x04; x00; ver; encf; lg]
              ++ salt ++ iv ++ rest ->
  List.length crc = 4%nat ->
  byte_val ver < 128 ->
  byte_val ver <= CRYPT_VERSION ->
  byte_val encf < 128 ->
  CInt.has (byte_val encf) CHFL_CRYPT_PSWCHECK = false ->
  byte_val lg <= CRYPT5_KDF_LG2_COUNT_MAX ->
  List.length salt = 16%nat ->
  List.length iv = 16%nat ->
  exists f' : FILE,
    process_file5 (S (S fuel)) fs name w
    = (inr 1,
       mkWorld f'
               (mkGlobals (verbose (glob w)) true (PswCheck (glob w))
                          (byte_val lg) false
                          (store (map byte_val salt) (rar5_salt (glob w))))
               (stdout w ++ [rar5_record (basename name) (map byte_val salt)
                                         (byte_val lg) (map byte_val iv)
                                         (PswCheck (glob w))])
               (stderr w) 1).
Proof.
  intros Hs He Hfs Hdv Himg Lcrc Hver Hverle Henc Hflag Hlg Lsalt Liv.
  unfold process_file5, fopen. rewrite Hfs, Hdv. unfold RAR5_MAGIC_SIZE. run.
  rewrite (fread_first (image d) None 8) by lia.
  assert (H8 : 8 <= Z.of_nat (List.length (image d))).
  { rewrite Himg, length_app. cbn [bytes_of RAR5_MAGIC map List.length]. lia. }
  destruct (Z.leb_spec 8 (Z.of_nat (List.length (image d)))); [| lia].
  assert (Hmagic : map byte_val (firstn (Z.to_nat 8) (image d)) = RAR5_MAGIC).
  { rewrite Himg. reflexivity. }
  rewrite Hmagic. change (1 =? 1) with true. run.
  change (mem_equal RAR5_MAGIC [77; 90] 2) with false.
  change (mem_equal RAR5_MAGIC RAR5_MAGIC 8) with true. run.
  cbn [option_map].
  set (f1 := mkFILE (image d) 8 false None [(0, 8)]).
  set (w1 := mkWorld f1 (glob w) (stdout w) (stderr w) 0).
  assert (Hh1 : healthy f1) by (split; cbn; [reflexivity | lia]).
  assert (Hr1 : remaining f1
                = crc ++ [x15; x04; x00; ver; encf; lg] ++ salt ++ iv ++ rest).
  { unfold remaining, f1. cbn [offset content]. rewrite Himg. reflexivity. }
  assert (Z16 : size_t 16 = 16) by (apply size_t_small; [exact Hs | lia]).
  destruct (read_uint32_run f1 crc _ 0 Hh1 Hr1 Lcrc)
    as (f2 & R2 & Hh2 & Hr2 & Ho2).
  cbn [app] in Hr2.
  destruct (read_vuint_run f2 x15 _ (CInt.u32 (0 + 4)) Hh2 Hr2
              ltac:(vm_compute; reflexivity)) as (f3 & R3 & Hh3 & Hr3 & Ho3).
  destruct (read_uint8_run f3 x04 _ (nth 0 (uninit 1) 0)
              (CInt.u32 (CInt.u32 (0 + 4) + 1)) Hh3 Hr3)
    as (f4 & R4 & Hh4 & Hr4 & Ho4).
  set (n4 := CInt.u32 (CInt.u32 (CInt.u32 (0 + 4) + 1) + 1)) in R4.
  destruct (read_vuint_run f4 x00 _ n4 Hh4 Hr4 ltac:(vm_compute; reflexivity))
    as (f5 & R5 & Hh5 & Hr5 & Ho5).
  destruct (read_vuint_run f5 ver _ (CInt.u32 (n4 + 1)) Hh5 Hr5 Hver)
    as (f6 & R6 & Hh6 & Hr6 & Ho6).
  destruct (read_vuint_run f6 encf _ (CInt.u32 (CInt.u32 (n4 + 1) + 1)) Hh6 Hr6
              Henc) as (f7 & R7 & Hh7 & Hr7 & Ho7).
  set (n7 := CInt.u32 (CInt.u32 (CInt.u32 (n4 + 1) + 1) + 1)) in R7.
  destruct (read_uint8_run f7 lg _ (nth 0 (uninit 1) 0) n7 Hh7 Hr7)
    as (f8 & R8 & Hh8 & Hr8 & Ho8).
  destruct (read_buf_run f8 salt _ (rar5_salt (glob w)) SIZE_SALT50
              (CInt.u32 (n7 + 1)) Hh8 Hr8 ltac:(rewrite Lsalt; reflexivity)
              ltac:(unfold SIZE_SALT50; lia) Z16)
    as (f9 & R9 & Hh9 & Hr9 & Ho9).
  assert (Hclear : (if CInt.has (byte_val encf) CHFL_CRYPT_PSWCHECK
                    then read_buf (PswCheck (glob w1)) SIZE_PSWCHECK
                                  (CInt.u32 (CInt.u32 (n7 + 1) + SIZE_SALT50)) f9
                    else ((1, PswCheck (glob w1),
                           CInt.u32 (CInt.u32 (n7 + 1) + SIZE_SALT50)), f9))
                   = ((1, PswCheck (glob w),
                       CInt.u32 (CInt.u32 (n7 + 1) + SIZE_SALT50)), f9))
    by (rewrite Hflag; reflexivity).
  assert (Hclear' : (if CInt.has (byte_val encf) CHFL_CRYPT_PSWCHECK
                     then read_buf (uninit SIZE_PSWCHECK_CSUM) SIZE_PSWCHECK_CSUM
                                   (CInt.u32 (CInt.u32 (n7 + 1) + SIZE_SALT50)) f9
                     else ((1, [],
                            CInt.u32 (CInt.u32 (n7 + 1) + SIZE_SALT50)), f9))
                    = ((1, @nil Z,
                        CInt.u32 (CInt.u32 (n7 + 1) + SIZE_SALT50)), f9))
    by (rewrite Hflag; reflexivity).
  pose proof (crypt_header_block_read (size_t (ftell (fp w1))) name w1
                4 _ _ 1 _ _ 1 _ 1 (byte_val x00) _ 1 0 _ 1 0 _
                1 _ _ 1 _ _ 1 _ _ SIZE_SALT50 _ 1 _ 1 _ _ _ []
                f2 f3 f4 f5 f5 f5 f6 f7 f8 f9 f9 f9
                He R2 ltac:(lia) R3 ltac:(lia) R4 ltac:(lia) R5 ltac:(lia)
                eq_refl ltac:(lia) eq_refl ltac:(lia)
                R6 ltac:(lia) Hverle R7 ltac:(lia) R8 ltac:(lia) Hlg
                R9 ltac:(unfold SIZE_SALT50; lia)
                Hclear ltac:(lia) Hclear' ltac:(lia)) as Hhdr.
  rewrite Hflag in Hhdr.
  assert (Hnext : size_t (CInt.u64 (size_t (ftell (fp w1))
                                    + CInt.u64 (byte_val x15 + 4 + CInt.u32 1)
                                    + 0)) = 34).
  { change (ftell (fp w1)) with 8. rewrite (size_t_small 8 Hs) by lia.
    change (CInt.u64 (8 + CInt.u64 (byte_val x15 + 4 + CInt.u32 1) + 0)) with 34.
    apply size_t_small; [exact Hs | lia]. }
  rewrite Hnext in Hhdr.
  assert (Ho : offset f9 = 34).
  { rewrite Ho9, Ho8, Ho7, Ho6, Ho5, Ho4, Ho3, Ho2. reflexivity. }
  assert (Hseek : fseek (CInt.i64 34) SEEK_SET f9
                  = mkFILE (content f9) 34 false (device f9) (reads f9)).
  { change (CInt.i64 34) with 34.
    rewrite (fseek_ok 34 SEEK_SET f9) by (cbv beta iota zeta; unfold CInt.INT64_MAX; lia).
    reflexivity. }
  set (f10 := mkFILE (content f9) 34 false (device f9) (reads f9)) in Hseek.
  assert (Hh10 : healthy f10).
  { split; [exact (proj1 Hh9) | cbn; lia]. }
  assert (Hr10 : remaining f10 = iv ++ rest).
  { rewrite <- Hr9. unfold remaining, f10. cbn [offset content].
    rewrite Ho. reflexivity. }
  destruct (read_buf_run f10 iv rest (uninit SIZE_INITV) SIZE_INITV 0 Hh10 Hr10
              ltac:(rewrite Liv; reflexivity) ltac:(unfold SIZE_INITV; lia) Z16)
    as (f11 & R11 & _).
  rewrite <- Hseek in R11.
  destruct (blocks_end_behind_latch fuel name w1 _ 34 _ _ _ f11 Hhdr
              ltac:(lia) eq_refl R11) as [Hrec _].
  rewrite (Hrec ltac:(unfold SIZE_INITV; lia)). run.
  change (CInt.i32 (0 + 1)) with 1. change (1 =? 0) with false. run.
  exists f11. unfold rar5_record.
  change (Z.to_nat SIZE_SALT50) with 16%nat.
  change (Z.to_nat SIZE_INITV) with 16%nat.
  rewrite !firstn_store by (rewrite length_map; assumption).
  rewrite (firstn_all2 (n := 16) (map byte_val salt))
    by (rewrite length_map; lia).
  rewrite (firstn_all2 (n := 16) (map byte_val iv))
    by (rewrite length_map; lia).
  reflexivity.
Qed.

End CryptHeaderBlock.

Section EncryptedLatch.

Context {env : Environment}.

(** C8.  A crypt header block sets [Encrypted], and the header read
    behind it ends the archive.  First part: at a block of the type
    [HEAD_CRYPT] whose fields are read, with a version of at most
    [CRYPT_VERSION] and a count of at most 24, the header read sets
    [Encrypted] and stores the count and the salt; with the
    password-check flag clear [PswCheck] stays as it was, with the flag
    set it takes the check value, whatever the checksum is (the
    comparison only goes to [UsePswCheck]).  When the position of the
    next block is 0 the loop over the blocks ends there without a record.
    Otherwise the loop seeks to that position and reads the IV: when the
    read gets at least one byte it prints the line made of the base name,
    the salt, the count, the IV and what [PswCheck] holds, adds one to
    [found], and the loop ends; when the read gets nothing it prints no
    record, only the message about the IV on stderr, and the loop ends.
    Second part: from the start of the program, for a healthy first
    archive that is the RAR5 magic and one crypt header block with fields
    of one byte and the password-check flag clear, followed by 16 bytes,
    [rar2john] prints on stdout exactly the record whose check field is
    that of twelve zero bytes. *)
Theorem crypt_block_latches_encrypted :
  (forall (fuel : nat) (name : string) (w : World)
          (r0 crc n0 r1 block_size n1 r2 n2 r3 flags n3 r4 extra_size n4
           r5 data_size n5 r6 ver n6 r7 enc_flags n7 r8 lg n8 r9 n9
           r10 n10 r11 n11 : Z)
          (salt check chksum : list Z)
          (f0 f1 f2 f3 f4 f5 f6 f7 f8 f9 f10 f11 : FILE),
      Encrypted (glob w) = false ->
      read_uint32 0 (fp w) = ((r0, crc, n0), f0) -> r0 <> 0 ->
      read_vuint n0 f0 = ((r1, block_size, n1), f1) -> r1 <> 0 ->
      read_uint8 (nth 0 (uninit 1) 0) n1 f1 = ((r2, HEAD_CRYPT, n2), f2) ->
      r2 <> 0 ->
      read_vuint n2 f2 = ((r3, flags, n3), f3) -> r3 <> 0 ->
      (if CInt.has flags HFL_EXTRA then read_vuint n3 f3
       else ((1, 0, n3), f3))
      = ((r4, extra_size, n4), f4) -> r4 <> 0 ->
      (if CInt.has flags HFL_DATA then read_vuint n4 f4
       else ((1, 0, n4), f4))
      = ((r5, data_size, n5), f5) -> r5 <> 0 ->
      read_vuint n5 f5 = ((r6, ver, n6), f6) -> r6 <> 0 ->
      ver <= CRYPT_VERSION ->
      read_vuint n6 f6 = ((r7, enc_flags, n7), f7) -> r7 <> 0 ->
      read_uint8 (nth 0 (uninit 1) 0) n7 f7 = ((r8, lg, n8), f8) -> r8 <> 0 ->
      lg <= CRYPT5_KDF_LG2_COUNT_MAX ->
      read_buf (rar5_salt (glob w)) SIZE_SALT50 n8 f8 = ((r9, salt, n9), f9) ->
      r9 <> 0 ->
      (if CInt.has enc_flags CHFL_CRYPT_PSWCHECK
       then read_buf (PswCheck (glob w)) SIZE_PSWCHECK n9 f9
       else ((1, PswCheck (glob w), n9), f9))
      = ((r10, check, n10), f10) -> r10 <> 0 ->
      (if CInt.has enc_flags CHFL_CRYPT_PSWCHECK
       then read_buf (uninit SIZE_PSWCHECK_CSUM) SIZE_PSWCHECK_CSUM n10 f10
       else ((1, [], n10), f10))
      = ((r11, chksum, n11), f11) -> r11 <> 0 ->
      let HeadSize := CInt.u64 (block_size + 4 + CInt.u32 r1) in
      let next :=
        size_t (CInt.u64 (size_t (offset (fp w)) + HeadSize + data_size)) in
      let g :=
        mkGlobals (verbose (glob w)) true check lg
                  (if CInt.has enc_flags CHFL_CRYPT_PSWCHECK
                   then mem_equal
                          (SHA256 (firstn (Z.to_nat SIZE_PSWCHECK) check))
                          chksum SIZE_PSWCHECK_CSUM
                   else false)
                  salt in
      read_rar5_header (size_t (offset (fp w))) name w
      = (inr next, mkWorld f11 g (stdout w) (stderr w) (found w))
      /\ (next = 0 ->
          rar5_blocks (S fuel) name w
          = (inr tt, mkWorld f11 g (stdout w) (stderr w) (found w)))
      /\ (next <> 0 ->
          forall (r n : Z) (iv : list Z) (f' : FILE),
            read_buf (uninit SIZE_INITV) SIZE_INITV 0
                     (fseek (CInt.i64 next) SEEK_SET f11)
            = ((r, iv, n), f') ->
            (r <> 0 ->
             rar5_blocks (S (S fuel)) name w
             = (inr tt,
                mkWorld f' g
                  (stdout w
                     ++ [(basename name ++ ":$rar5$16$"
                            ++ base64_convert_cp (firstn 16 salt) ++ "$"
                            ++ dec lg ++ "$"
                            ++ base64_convert_cp (firstn 16 iv) ++ "$12$"
                            ++ base64_convert_cp (firstn 12 check)
                            ++ nl)%string])
                  (stderr w) (CInt.i32 (found w + 1))))
            /\ (r = 0 ->
                rar5_blocks (S (S fuel)) name w
                = (inr tt,
                   mkWorld f' g (stdout w) (stderr w ++ [D_iv_short name])
                           (found w)))))
  /\ (forall (fuel : nat) (fs : filesystem) (self name : string) (v : bool)
             (d : disk_file) (crc salt iv rest : list byte)
             (ver encf lg : byte) (w : World),
        1 <= sizeof_size_t ->
        glob w = initial_globals false ->
        fs name = Some d ->
        healthy_reads d = None ->
        image d = bytes_of RAR5_MAGIC ++ crc ++ [x15; x04; x00; ver; encf; lg]
                    ++ salt ++ iv ++ rest ->
        List.length crc = 4%nat ->
        byte_val ver < 128 ->
        byte_val ver <= CRYPT_VERSION ->
        byte_val encf < 128 ->
        CInt.has (byte_val encf) CHFL_CRYPT_PSWCHECK = false ->
        byte_val lg <= CRYPT5_KDF_LG2_COUNT_MAX ->
        List.length salt = 16%nat ->
        List.length iv = 16%nat ->
        exists w' : World,
          rar2john (S (S fuel)) fs self v [name] w = (inr 0, w')
          /\ stdout w'
             = stdout w
                 ++ [(basename name ++ ":$rar5$16$"
                        ++ base64_convert_cp (map byte_val salt) ++ "$"
                        ++ dec (byte_val lg) ++ "$"
                        ++ base64_convert_cp (map byte_val iv) ++ "$12$"
                        ++ base64_convert_cp (repeat 0 12) ++ nl)%string]
          /\ Encrypted (glob w') = true).
Proof.
  split.
  - intros fuel name w r0 crc n0 r1 block_size n1 r2 n2 r3 flags n3
           r4 extra_size n4 r5 data_size n5 r6 ver n6 r7 enc_flags n7
           r8 lg n8 r9 n9 r10 n10 r11 n11 salt check chksum
           f0 f1 f2 f3 f4 f5 f6 f7 f8 f9 f10 f11
           He H0 Hr0 H1 Hr1 H2 Hr2 H3 Hr3 Hx Hr4 Hd Hr5 H6 Hr6 Hver H7 Hr7
           H8 Hr8 Hlg H9 Hr9 H10 Hr10 H11 Hr11 HeadSize next g.
    pose proof (crypt_header_block_read (size_t (offset (fp w))) name w
                  r0 crc n0 r1 block_size n1 r2 n2 r3 flags n3 r4 extra_size n4
                  r5 data_size n5 r6 ver n6 r7 enc_flags n7 r8 lg n8 r9 n9
                  r10 n10 r11 n11 salt check chksum
                  f0 f1 f2 f3 f4 f5 f6 f7 f8 f9 f10 f11
                  He H0 Hr0 H1 Hr1 H2 Hr2 H3 Hr3 Hx Hr4 Hd Hr5 H6 Hr6 Hver
                  H7 Hr7 H8 Hr8 Hlg H9 Hr9 H10 Hr10 H11 Hr11) as Hhdr.
    fold HeadSize next g in Hhdr.
    split; [exact Hhdr |]. split.
    + intros Hz. cbn [rar5_blocks]. unfold call, ftell. run.
      rewrite Hhdr. run. rewrite Hz. reflexivity.
    + intros Hnz r n iv f' Hrd.
      destruct (blocks_end_behind_latch fuel name w _ next r n iv f' Hhdr Hnz
                  eq_refl Hrd) as [Hyes Hno].
      split; intros Hr; [rewrite (Hyes Hr) | rewrite (Hno Hr)]; reflexivity.
  - intros fuel fs self name v d crc salt iv rest ver encf lg w
           Hs Hg Hfs Hdv Himg Lcrc Hver Hverle Henc Hflag Hlg Lsalt Liv.
    unfold rar2john. cbn [fold_left]. run.
    unfold process_file, fopen. rewrite Hfs, Hdv.
    unfold RAR3_MAGIC_SIZE, RAR_OLD_MAGIC_SIZE. run.
    rewrite (fread_first (image d) None 7) by lia.
    assert (H7 : 7 <= Z.of_nat (List.length (image d))).
    { rewrite Himg, length_app. cbn [bytes_of RAR5_MAGIC map List.length]. lia. }
    destruct (Z.leb_spec 7 (Z.of_nat (List.length (image d)))); [| lia].
    assert (Hmagic : map byte_val (firstn (Z.to_nat 7) (image d))
                     = firstn 7 RAR5_MAGIC)
      by (rewrite Himg; reflexivity).
    rewrite Hmagic. change (1 =? 1) with true. run.
    change (mem_equal (firstn 7 RAR5_MAGIC) RAR_OLD_MAGIC 4) with false.
    change (mem_equal (firstn 7 RAR5_MAGIC) RAR3_MAGIC 7) with false.
    change (mem_equal (firstn 7 RAR5_MAGIC) [77; 90] 2) with false. run.
    rewrite Hg. cbn [initial_globals verbose Encrypted PswCheck rar5_interations
                     UsePswCheck rar5_salt].
    match goal with
    | |- context [process_file5 _ fs name ?w0] =>
        destruct (crypt_header_archive5 fuel fs name d crc salt iv rest ver encf
                    lg w0 Hs eq_refl Hfs Hdv Himg Lcrc Hver Hverle Henc Hflag Hlg
                    Lsalt Liv) as (f' & E)
    end.
    unfold call. rewrite E. run.
    eexists. split; [reflexivity |]. cbn [stdout glob Encrypted].
    split; [| reflexivity].
    unfold rar5_record.
    change (Z.to_nat SIZE_SALT50) with 16%nat.
    change (Z.to_nat SIZE_INITV) with 16%nat.
    rewrite (firstn_all2 (n := 16) (map byte_val salt))
      by (rewrite length_map; lia).
    rewrite (firstn_all2 (n := 16) (map byte_val iv))
      by (rewrite length_map; lia).
    reflexivity.
Qed.

End EncryptedLatch.

(** A crypt header block with the password-check flag and a checksum
    that does not match, read from its start; and the program on an
    archive whose crypt header block has the flag clear. *)
Lemma crypt_block_latches_encrypted_witness :
  let env := Sample.host64 in
  let block := Sample.crypt_block5 1 15 (Sample.run_of 32 12 ++ [9; 9; 9; 9])
                                   (Sample.run_of 64 16) in
  let w := set_fp (Sample.stream block) (Sample.fresh false) in
  let archive := RAR5_MAGIC ++ Sample.crypt_block5 0 15 [] (Sample.run_of 64 16) in
  (exists w' : World,
      rar5_blocks 2 "a.rar" w = (inr tt, w')
      /\ stdout w'
         = [("a.rar:$rar5$16$000102030405060708090a0b0c0d0e0f$15$"
               ++ "404142434445464748494a4b4c4d4e4f$12$202122232425262728292a2b"
               ++ nl)%string]
      /\ Encrypted (glob w') = true
      /\ UsePswCheck (glob w') = false)
  /\ (exists w' : World,
         rar2john 2 (Sample.disk archive None) "rar2john" false ["a.rar"%string]
                  (Sample.fresh false)
         = (inr 0, w')
         /\ stdout w'
            = [("a.rar:$rar5$16$000102030405060708090a0b0c0d0e0f$15$"
                  ++ "404142434445464748494a4b4c4d4e4f$12$000000000000000000000000"
                  ++ nl)%string]).
Proof.
  intros env block w archive.
  destruct (@crypt_block_latches_encrypted env) as [Hblock Hprogram].
  split.
  - edestruct (Hblock 0%nat "a.rar"%string w) as (_ & _ & Hnext);
      [evaluated .. |].
    edestruct Hnext as [Hrecord _]; [evaluated | evaluated |].
    eexists. split; [apply Hrecord; evaluated |].
    vm_compute. repeat split; reflexivity.
  - destruct (Hprogram 0%nat (Sample.disk archive None) "rar2john"%string
                       "a.rar"%string false (mkDisk (bytes_of archive) None)
                       (bytes_of [0; 0; 0; 0]) (bytes_of (Sample.run_of 0 16))
                       (bytes_of (Sample.run_of 64 16)) [] x00 x00 x0f
                       (Sample.fresh false))
      as (w' & E & O & _); [evaluated .. |].
    exists w'. split; [exact E |]. rewrite O. vm_compute. reflexivity.
Defined.

(** C8 as stated fails: behind a crypt header block that ends the
    file the next header read gets no byte for the IV; [Encrypted] is
    set, but no record is printed, only the message about the IV (and
    the one about no candidate) on stderr. *)
Lemma crypt_header_at_end_of_file :
  let env := Sample.host64 in
  let archive := RAR5_MAGIC ++ Sample.crypt_block5 0 15 [] [] in
  let '(r, w') := process_file5 4 (Sample.disk archive None) "a.rar"
                                (Sample.fresh false) in
  r = inr 1
  /\ Encrypted (glob w') = true
  /\ stdout w' = []
  /\ stderr w' = [D_iv_short "a.rar"; D_no_candidate "a.rar"]
  /\ found w' = 0.
Proof. vm_compute. repeat split; reflexivity. Qed.
